(** * Anomaly-detection plugin: count-min-sketch behaviour profiles

    A shallow embedding of [plugins/anomalydetection/src/plugin.cpp]:
    the event-buffer decoder, the fingerprint extractor
    ([extract_filterchecks_concat_profile] and its raw-event fallback),
    the configuration checks of [parse_init_config], [init], the
    extraction entry point [extract] and the dispatch loop [parse_event].

    Conventions.
    - Fixed-width integers are [Z] with the wrap-around written out.
    - A host table lookup that raises [plugin_exception] in the SDK
      ([get_entry] on a missing key) is a [None] of the finite map.
    - A C++ function that can let an exception escape returns a [result];
      [Throw] is the escaping exception. A call that can end the process
      returns an [outcome]. *)

From Stdlib Require Import ZArith NArith Lia List Ascii String.
From Stdlib.Strings Require Import Byte.
From stdpp Require Import gmap strings list fin_maps pretty.

Local Open Scope Z_scope.

(** ** Machine integers *)

Definition UINT32_MAX : Z := 4294967295.
Definition UINT64_MAX : Z := 18446744073709551615.

Definition wrap_u16 (z : Z) : Z := z mod 2 ^ 16.
Definition wrap_u32 (z : Z) : Z := z mod 2 ^ 32.
Definition wrap_u64 (z : Z) : Z := z mod 2 ^ 64.

(** Reinterpretation of a 64-bit pattern as [int64_t]. *)
Definition to_i64 (z : Z) : Z :=
  let u := wrap_u64 z in if u <? 2 ^ 63 then u else u - 2 ^ 64.

(** [std::to_string] on an integer: base 10, a leading [-] when negative. *)
Definition to_string (z : Z) : string := pretty z.

(** [std::to_string(bool)]: the bool is promoted to [int]. *)
Definition to_string_bool (b : bool) : string := if b then "1"%string else "0"%string.

(** ** Strings ([std::string] operations used by the plugin) *)

Definition str_empty (s : string) : bool :=
  match s with EmptyString => true | String _ _ => false end.

Definition strlen (s : string) : Z := Z.of_nat (String.length s).

(** [s.find(needle)]: position of the first occurrence, [None] for [npos]. *)
Definition str_find (needle s : string) : option nat := String.index 0 needle s.

(** [s.substr(pos)] and [s.substr(0, n)] for in-range arguments. *)
Fixpoint str_drop (n : nat) (s : string) : string :=
  match n, s with
  | O, _ => s
  | S n', String _ s' => str_drop n' s'
  | S _, EmptyString => EmptyString
  end.

Fixpoint str_take (n : nat) (s : string) : string :=
  match n, s with
  | S n', String c s' => String c (str_take n' s')
  | _, _ => EmptyString
  end.

(** [s.find_last_of(c)]. *)
Fixpoint find_last_of (c : ascii) (s : string) : option nat :=
  match s with
  | EmptyString => None
  | String a s' =>
      match find_last_of c s' with
      | Some p => Some (S p)
      | None => if Ascii.eqb a c then Some O else None
      end
  end.

(** [s.find_first_not_of(c, pos)]. *)
Fixpoint find_first_not_of_from (c : ascii) (s : string) : option nat :=
  match s with
  | EmptyString => None
  | String a s' =>
      if Ascii.eqb a c then option_map S (find_first_not_of_from c s') else Some O
  end.

Definition find_first_not_of (c : ascii) (pos : nat) (s : string) : option nat :=
  option_map (Nat.add pos) (find_first_not_of_from c (str_drop pos s)).

(** [s.find_last_not_of(c)]. *)
Fixpoint find_last_not_of (c : ascii) (s : string) : option nat :=
  match s with
  | EmptyString => None
  | String a s' =>
      match find_last_not_of c s' with
      | Some p => Some (S p)
      | None => if Ascii.eqb a c then None else Some O
      end
  end.

(** [std::filesystem::path(s).is_absolute()] on POSIX: the path has a root
    directory, that is, it starts with a slash. *)
Definition is_absolute (s : string) : bool := String.prefix "/" s.

(** ** Event codes

    The numeric values of the [PPME_*] constants live in
    [driver/ppm_events_public.h]; the plugin only compares codes with one
    another, so the codes it names are kept symbolic and every other code of
    the enumeration is [PPME_OTHER]. *)

Inductive ppm_event_code : Type :=
  | PPME_SYSCALL_OPEN_X
  | PPME_SYSCALL_CREAT_X
  | PPME_SYSCALL_OPENAT_2_X
  | PPME_SYSCALL_OPENAT2_X
  | PPME_SYSCALL_OPEN_BY_HANDLE_AT_X
  | PPME_SOCKET_ACCEPT_5_X
  | PPME_SOCKET_ACCEPT4_6_X
  | PPME_SOCKET_CONNECT_X
  | PPME_SYSCALL_EXECVE_19_X
  | PPME_SYSCALL_EXECVEAT_X
  | PPME_SYSCALL_CLONE_20_X
  | PPME_SYSCALL_CLONE3_X
  | PPME_OTHER (code : Z).

#[global] Instance ppm_event_code_eq_dec : EqDecision ppm_event_code.
Proof. solve_decision. Defined.

Definition PPM_AT_FDCWD : Z := -100.

(** [supported_codes_fd_profile] of [parse_init_config]. *)
Definition supported_codes_fd_profile : list ppm_event_code :=
  [ PPME_SYSCALL_OPEN_X; PPME_SOCKET_ACCEPT_5_X; PPME_SOCKET_ACCEPT4_6_X;
    PPME_SYSCALL_CREAT_X; PPME_SOCKET_CONNECT_X; PPME_SYSCALL_OPENAT_2_X;
    PPME_SYSCALL_OPENAT2_X; PPME_SYSCALL_OPEN_BY_HANDLE_AT_X ].

(** [supported_codes_any_profile]: the four process codes, then the fd codes
    inserted at the end. *)
Definition supported_codes_any_profile : list ppm_event_code :=
  [ PPME_SYSCALL_EXECVEAT_X; PPME_SYSCALL_EXECVE_19_X;
    PPME_SYSCALL_CLONE_20_X; PPME_SYSCALL_CLONE3_X ] ++ supported_codes_fd_profile.

(** [std::find(v.begin(), v.end(), code) != v.end()]. *)
Definition code_in (code : ppm_event_code) (v : list ppm_event_code) : bool :=
  bool_decide (code ∈ v).

(** ** The packed event buffer

    After the fixed header come [nparams] 16-bit lengths, then the parameter
    payloads. [evt_data] holds the bytes that follow the header; a position
    is a byte offset into it. The host hands over well-formed buffers; a read
    past the end of [evt_data], which the C++ code does not check for, yields
    zero bytes here. *)

Record event : Type := {
  evt_type : ppm_event_code;
  evt_tid : Z;              (* [get_tid()], read as [int64_t] *)
  evt_nparams : Z;          (* header field [nparams], [uint32_t] *)
  evt_data : list byte
}.

Record sinsp_param : Type := {
  param_len : Z;
  param_pointer : option Z  (* [None] is [nullptr] *)
}.

Definition byte_at (data : list byte) (p : Z) : Z :=
  if p <? 0 then 0 else
  match data !! Z.to_nat p with
  | Some b => Z.of_N (Byte.to_N b)
  | None => 0
  end.

(** Little-endian load of [n] bytes at [p]. *)
Fixpoint load_le (data : list byte) (p : Z) (n : nat) : Z :=
  match n with
  | O => 0
  | S n' => byte_at data p + 256 * load_le data (p + 1) n'
  end.

Definition load_u16 (data : list byte) (p : Z) : Z := load_le data p 2.
Definition load_u32 (data : list byte) (p : Z) : Z := load_le data p 4.
Definition load_u64 (data : list byte) (p : Z) : Z := load_le data p 8.
Definition load_i64 (data : list byte) (p : Z) : Z := to_i64 (load_le data p 8).

(** [(char* )p] turned into a [std::string]: the bytes up to the first NUL. *)
Fixpoint cstr (bs : list byte) : string :=
  match bs with
  | [] => EmptyString
  | b :: bs' =>
      if Byte.eqb b x00 then EmptyString else String (ascii_of_byte b) (cstr bs')
  end.

Definition load_cstr (data : list byte) (p : Z) : string :=
  if p <? 0 then EmptyString else cstr (drop (Z.to_nat p) data).

(** [len[j]] of the lengths array. *)
Definition evt_len (evt : event) (j : nat) : Z :=
  load_u16 (evt_data evt) (2 * Z.of_nat j).

(** The loop [for (j = 0; j < num_param; j++) dataoffset += len[j]] on a
    [uint32_t] accumulator. *)
Fixpoint sum_lens (evt : event) (num_param : nat) : Z :=
  match num_param with
  | O => 0
  | S n => wrap_u32 (sum_lens evt n + evt_len evt n)
  end.

Definition get_syscall_evt_param (evt : event) (num_param : nat) : sinsp_param :=
  {| param_len := evt_len evt num_param;
     param_pointer := Some (2 * evt_nparams evt + sum_lens evt num_param) |}.

(** ** Profile field selectors

    [plugin_sinsp_filterchecks::check_type] is declared in
    [plugin_sinsp_filterchecks.h]; the constructors below are the members the
    extractor switches on, and [TYPE_OTHER] stands for every member it leaves
    to the [default] branch. *)

Inductive check_type : Type :=
  | TYPE_CONTAINER_ID | TYPE_NAME | TYPE_PNAME | TYPE_ANAME
  | TYPE_ARGS | TYPE_CMDNARGS | TYPE_CMDLENARGS
  | TYPE_CMDLINE | TYPE_PCMDLINE | TYPE_ACMDLINE | TYPE_EXELINE
  | TYPE_EXE | TYPE_PEXE | TYPE_AEXE
  | TYPE_EXEPATH | TYPE_PEXEPATH | TYPE_AEXEPATH
  | TYPE_CWD | TYPE_TTY
  | TYPE_PID | TYPE_PPID | TYPE_APID | TYPE_VPID | TYPE_PVPID
  | TYPE_SID | TYPE_SNAME | TYPE_SID_EXE | TYPE_SID_EXEPATH
  | TYPE_VPGID | TYPE_VPGID_NAME | TYPE_VPGID_EXE | TYPE_VPGID_EXEPATH
  | TYPE_ENV
  | TYPE_IS_EXE_WRITABLE | TYPE_IS_EXE_UPPER_LAYER | TYPE_IS_EXE_FROM_MEMFD
  | TYPE_EXE_INO | TYPE_EXE_INO_CTIME | TYPE_EXE_INO_MTIME
  | TYPE_IS_SID_LEADER | TYPE_IS_VPGID_LEADER
  | TYPE_FDNUM | TYPE_FDNAME | TYPE_DIRECTORY | TYPE_FILENAME
  | TYPE_INO | TYPE_DEV | TYPE_FDNAMERAW
  | TYPE_CUSTOM_ANAME_LINEAGE_CONCAT
  | TYPE_CUSTOM_AEXE_LINEAGE_CONCAT
  | TYPE_CUSTOM_AEXEPATH_LINEAGE_CONCAT
  | TYPE_CUSTOM_FDNAME_PART1 | TYPE_CUSTOM_FDNAME_PART2
  | TYPE_OTHER.

#[global] Instance check_type_eq_dec : EqDecision check_type.
Proof. solve_decision. Defined.

Record plugin_sinsp_filterchecks_field : Type := {
  id : check_type;
  argid : Z;          (* [uint32_t], the [k] of [proc.aname[k]] *)
  argname : string    (* the [KEY] of [proc.env[KEY]] *)
}.

(** ** The host thread table

    One record per thread with the columns the plugin binds in [init]; the
    [args], [env] and [file_descriptors] subtables are a list of values, a
    list of values and a map keyed by the [int64_t] fd. [lastevent_fd] is the
    column the plugin adds. String columns hold non-null strings. *)

Record fd_info : Type := {
  fd_name : string;
  fd_nameraw : string;
  fd_dev : Z;         (* [uint32_t] *)
  fd_ino : Z          (* [uint64_t] *)
}.

Record thread_entry : Type := {
  tid : Z;
  pid : Z;
  ptid : Z;
  sid : Z;
  comm : string;
  exe : string;
  exe_path : string;
  exe_writable : bool;
  exe_upper_layer : bool;
  exe_from_memfd : bool;
  exe_ino : Z;
  exe_ino_ctime : Z;
  exe_ino_mtime : Z;
  args : list string;
  env : list string;
  file_descriptors : gmap Z fd_info;
  vtid : Z;
  vpid : Z;
  vpgid : Z;
  tty : Z;
  cwd : string;
  container_id : string;
  lastevent_fd : Z
}.

Abbreviation thread_table := (gmap Z thread_entry).

(** [m_lastevent_fd_field.write_value(tw, thread_entry, fd)]. *)
Definition set_lastevent_fd (fd : Z) (t : thread_entry) : thread_entry :=
  {| tid := tid t; pid := pid t; ptid := ptid t; sid := sid t;
     comm := comm t; exe := exe t; exe_path := exe_path t;
     exe_writable := exe_writable t; exe_upper_layer := exe_upper_layer t;
     exe_from_memfd := exe_from_memfd t; exe_ino := exe_ino t;
     exe_ino_ctime := exe_ino_ctime t; exe_ino_mtime := exe_ino_mtime t;
     args := args t; env := env t; file_descriptors := file_descriptors t;
     vtid := vtid t; vpid := vpid t; vpgid := vpgid t; tty := tty t;
     cwd := cwd t; container_id := container_id t;
     lastevent_fd := fd |}.

(** ** Event classes used by the inner switches of the extractor *)

(** The eight codes for which an fd selector is evaluated; on every other
    code the selector's [default] branch runs. *)
Definition fd_producing (c : ppm_event_code) : bool :=
  match c with
  | PPME_SYSCALL_OPEN_X | PPME_SYSCALL_CREAT_X
  | PPME_SYSCALL_OPENAT_2_X | PPME_SYSCALL_OPENAT2_X
  | PPME_SYSCALL_OPEN_BY_HANDLE_AT_X
  | PPME_SOCKET_ACCEPT_5_X | PPME_SOCKET_ACCEPT4_6_X
  | PPME_SOCKET_CONNECT_X => true
  | _ => false
  end.

(** The selectors named fd-dependent by the specification. *)
Definition fd_dependent (i : check_type) : bool :=
  match i with
  | TYPE_FDNUM | TYPE_FDNAME | TYPE_DIRECTORY | TYPE_FILENAME
  | TYPE_INO | TYPE_DEV | TYPE_FDNAMERAW
  | TYPE_CUSTOM_FDNAME_PART1 | TYPE_CUSTOM_FDNAME_PART2 => true
  | _ => false
  end.

(** ** Exceptions

    [plugin_exception] is what the SDK raises on a failed table access;
    [out_of_range] is what [std::string::substr] and [std::vector::at] raise. *)

Inductive exn : Type := plugin_exception | out_of_range.

Inductive result (A : Type) : Type :=
  | Ok (a : A)
  | Throw (e : exn).
Arguments Ok {A} a.
Arguments Throw {A} e.

Section Extractor.

(** [plugin_anomalydetection::utils::concatenate_paths] is defined in
    [plugin_utils.cpp]; the extractor is parametric in it. *)
Variable concatenate_paths : string -> string -> string.

(** A raw parameter read: the [nullptr] test, then the decoder. *)
Definition with_param {A : Type} (evt : event) (n : nat)
    (dflt : A) (k : Z -> A) : A :=
  match param_pointer (get_syscall_evt_param evt n) with
  | None => dflt
  | Some p => k p
  end.

(** [extract_filterchecks_evt_params_fallbacks(evt, field, cwd)]. *)
Definition extract_filterchecks_evt_params_fallbacks
    (evt : event) (field : plugin_sinsp_filterchecks_field) (cwd : string) : string :=
  let data := evt_data evt in
  match id field with
  | TYPE_FDNUM =>
      match evt_type evt with
      | PPME_SYSCALL_OPEN_X | PPME_SYSCALL_CREAT_X
      | PPME_SYSCALL_OPENAT_2_X | PPME_SYSCALL_OPENAT2_X
      | PPME_SYSCALL_OPEN_BY_HANDLE_AT_X
      | PPME_SOCKET_ACCEPT_5_X | PPME_SOCKET_ACCEPT4_6_X =>
          with_param evt 0 EmptyString (fun p => to_string (load_i64 data p))
      | PPME_SOCKET_CONNECT_X =>
          with_param evt 2 EmptyString (fun p => to_string (load_i64 data p))
      | _ => EmptyString
      end
  | TYPE_FDNAME | TYPE_DIRECTORY | TYPE_FILENAME =>
      match evt_type evt with
      | PPME_SYSCALL_OPEN_X | PPME_SYSCALL_CREAT_X =>
          with_param evt 1 EmptyString (fun p =>
            let tstr := load_cstr data p in
            if negb (is_absolute tstr) then concatenate_paths cwd tstr
            else concatenate_paths EmptyString tstr)
      | PPME_SYSCALL_OPENAT_2_X | PPME_SYSCALL_OPENAT2_X =>
          with_param evt 2 EmptyString (fun p =>
            concatenate_paths cwd (load_cstr data p))
      | PPME_SYSCALL_OPEN_BY_HANDLE_AT_X =>
          with_param evt 3 EmptyString (fun p =>
            concatenate_paths EmptyString (load_cstr data p))
      | _ => EmptyString
      end
  | TYPE_INO =>
      match evt_type evt with
      | PPME_SYSCALL_OPEN_X | PPME_SYSCALL_CREAT_X =>
          with_param evt 5 EmptyString (fun p => to_string (load_u64 data p))
      | PPME_SYSCALL_OPENAT_2_X | PPME_SYSCALL_OPENAT2_X =>
          with_param evt 7 EmptyString (fun p => to_string (load_u64 data p))
      | PPME_SYSCALL_OPEN_BY_HANDLE_AT_X =>
          with_param evt 5 EmptyString (fun p => to_string (load_u64 data p))
      | _ => EmptyString
      end
  | TYPE_DEV =>
      match evt_type evt with
      | PPME_SYSCALL_OPEN_X | PPME_SYSCALL_CREAT_X =>
          with_param evt 4 EmptyString (fun p => to_string (load_u32 data p))
      | PPME_SYSCALL_OPENAT_2_X | PPME_SYSCALL_OPENAT2_X =>
          with_param evt 6 EmptyString (fun p => to_string (load_u32 data p))
      | PPME_SYSCALL_OPEN_BY_HANDLE_AT_X =>
          with_param evt 4 EmptyString (fun p => to_string (load_u32 data p))
      | _ => EmptyString
      end
  | TYPE_FDNAMERAW =>
      match evt_type evt with
      | PPME_SYSCALL_OPEN_X | PPME_SYSCALL_CREAT_X =>
          with_param evt 1 EmptyString (fun p => load_cstr data p)
      | PPME_SYSCALL_OPENAT_2_X | PPME_SYSCALL_OPENAT2_X =>
          with_param evt 2 EmptyString (fun p => load_cstr data p)
      | PPME_SYSCALL_OPEN_BY_HANDLE_AT_X =>
          with_param evt 3 EmptyString (fun p => load_cstr data p)
      | _ => EmptyString
      end
  | _ => EmptyString
  end.


(** *** Argument and environment lists *)

(** The callback of [iterate_entries] over [args]: a separating blank unless
    the accumulator is still empty, then the value. *)
Definition append_arg (tstr arg : string) : string :=
  (if str_empty tstr then tstr else tstr +:+ " ") +:+ arg.

Definition join_args (init : string) (l : list string) : string :=
  fold_left append_arg l init.

(** [c += std::strlen(arg)] over [args]. *)
Definition sum_strlen (l : list string) : Z :=
  fold_left (fun c arg => c + strlen arg) l 0.

(** The callback of [TYPE_ENV] with a non-empty [argname], run over all
    entries: every matching entry overwrites [tstr]; [substr] raises when the
    value holds nothing but blanks ([first] is [npos]). *)
Fixpoint env_lookup (argname : string) (l : list string) (tstr : string)
    : result string :=
  match l with
  | [] => Ok tstr
  | env_var :: rest =>
      let nlen := String.length argname in
      if ((nlen + 1 <? String.length env_var)%nat
          && bool_decide (String.get nlen env_var = Some "="%char)
          && String.eqb (str_take nlen env_var) argname)%bool
      then
        match find_first_not_of " " (nlen + 1) env_var with
        | None => Throw out_of_range
        | Some first =>
            let last := default O (find_last_not_of " " env_var) in
            env_lookup argname rest
              (String.substring first (last - first + 1) env_var)
        end
      else env_lookup argname rest tstr
  end.

(** *** Walks over the parent chain *)

(** The loop shared by [TYPE_ANAME], [TYPE_AEXE], [TYPE_AEXEPATH],
    [TYPE_APID] and [TYPE_ACMDLINE] for [argid >= 1]; [n] counts the
    iterations still to run, so [j == argid - 1] is [n = 1]. A failed
    [get_entry] is caught inside the body and the loop goes on with the same
    [ptid]. [read] is the attribute read of the last iteration. *)
Fixpoint ancestor_walk (read : thread_entry -> string) (tt : thread_table)
    (ptid_ : Z) (n : nat) : string :=
  match n with
  | O => EmptyString
  | S n' =>
      match tt !! ptid_ with
      | None => ancestor_walk read tt ptid_ n'
      | Some lineage =>
          match n' with
          | O => read lineage
          | S _ =>
              if ptid_ =? 1 then EmptyString
              else ancestor_walk read tt (ptid lineage) n'
          end
      end
  end.

(** The loop of the session and process-group leader selectors: [key] is
    [sid] or [vpgid], [id_] the value of the current thread, [leader] the
    last ancestor that shares it. *)
Fixpoint leader_walk (key : thread_entry -> Z) (tt : thread_table)
    (id_ ptid_ : Z) (leader : thread_entry) (n : nat) : thread_entry :=
  match n with
  | O => leader
  | S n' =>
      match tt !! ptid_ with
      | None => leader_walk key tt id_ ptid_ leader n'
      | Some lineage =>
          if negb (id_ =? key lineage) then leader
          else leader_walk key tt id_ (ptid lineage) lineage n'
      end
  end.

(** The loop of the [TYPE_CUSTOM_*_LINEAGE_CONCAT] selectors. *)
Fixpoint lineage_concat (read : thread_entry -> string) (tt : thread_table)
    (ptid_ : Z) (tstr : string) (n : nat) : string :=
  match n with
  | O => tstr
  | S n' =>
      match tt !! ptid_ with
      | None => lineage_concat read tt ptid_ tstr n'
      | Some lineage =>
          let tstr' := tstr +:+ read lineage in
          match n' with
          | O => tstr'
          | S _ =>
              if ptid_ =? 1 then tstr'
              else lineage_concat read tt (ptid lineage) tstr' n'
          end
      end
  end.

(** Attribute reads used by the walks. *)
Definition read_pid (t : thread_entry) : string := to_string (pid t).
Definition read_cmdline (t : thread_entry) : string := join_args (comm t) (args t).

(** *** File-descriptor reads *)

(** The guarded block [fd_table.get_entry(tr, lastevent_fd)] followed by a
    column read; a missing fd entry leaves [tstr] empty. *)
Definition fd_read (read : fd_info -> string) (te : thread_entry) : string :=
  match file_descriptors te !! lastevent_fd te with
  | Some fd_entry => read fd_entry
  | None => EmptyString
  end.

(** The base directory of an [openat]: parameter 1 is the [dirfd]; its fd
    entry is fetched first, then [PPM_AT_FDCWD] selects the thread's [cwd]. *)
Definition openat_cwd (evt : event) (te : thread_entry) : string :=
  with_param evt 1 EmptyString (fun p =>
    let dirfd := load_i64 (evt_data evt) p in
    match file_descriptors te !! dirfd with
    | None => EmptyString
    | Some fd_entry => if dirfd =? PPM_AT_FDCWD then cwd te else fd_name fd_entry
    end).

(** [if (tstr.empty()) tstr = fallback]. *)
Definition or_else (tstr : string) (fallback : string) : string :=
  if str_empty tstr then fallback else tstr.

(** The split at the last slash of [TYPE_DIRECTORY] / [TYPE_FILENAME]. *)
Definition split_dir_file (i : check_type) (tstr : string) : string :=
  match find_last_of "/" tstr with
  | Some pos =>
      if bool_decide (i = TYPE_DIRECTORY) then str_take pos tstr
      else str_drop (pos + 1) tstr
  | None => tstr
  end.

(** The split at the first ["->"] of [TYPE_CUSTOM_FDNAME_PART1/2]. *)
Definition split_fdname_part (i : check_type) (tstr : string) : string :=
  match str_find "->" tstr with
  | Some pos =>
      if bool_decide (i = TYPE_CUSTOM_FDNAME_PART1) then str_take pos tstr
      else str_drop (pos + 2) tstr
  | None => EmptyString
  end.

(** *** One iteration of the profile loop

    The [switch (field.id)] of [extract_filterchecks_concat_profile] for a
    thread entry that was found. The result is either the exception that
    leaves the loop, or a pair: whether [behavior_profile_concat_str.clear()]
    ran, and the [tstr] appended after the switch. *)

Definition with_parent (tt : thread_table) (te : thread_entry)
    (read : thread_entry -> string) : result (bool * string) :=
  match tt !! ptid te with
  | Some lineage => Ok (false, read lineage)
  | None => Throw plugin_exception
  end.

Definition eval_field (tt : thread_table) (evt : event) (te : thread_entry)
    (field : plugin_sinsp_filterchecks_field) : result (bool * string) :=
  let keep (s : string) : result (bool * string) := Ok (false, s) in
  let clear_profile : result (bool * string) := Ok (true, EmptyString) in
  let k := Z.to_nat (argid field) in
  let fallback (cwd_ : string) :=
    extract_filterchecks_evt_params_fallbacks evt field cwd_ in
  let ancestor (read : thread_entry -> string) :=
    if argid field <? 1 then keep (read te)
    else keep (ancestor_walk read tt (ptid te) k) in
  let lineage (read : thread_entry -> string) :=
    if argid field <? 1 then keep EmptyString
    else keep (lineage_concat read tt (ptid te) (read te) k) in
  match id field with
  | TYPE_CONTAINER_ID => keep (container_id te)
  | TYPE_NAME => keep (comm te)
  | TYPE_PNAME => with_parent tt te comm
  | TYPE_ANAME => ancestor comm
  | TYPE_ARGS => keep (join_args EmptyString (args te))
  | TYPE_CMDNARGS => keep (to_string (Z.of_nat (length (args te))))
  | TYPE_CMDLENARGS => keep (to_string (sum_strlen (args te)))
  | TYPE_CMDLINE => keep (read_cmdline te)
  | TYPE_PCMDLINE => with_parent tt te read_cmdline
  | TYPE_ACMDLINE => ancestor read_cmdline
  | TYPE_EXELINE => keep (join_args (exe te) (args te))
  | TYPE_EXE => keep (exe te)
  | TYPE_PEXE => with_parent tt te exe
  | TYPE_AEXE => ancestor exe
  | TYPE_EXEPATH => keep (exe_path te)
  | TYPE_PEXEPATH => with_parent tt te exe_path
  | TYPE_AEXEPATH => ancestor exe_path
  | TYPE_CWD => keep (cwd te)
  | TYPE_TTY => keep (to_string (tty te))
  | TYPE_PID => keep (to_string (pid te))
  | TYPE_PPID => with_parent tt te read_pid
  | TYPE_APID => ancestor read_pid
  | TYPE_VPID => keep (to_string (vpid te))
  | TYPE_PVPID => with_parent tt te (fun l => to_string (vpid l))
  | TYPE_SID => keep (to_string (sid te))
  | TYPE_SNAME => keep (comm (leader_walk sid tt (sid te) (ptid te) te 9))
  | TYPE_SID_EXE => keep (exe (leader_walk sid tt (sid te) (ptid te) te 9))
  | TYPE_SID_EXEPATH => keep (exe_path (leader_walk sid tt (sid te) (ptid te) te 9))
  | TYPE_VPGID => keep (to_string (vpgid te))
  | TYPE_VPGID_NAME => keep (comm (leader_walk vpgid tt (vpgid te) (ptid te) te 5))
  | TYPE_VPGID_EXE => keep (exe (leader_walk vpgid tt (vpgid te) (ptid te) te 5))
  | TYPE_VPGID_EXEPATH =>
      keep (exe_path (leader_walk vpgid tt (vpgid te) (ptid te) te 5))
  | TYPE_ENV =>
      if negb (str_empty (argname field)) then
        match env_lookup (argname field) (env te) EmptyString with
        | Ok tstr => keep tstr
        | Throw e => Throw e
        end
      else keep (join_args EmptyString (env te))
  | TYPE_IS_EXE_WRITABLE => keep (to_string_bool (exe_writable te))
  | TYPE_IS_EXE_UPPER_LAYER => keep (to_string_bool (exe_upper_layer te))
  | TYPE_IS_EXE_FROM_MEMFD => keep (to_string_bool (exe_from_memfd te))
  | TYPE_EXE_INO => keep (to_string (exe_ino te))
  | TYPE_EXE_INO_CTIME => keep (to_string (exe_ino_ctime te))
  | TYPE_EXE_INO_MTIME => keep (to_string (exe_ino_mtime te))
  | TYPE_IS_SID_LEADER =>
      keep (to_string_bool (wrap_u64 (sid te) =? wrap_u64 (vpid te)))
  | TYPE_IS_VPGID_LEADER =>
      keep (to_string_bool (wrap_u64 (vpgid te) =? wrap_u64 (vpid te)))
  | TYPE_FDNUM =>
      match evt_type evt with
      | PPME_SYSCALL_OPEN_X | PPME_SOCKET_ACCEPT_5_X | PPME_SOCKET_ACCEPT4_6_X
      | PPME_SYSCALL_CREAT_X | PPME_SOCKET_CONNECT_X | PPME_SYSCALL_OPENAT_2_X
      | PPME_SYSCALL_OPENAT2_X | PPME_SYSCALL_OPEN_BY_HANDLE_AT_X =>
          keep (or_else (to_string (lastevent_fd te)) (fallback EmptyString))
      | _ => clear_profile
      end
  | TYPE_FDNAME =>
      match evt_type evt with
      | PPME_SOCKET_ACCEPT_5_X | PPME_SOCKET_ACCEPT4_6_X
      | PPME_SOCKET_CONNECT_X | PPME_SYSCALL_OPEN_BY_HANDLE_AT_X =>
          keep (or_else (fd_read fd_name te) (fallback EmptyString))
      | PPME_SYSCALL_OPEN_X | PPME_SYSCALL_CREAT_X =>
          keep (or_else (fd_read fd_name te) (fallback (cwd te)))
      | PPME_SYSCALL_OPENAT_2_X | PPME_SYSCALL_OPENAT2_X =>
          keep (or_else (fd_read fd_name te) (fallback (openat_cwd evt te)))
      | _ => clear_profile
      end
  | TYPE_DIRECTORY | TYPE_FILENAME =>
      match evt_type evt with
      | PPME_SYSCALL_OPEN_X | PPME_SYSCALL_CREAT_X =>
          keep (split_dir_file (id field)
                  (or_else (fd_read fd_name te) (fallback (cwd te))))
      | PPME_SYSCALL_OPEN_BY_HANDLE_AT_X =>
          keep (split_dir_file (id field)
                  (or_else (fd_read fd_name te) (fallback EmptyString)))
      | PPME_SYSCALL_OPENAT_2_X | PPME_SYSCALL_OPENAT2_X =>
          keep (split_dir_file (id field)
                  (or_else (fd_read fd_name te) (fallback (openat_cwd evt te))))
      | PPME_SOCKET_ACCEPT_5_X | PPME_SOCKET_ACCEPT4_6_X
      | PPME_SOCKET_CONNECT_X => keep EmptyString
      | _ => clear_profile
      end
  | TYPE_INO =>
      match evt_type evt with
      | PPME_SYSCALL_OPEN_X | PPME_SYSCALL_CREAT_X | PPME_SYSCALL_OPENAT_2_X
      | PPME_SYSCALL_OPENAT2_X | PPME_SYSCALL_OPEN_BY_HANDLE_AT_X =>
          keep (or_else (fd_read (fun e => to_string (to_i64 (fd_ino e))) te)
                        (fallback EmptyString))
      | PPME_SOCKET_ACCEPT_5_X | PPME_SOCKET_ACCEPT4_6_X
      | PPME_SOCKET_CONNECT_X => keep EmptyString
      | _ => clear_profile
      end
  | TYPE_DEV =>
      match evt_type evt with
      | PPME_SYSCALL_OPEN_X | PPME_SYSCALL_CREAT_X | PPME_SYSCALL_OPENAT_2_X
      | PPME_SYSCALL_OPENAT2_X | PPME_SYSCALL_OPEN_BY_HANDLE_AT_X =>
          keep (or_else (fd_read (fun e => to_string (fd_dev e)) te)
                        (fallback EmptyString))
      | PPME_SOCKET_ACCEPT_5_X | PPME_SOCKET_ACCEPT4_6_X
      | PPME_SOCKET_CONNECT_X => keep EmptyString
      | _ => clear_profile
      end
  | TYPE_FDNAMERAW =>
      match evt_type evt with
      | PPME_SYSCALL_OPEN_X | PPME_SYSCALL_CREAT_X | PPME_SYSCALL_OPENAT_2_X
      | PPME_SYSCALL_OPENAT2_X | PPME_SYSCALL_OPEN_BY_HANDLE_AT_X =>
          keep (or_else (fd_read fd_nameraw te) (fallback EmptyString))
      | PPME_SOCKET_ACCEPT_5_X | PPME_SOCKET_ACCEPT4_6_X
      | PPME_SOCKET_CONNECT_X => keep EmptyString
      | _ => clear_profile
      end
  | TYPE_CUSTOM_ANAME_LINEAGE_CONCAT => lineage comm
  | TYPE_CUSTOM_AEXE_LINEAGE_CONCAT => lineage exe
  | TYPE_CUSTOM_AEXEPATH_LINEAGE_CONCAT => lineage exe_path
  | TYPE_CUSTOM_FDNAME_PART1 | TYPE_CUSTOM_FDNAME_PART2 =>
      match evt_type evt with
      | PPME_SYSCALL_OPEN_X | PPME_SYSCALL_CREAT_X | PPME_SYSCALL_OPENAT_2_X
      | PPME_SYSCALL_OPENAT2_X | PPME_SYSCALL_OPEN_BY_HANDLE_AT_X =>
          keep EmptyString
      | PPME_SOCKET_ACCEPT_5_X | PPME_SOCKET_ACCEPT4_6_X
      | PPME_SOCKET_CONNECT_X =>
          keep (split_fdname_part (id field)
                  (or_else (fd_read fd_name te) (fallback EmptyString)))
      | _ => clear_profile
      end
  | TYPE_OTHER => keep EmptyString
  end.

(** The loop [for (const auto& field : fields)] with the entry at hand:
    [behavior_profile_concat_str += tstr] after each switch. *)
Fixpoint concat_fields (tt : thread_table) (evt : event) (te : thread_entry)
    (fields : list plugin_sinsp_filterchecks_field)
    (behavior_profile_concat_str : string) : result string :=
  match fields with
  | [] => Ok behavior_profile_concat_str
  | field :: rest =>
      match eval_field tt evt te field with
      | Throw e => Throw e
      | Ok (cleared, tstr) =>
          concat_fields tt evt te rest
            ((if cleared : bool then EmptyString else behavior_profile_concat_str)
               +:+ tstr)
      end
  end.

(** The loop of the [catch] branch: every field goes through the raw-event
    fallback, called without a [cwd] (its default, the empty string). *)
Definition concat_fallbacks (evt : event)
    (fields : list plugin_sinsp_filterchecks_field)
    (behavior_profile_concat_str : string) : string :=
  fold_left
    (fun acc field =>
       acc +:+ extract_filterchecks_evt_params_fallbacks evt field EmptyString)
    fields behavior_profile_concat_str.

(** [extract_filterchecks_concat_profile]: the returned [bool] and the final
    content of the by-reference [behavior_profile_concat_str]. *)
Definition extract_filterchecks_concat_profile (tt : thread_table) (evt : event)
    (fields : list plugin_sinsp_filterchecks_field)
    (behavior_profile_concat_str : string) : result (bool * string) :=
  match tt !! evt_tid evt with
  | None => Ok (true, concat_fallbacks evt fields behavior_profile_concat_str)
  | Some thread_entry_ =>
      match concat_fields tt evt thread_entry_ fields behavior_profile_concat_str with
      | Ok s => Ok (true, s)
      | Throw e => Throw e
      end
  end.

End Extractor.

(** ** The count-min sketch

    The class [plugin::anomalydetection::num::cms<uint64_t>] lives in
    [num/cms.h]; the plugin only calls it. Its operations are written here
    after the specification of the primitive. *)

Module Cms.

(** Modelled from the spec: the counter table of [num/cms.h], a rectangle of
    unsigned 64-bit counters with [d] rows and [w] columns. *)
Record cms : Type := {
  d_ : Z;
  w_ : Z;
  sketch : list (list Z)
}.

(** Modelled from the spec: the saturating addition of [update] in
    [num/cms.h]; overflowing counters stay at [2^64 - 1]. *)
Definition saturating_add (a b : Z) : Z := Z.min (a + b) UINT64_MAX.

(** Modelled from the spec: [new_with_dw(d, w)] of [num/cms.h], all counters
    zero. *)
Definition new_with_dw (d w : Z) : cms :=
  {| d_ := d; w_ := w;
     sketch := replicate (Z.to_nat d) (replicate (Z.to_nat w) 0) |}.

(** Modelled from the spec: [reset()] of [num/cms.h] sets all counters to 0
    and keeps the shape. *)
Definition reset (s : cms) : cms :=
  {| d_ := d_ s; w_ := w_ s; sketch := map (fun row : list Z => replicate (length row) 0) (sketch s) |}.

(** Modelled from the spec: [size_bytes()] of [num/cms.h] is [d * w * 8]. *)
Definition get_size_bytes (d w : Z) : Z := d * w * 8.

Section Hashed.

(** Modelled from the spec: the hash family of [num/cms.h], one deterministic
    hash per row; the family itself is left open by the specification. *)
Variable hash : nat -> string -> Z.

(** Modelled from the spec: the column [h_i(key) mod w] of [num/cms.h]. *)
Definition bucket (w : Z) (i : nat) (key : string) : nat :=
  Z.to_nat (hash i key mod w).

(** Modelled from the spec: [update(key, delta)] of [num/cms.h]; for each row
    [i], [T[i][h_i(key) mod w] = saturating_add(T[i][...], delta)]. *)
Definition update (s : cms) (key : string) (delta : Z) : cms :=
  {| d_ := d_ s; w_ := w_ s;
     sketch :=
       imap (fun i row =>
               alter (fun c => saturating_add c delta) (bucket (w_ s) i key) row)
            (sketch s) |}.

(** The counter of row [i] that [key] is hashed to. *)
Definition cell (w : Z) (key : string) (i : nat) (row : list Z) : Z :=
  default 0 (row !! bucket w i key).

(** Modelled from the spec: [estimate(key)] of [num/cms.h], the minimum over
    the rows of [T[i][h_i(key) mod w]]. *)
Definition estimate (s : cms) (key : string) : Z :=
  foldr Z.min UINT64_MAX (imap (cell (w_ s) key) (sketch s)).

(** Every counter that [k] is hashed to is at least [b]. *)
Definition covers (s : cms) (k : string) (b : Z) : Prop :=
  forall (i : nat) (row : list Z),
    sketch s !! i = Some row -> b <= cell (w_ s) k i row.

(** A stream of operations on one sketch. *)
Inductive op : Type :=
  | Update (key : string) (delta : Z)
  | Reset.

Definition apply_op (s : cms) (o : op) : cms :=
  match o with
  | Update key delta => update s key delta
  | Reset => reset s
  end.

Definition run (ops : list op) (s : cms) : cms := fold_left apply_op ops s.

(** The number of [update(k, 1)] calls since the last reset. *)
Definition count_step (k : string) (c : Z) (o : op) : Z :=
  match o with
  | Update key delta =>
      if bool_decide (key = k) && (delta =? 1) then c + 1 else c
  | Reset => 0
  end.

Definition true_count (k : string) (ops : list op) : Z :=
  fold_left (count_step k) ops 0.

(** Shape invariant: [w >= 1], every row has [w] counters, every counter is
    an unsigned 64-bit value. *)
Definition cms_wf (s : cms) : Prop :=
  1 <= w_ s /\
  Forall (fun row => length row = Z.to_nat (w_ s) /\
                     Forall (fun c => 0 <= c <= UINT64_MAX) row) (sketch s).

(** The [delta] of an update is a [uint64_t]. *)
Definition op_wf (o : op) : Prop :=
  match o with
  | Update _ delta => 0 <= delta <= UINT64_MAX
  | Reset => True
  end.

End Hashed.

End Cms.

(** ** The plugin *)

(** The members of [class anomalydetection] that the modelled entry points
    read or write; [m_count_min_sketches] is the locked vector of sketches. *)
Record anomalydetection {double : Type} : Type := {
  m_count_min_sketch_enabled : bool;
  m_n_sketches : Z;                       (* [uint32_t] *)
  m_gamma_eps : list (list double);
  m_rows_cols : list (list Z);
  m_reset_timers : list Z;
  m_behavior_profiles_fields : list (list plugin_sinsp_filterchecks_field);
  m_behavior_profiles_event_codes : list (list ppm_event_code);
  m_count_min_sketches : list Cms.cms;
  m_lasterr : string;
  m_falco_start_ts_epoch_ns : Z
}.
Arguments anomalydetection : clear implicits.

(** The configuration after [nlohmann::json::parse]: an absent key is
    [None]. Event codes are the numbers of the configuration cast to
    [ppm_event_code]. The integers are the JSON numbers as written; the
    reads [get<uint64_t>()] and [get_to] into a [uint32_t] convert them. *)
Record profile_json : Type := {
  pj_fields : option string;
  pj_event_codes : option (list ppm_event_code);
  pj_reset_timer_ms : option Z
}.

Record count_min_sketch_json {double : Type} : Type := {
  cj_enabled : option bool;
  cj_n_sketches : option Z;
  cj_gamma_eps : option (list (list double));
  cj_rows_cols : option (list (list Z));
  cj_behavior_profiles : option (list profile_json)
}.
Arguments count_min_sketch_json : clear implicits.

(** How a call into the plugin ends: it returns, the process is gone through
    [exit(status)], or an [assert] fails. *)
Inductive outcome (A : Type) : Type :=
  | Returned (a : A)
  | Exited (status : Z)
  | AssertFailed.
Arguments Returned {A} a.
Arguments Exited {A} status.
Arguments AssertFailed {A}.

(** The fields of [get_fields] and the value handed to [req.set_value]. *)
Inductive anomalydetection_fields : Type :=
  | ANOMALYDETECTION_COUNT_MIN_SKETCH_COUNT
  | ANOMALYDETECTION_COUNT_MIN_SKETCH_BEHAVIOR_PROFILE_CONCAT_STR
  | ANOMALYDETECTION_FALCO_DURATION_NS
  | ANOMALYDETECTION_FIELD_MAX.

Inductive extract_value : Type :=
  | U64 (v : Z)
  | Str (s : string).

Record extract_request : Type := {
  get_field_id : anomalydetection_fields;
  get_arg_index : Z
}.

Section Plugin.

Variable concatenate_paths : string -> string -> string.

(** [plugin_anomalydetection::utils::get_profile_fields] is defined in
    [plugin_utils.cpp]. *)
Variable get_profile_fields : string -> list plugin_sinsp_filterchecks_field.

(** The hash family of the sketches ([num/cms.h]). *)
Variable hash : nat -> string -> Z.

(** [double] and the two shape formulas of [num/cms.h],
    [d = ceil(ln(1/gamma))] and [w = ceil(e/eps)]. *)
Variable double : Type.
Variable calculate_d_rows_from_gamma : double -> Z.
Variable calculate_w_cols_buckets_from_eps : double -> Z.

(** Whether the build defines [NDEBUG], which turns [assert] into nothing. *)
Variable NDEBUG : bool.

Abbreviation plugin := (anomalydetection double).
Abbreviation config := (count_min_sketch_json double).

Definition set_lasterr (st : plugin) (msg : string) : plugin :=
  {| m_count_min_sketch_enabled := m_count_min_sketch_enabled st;
     m_n_sketches := m_n_sketches st;
     m_gamma_eps := m_gamma_eps st;
     m_rows_cols := m_rows_cols st;
     m_reset_timers := m_reset_timers st;
     m_behavior_profiles_fields := m_behavior_profiles_fields st;
     m_behavior_profiles_event_codes := m_behavior_profiles_event_codes st;
     m_count_min_sketches := m_count_min_sketches st;
     m_lasterr := msg;
     m_falco_start_ts_epoch_ns := m_falco_start_ts_epoch_ns st |}.

Definition set_sketches (st : plugin) (l : list Cms.cms) : plugin :=
  {| m_count_min_sketch_enabled := m_count_min_sketch_enabled st;
     m_n_sketches := m_n_sketches st;
     m_gamma_eps := m_gamma_eps st;
     m_rows_cols := m_rows_cols st;
     m_reset_timers := m_reset_timers st;
     m_behavior_profiles_fields := m_behavior_profiles_fields st;
     m_behavior_profiles_event_codes := m_behavior_profiles_event_codes st;
     m_count_min_sketches := l;
     m_lasterr := m_lasterr st;
     m_falco_start_ts_epoch_ns := m_falco_start_ts_epoch_ns st |}.

(** *** [parse_init_config] *)

(** The two checks on one profile that has both [fields] and [event_codes]:
    a profile that mentions ["%fd"] may only list fd codes, and every code
    must be a supported one; either failure ends in [exit(1)]. *)
Definition check_event_codes (fields : string) (codes : list ppm_event_code)
    : outcome unit :=
  if bool_decide (is_Some (str_find "%fd" fields))
     && negb (forallb (fun code => code_in code supported_codes_fd_profile) codes)
  then Exited 1
  else if negb (forallb (fun code => code_in code supported_codes_any_profile) codes)
  then Exited 1
  else Returned tt.

(** The value pushed to [m_reset_timers]: [reset_timer_ms] is read with
    [get<uint64_t>()]. *)
Definition reset_timer_of (p : profile_json) : Z :=
  match pj_reset_timer_ms p with
  | Some v =>
      let interval := wrap_u64 v in
      if 100 <? interval then interval else 0
  | None => 0
  end.

(** The loop over [behavior_profiles]; the accumulator is the triple of
    vectors filled so far. *)
Fixpoint load_profiles (ps : list profile_json)
    (acc : list Z * list (list plugin_sinsp_filterchecks_field)
           * list (list ppm_event_code))
    : outcome (list Z * list (list plugin_sinsp_filterchecks_field)
               * list (list ppm_event_code)) :=
  match ps with
  | [] => Returned acc
  | profile :: rest =>
      let '(timers, fieldss, codess) := acc in
      let next filter_check_fields codes :=
        load_profiles rest
          (timers ++ [reset_timer_of profile],
           fieldss ++ [filter_check_fields], codess ++ [codes]) in
      match pj_fields profile, pj_event_codes profile with
      | Some fields, Some codes =>
          match check_event_codes fields codes with
          | Returned _ => next (get_profile_fields fields) codes
          | Exited status => Exited status
          | AssertFailed => AssertFailed
          end
      | _, _ => next [] []
      end
  end.

(** [if (cond) { log_error(...); assert(false); }]. *)
Definition survives_assert (cond : bool) : bool := negb cond || NDEBUG.

Definition parse_init_config (st : plugin) (config_json : option config)
    : outcome plugin :=
  let enabled0 := m_count_min_sketch_enabled st in
  let n0 := m_n_sketches st in
  let cleared enabled n ge rc timers fieldss codess : plugin :=
    {| m_count_min_sketch_enabled := enabled;
       m_n_sketches := n;
       m_gamma_eps := ge;
       m_rows_cols := rc;
       m_reset_timers := timers;
       m_behavior_profiles_fields := fieldss;
       m_behavior_profiles_event_codes := codess;
       m_count_min_sketches := m_count_min_sketches st;
       m_lasterr := m_lasterr st;
       m_falco_start_ts_epoch_ns := m_falco_start_ts_epoch_ns st |} in
  match config_json with
  | None => Returned (cleared enabled0 n0 [] [] [] [] [])
  | Some cj =>
      let enabled := default enabled0 (cj_enabled cj) in
      if negb enabled then Returned (cleared enabled n0 [] [] [] [] [])
      else
        let n :=
          match cj_n_sketches cj with
          | Some v => wrap_u32 v   (* [get_to(m_n_sketches)], a [uint32_t] *)
          | None => n0
          end in
        let pairs {A : Type} (o : option (list (list A))) : list (list A) :=
          filter (fun a => length a = 2%nat) (default [] o) in
        let ge := pairs (cj_gamma_eps cj) in
        (* [array[0].get<uint64_t>()], [array[1].get<uint64_t>()] *)
        let rc := map (map wrap_u64) (pairs (cj_rows_cols cj)) in
        match load_profiles (default [] (cj_behavior_profiles cj)) ([], [], []) with
        | Exited status => Exited status
        | AssertFailed => AssertFailed
        | Returned (timers, fieldss, codess) =>
            if survives_assert (negb (bool_decide (ge = [])) &&
                              negb (n =? Z.of_nat (length ge)))
               && survives_assert (negb (bool_decide (rc = [])) &&
                                 negb (n =? Z.of_nat (length rc)))
               && survives_assert (negb (n =? Z.of_nat (length fieldss)))
               && survives_assert (negb (n =? Z.of_nat (length codess)))
            then Returned (cleared enabled n ge rc timers fieldss codess)
            else AssertFailed
        end
  end.

(** *** [init]

    [config] is [None] for an empty configuration string and otherwise the
    content of the [count_min_sketch] key; [tables_ok] tells whether the host
    thread table exposes every column the plugin binds (a missing one raises
    inside the [try]); [start_ts] is the ctime of [/proc/self/cmdline]. The
    reset workers are not part of the state. *)

Definition build_sketches (st : plugin) : option (list Cms.cms) :=
  let n := m_n_sketches st in
  if Z.of_nat (length (m_rows_cols st)) =? n then
    Some (map (fun rc => Cms.new_with_dw (nth 0 rc 0) (nth 1 rc 0))
              (take (Z.to_nat n) (m_rows_cols st)))
  else if (Z.of_nat (length (m_gamma_eps st)) =? n)
          && bool_decide (m_rows_cols st = [])
  then
    Some (omap (fun ge =>
                  match ge with
                  | [gamma; eps] =>
                      Some (Cms.new_with_dw (calculate_d_rows_from_gamma gamma)
                                            (calculate_w_cols_buckets_from_eps eps))
                  | _ => None
                  end)
               (take (Z.to_nat n) (m_gamma_eps st)))
  else None.

Definition init (st : plugin) (config : option (option config))
    (tables_ok : bool) (start_ts : Z) : outcome (bool * plugin) :=
  match config with
  | None => Returned (false, st)
  | Some cfg =>
      match parse_init_config st cfg with
      | Exited status => Exited status
      | AssertFailed => AssertFailed
      | Returned st1 =>
          if negb tables_ok then
            Returned (false,
                      set_lasterr st1 "cannot init libs' thread table info fields: '")
          else
            let st2 : plugin :=
              {| m_count_min_sketch_enabled := m_count_min_sketch_enabled st1;
                 m_n_sketches := m_n_sketches st1;
                 m_gamma_eps := m_gamma_eps st1;
                 m_rows_cols := m_rows_cols st1;
                 m_reset_timers := m_reset_timers st1;
                 m_behavior_profiles_fields := m_behavior_profiles_fields st1;
                 m_behavior_profiles_event_codes :=
                   m_behavior_profiles_event_codes st1;
                 m_count_min_sketches := [];
                 m_lasterr := m_lasterr st1;
                 m_falco_start_ts_epoch_ns := start_ts |} in
            if m_count_min_sketch_enabled st2 then
              match build_sketches st2 with
              | Some l => Returned (true, set_sketches st2 l)
              | None => Returned (false, st2)
              end
            else Returned (true, st2)
      end
  end.

(** *** [extract]

    The result is the exception that leaves [extract], or the returned
    [bool], the value given to [req.set_value] if any, and the plugin with
    its [m_lasterr]. [now] is the system clock in nanoseconds. Indexing
    [m_behavior_profiles_fields] past its end, undefined in C++, is treated
    like [at]. *)

Definition extract (st : plugin) (tt : thread_table) (evt : event)
    (req : extract_request) (now : Z)
    : result (bool * option extract_value * plugin) :=
  let index := get_arg_index req in
  let with_profile (k : string -> result (bool * option extract_value * plugin)) :=
    if negb (m_count_min_sketch_enabled st) then
      Ok (false, None,
          set_lasterr st
            "count_min_sketch disabled, but `anomaly.count_min_sketch` field referenced")
    else if m_n_sketches st <=? index then
      Ok (false, None, set_lasterr st "sketch index out of bounds")
    else
      match m_behavior_profiles_fields st !! Z.to_nat index with
      | None => Throw out_of_range
      | Some fields =>
          match extract_filterchecks_concat_profile concatenate_paths
                  tt evt fields EmptyString with
          | Throw e => Throw e
          | Ok (true, behavior_profile_concat_str) => k behavior_profile_concat_str
          | Ok (false, _) => Ok (true, None, st)
          end
      end in
  match get_field_id req with
  | ANOMALYDETECTION_COUNT_MIN_SKETCH_COUNT =>
      with_profile (fun behavior_profile_concat_str =>
        match m_count_min_sketches st !! Z.to_nat index with
        | None => Throw out_of_range
        | Some s =>
            Ok (true,
                Some (U64 (Cms.estimate hash s behavior_profile_concat_str)), st)
        end)
  | ANOMALYDETECTION_COUNT_MIN_SKETCH_BEHAVIOR_PROFILE_CONCAT_STR =>
      with_profile (fun behavior_profile_concat_str =>
        Ok (true, Some (Str behavior_profile_concat_str), st))
  | ANOMALYDETECTION_FALCO_DURATION_NS =>
      Ok (true, Some (U64 (wrap_u64 (now - m_falco_start_ts_epoch_ns st))), st)
  | ANOMALYDETECTION_FIELD_MAX =>
      Ok (false, None, set_lasterr st "unknown extraction request")
  end.

(** *** [parse_event] *)

(** The parameter that carries the fd of the event: parameter 0, or
    parameter 2 for [connect]; [None] for the [default] branch. *)
Definition fd_param_slot (c : ppm_event_code) : option nat :=
  match c with
  | PPME_SYSCALL_OPEN_X | PPME_SOCKET_ACCEPT_5_X | PPME_SOCKET_ACCEPT4_6_X
  | PPME_SYSCALL_CREAT_X | PPME_SYSCALL_OPENAT_2_X | PPME_SYSCALL_OPENAT2_X
  | PPME_SYSCALL_OPEN_BY_HANDLE_AT_X => Some 0%nat
  | PPME_SOCKET_CONNECT_X => Some 2%nat
  | _ => None
  end.

(** The [switch] that records the fd of the event in the thread entry.
    [Ok None] is the early [return false] of the [nullptr] test; the
    [get_entry] of the thread is outside any [try]. *)
Definition write_lastevent_fd (tt : thread_table) (evt : event)
    : result (option thread_table) :=
  match fd_param_slot (evt_type evt) with
  | None => Ok (Some tt)
  | Some slot =>
      match param_pointer (get_syscall_evt_param evt slot) with
      | None => Ok None
      | Some p =>
          let fd := load_i64 (evt_data evt) p in
          match tt !! evt_tid evt with
          | None => Throw plugin_exception
          | Some thread_entry_ =>
              Ok (Some (<[evt_tid evt := set_lastevent_fd fd thread_entry_]> tt))
          end
      end
  end.

(** The loop over [m_behavior_profiles_event_codes]; [i] is the running
    index, [sketches] the vector of sketches. A [plugin_exception] of the
    extractor is caught and turned into [return false]; anything else leaves
    [parse_event]. *)
Fixpoint update_sketches (st : plugin) (tt : thread_table) (evt : event)
    (sets : list (list ppm_event_code)) (i : nat) (sketches : list Cms.cms)
    : result bool * list Cms.cms :=
  match sets with
  | [] => (Ok true, sketches)
  | set :: rest =>
      if code_in (evt_type evt) set then
        if evt_tid evt <=? 0 then (Ok false, sketches)
        else if Z.of_nat i <? m_n_sketches st then
          match m_behavior_profiles_fields st !! i with
          | None => (Throw out_of_range, sketches)
          | Some fields =>
              match extract_filterchecks_concat_profile concatenate_paths
                      tt evt fields EmptyString with
              | Throw plugin_exception => (Ok false, sketches)
              | Throw e => (Throw e, sketches)
              | Ok (ok, behavior_profile_concat_str) =>
                  if ok && negb (str_empty behavior_profile_concat_str) then
                    match sketches !! i with
                    | None => (Throw out_of_range, sketches)
                    | Some s =>
                        update_sketches st tt evt rest (S i)
                          (<[i := Cms.update hash s behavior_profile_concat_str 1]>
                             sketches)
                    end
                  else update_sketches st tt evt rest (S i) sketches
              end
          end
        else update_sketches st tt evt rest (S i) sketches
      else update_sketches st tt evt rest (S i) sketches
  end.

(** [parse_event]: what the call does (returns a [bool] or lets an exception
    out), and the plugin and the thread table it leaves behind. *)
Definition parse_event (st : plugin) (tt : thread_table) (evt : event)
    : result bool * plugin * thread_table :=
  if negb (m_count_min_sketch_enabled st) then (Ok true, st, tt)
  else
    match write_lastevent_fd tt evt with
    | Throw e => (Throw e, st, tt)
    | Ok None => (Ok false, st, tt)
    | Ok (Some tt') =>
        let '(r, sketches) :=
          update_sketches st tt' evt (m_behavior_profiles_event_codes st) 0
            (m_count_min_sketches st) in
        (r, set_sketches st sketches, tt')
    end.

End Plugin.

(** ** The parent chain in the words of the specification *)

(** The thread reached from [t] by following [ptid] exactly [k] times. *)
Fixpoint kth_ancestor (tt : thread_table) (t : thread_entry) (k : nat)
    : option thread_entry :=
  match k with
  | O => Some t
  | S k' =>
      match tt !! ptid t with
      | Some parent => kth_ancestor tt parent k'
      | None => None
      end
  end.

(** The attribute an indexed ancestor selector asks for. *)
Definition ancestor_read (i : check_type) : option (thread_entry -> string) :=
  match i with
  | TYPE_APID => Some read_pid
  | TYPE_ANAME => Some comm
  | TYPE_AEXE => Some exe
  | TYPE_AEXEPATH => Some exe_path
  | TYPE_ACMDLINE => Some read_cmdline
  | _ => None
  end.

(** The selectors whose table access sits outside every [try] block (the
    direct-parent selectors) or whose string slicing can raise
    ([proc.env[KEY]]). *)
Definition unguarded (f : plugin_sinsp_filterchecks_field) : bool :=
  match id f with
  | TYPE_PNAME | TYPE_PCMDLINE | TYPE_PEXE | TYPE_PEXEPATH
  | TYPE_PPID | TYPE_PVPID => true
  | TYPE_ENV => negb (str_empty (argname f))
  | _ => false
  end.

(** The selectors the raw-event fallback can decode. *)
Definition raw_event_selector (i : check_type) : bool :=
  match i with
  | TYPE_FDNUM | TYPE_FDNAME | TYPE_DIRECTORY | TYPE_FILENAME
  | TYPE_INO | TYPE_DEV | TYPE_FDNAMERAW => true
  | _ => false
  end.

(** Concatenation of a list of strings. *)
Definition concat_str (l : list string) : string := foldr String.append EmptyString l.

(** ** Stand-ins for the helpers defined outside [plugin.cpp]

    The entry points above are parametric in the helpers of
    [plugin_utils.cpp] and [num/cms.h]. The definitions of this part give
    each parameter a value so that the model can be run on examples. *)

(** [s.split(c)]. *)
Fixpoint split_on (c : ascii) (s : string) : list string :=
  match s with
  | EmptyString => [EmptyString]
  | String a s' =>
      match split_on c s' with
      | [] => [EmptyString]
      | seg :: segs =>
          if Ascii.eqb a c then EmptyString :: seg :: segs
          else String a seg :: segs
      end
  end.

(** The segments of a path on a stack, most recent first: [.] and empty
    segments vanish, [..] pops. *)
Definition push_segment (stack : list string) (seg : string) : list string :=
  if String.eqb seg "" || String.eqb seg "." then stack
  else if String.eqb seg ".." then tail stack
  else seg :: stack.

Definition join_segments (absolute : bool) (segs : list string) : string :=
  (if absolute then "/" else "")%string
  +:+ match segs with
      | [] => EmptyString
      | s :: rest => fold_left (fun acc seg => acc +:+ "/" +:+ seg) rest s
      end.

(** Modelled from the spec: [concatenate_paths] of [plugin_utils.cpp]; path
    normalization joins a non-absolute name onto the base directory and
    collapses [.] and [..] segments. *)
Definition concatenate_paths_model (base name : string) : string :=
  let full :=
    if is_absolute name || str_empty base then name else base +:+ "/" +:+ name in
  join_segments (is_absolute full)
    (rev (fold_left push_segment (split_on "/" full) [])).

(** Decimal digits of an index argument. *)
Fixpoint parse_uint_from (acc : Z) (s : string) : option Z :=
  match s with
  | EmptyString => Some acc
  | String a s' =>
      let d := Z.of_nat (nat_of_ascii a) - 48 in
      if (0 <=? d) && (d <=? 9) then parse_uint_from (10 * acc + d) s' else None
  end.

Definition parse_uint (s : string) : option Z :=
  if str_empty s then None else parse_uint_from 0 s.

(** What a registered selector accepts between brackets. *)
Inductive arg_kind : Type := NoArg | IndexArg | KeyArg.

(** Modelled from the spec: the selector names registered in
    [plugin_sinsp_filterchecks.h], as enumerated by the specification. *)
Definition registered_selectors : list (string * (check_type * arg_kind)) :=
  [ ("container.id", (TYPE_CONTAINER_ID, NoArg));
    ("proc.name", (TYPE_NAME, NoArg));
    ("proc.pname", (TYPE_PNAME, NoArg));
    ("proc.aname", (TYPE_ANAME, IndexArg));
    ("proc.args", (TYPE_ARGS, NoArg));
    ("proc.cmdnargs", (TYPE_CMDNARGS, NoArg));
    ("proc.cmdlenargs", (TYPE_CMDLENARGS, NoArg));
    ("proc.cmdline", (TYPE_CMDLINE, NoArg));
    ("proc.pcmdline", (TYPE_PCMDLINE, NoArg));
    ("proc.acmdline", (TYPE_ACMDLINE, IndexArg));
    ("proc.exeline", (TYPE_EXELINE, NoArg));
    ("proc.exe", (TYPE_EXE, NoArg));
    ("proc.pexe", (TYPE_PEXE, NoArg));
    ("proc.aexe", (TYPE_AEXE, IndexArg));
    ("proc.exepath", (TYPE_EXEPATH, NoArg));
    ("proc.pexepath", (TYPE_PEXEPATH, NoArg));
    ("proc.aexepath", (TYPE_AEXEPATH, IndexArg));
    ("proc.cwd", (TYPE_CWD, NoArg));
    ("proc.tty", (TYPE_TTY, NoArg));
    ("proc.pid", (TYPE_PID, NoArg));
    ("proc.ppid", (TYPE_PPID, NoArg));
    ("proc.apid", (TYPE_APID, IndexArg));
    ("proc.vpid", (TYPE_VPID, NoArg));
    ("proc.pvpid", (TYPE_PVPID, NoArg));
    ("proc.sid", (TYPE_SID, NoArg));
    ("proc.sname", (TYPE_SNAME, NoArg));
    ("proc.sid.exe", (TYPE_SID_EXE, NoArg));
    ("proc.sid.exepath", (TYPE_SID_EXEPATH, NoArg));
    ("proc.vpgid", (TYPE_VPGID, NoArg));
    ("proc.vpgid.name", (TYPE_VPGID_NAME, NoArg));
    ("proc.vpgid.exe", (TYPE_VPGID_EXE, NoArg));
    ("proc.vpgid.exepath", (TYPE_VPGID_EXEPATH, NoArg));
    ("proc.env", (TYPE_ENV, KeyArg));
    ("proc.is_exe_writable", (TYPE_IS_EXE_WRITABLE, NoArg));
    ("proc.is_exe_upper_layer", (TYPE_IS_EXE_UPPER_LAYER, NoArg));
    ("proc.is_exe_from_memfd", (TYPE_IS_EXE_FROM_MEMFD, NoArg));
    ("proc.exe_ino", (TYPE_EXE_INO, NoArg));
    ("proc.exe_ino.ctime", (TYPE_EXE_INO_CTIME, NoArg));
    ("proc.exe_ino.mtime", (TYPE_EXE_INO_MTIME, NoArg));
    ("proc.is_sid_leader", (TYPE_IS_SID_LEADER, NoArg));
    ("proc.is_vpgid_leader", (TYPE_IS_VPGID_LEADER, NoArg));
    ("fd.num", (TYPE_FDNUM, NoArg));
    ("fd.name", (TYPE_FDNAME, NoArg));
    ("fd.directory", (TYPE_DIRECTORY, NoArg));
    ("fd.filename", (TYPE_FILENAME, NoArg));
    ("fd.ino", (TYPE_INO, NoArg));
    ("fd.dev", (TYPE_DEV, NoArg));
    ("fd.nameraw", (TYPE_FDNAMERAW, NoArg));
    ("custom.aname_lineage_concat", (TYPE_CUSTOM_ANAME_LINEAGE_CONCAT, IndexArg));
    ("custom.aexe_lineage_concat", (TYPE_CUSTOM_AEXE_LINEAGE_CONCAT, IndexArg));
    ("custom.aexepath_lineage_concat",
       (TYPE_CUSTOM_AEXEPATH_LINEAGE_CONCAT, IndexArg));
    ("custom.fdname_part1", (TYPE_CUSTOM_FDNAME_PART1, NoArg));
    ("custom.fdname_part2", (TYPE_CUSTOM_FDNAME_PART2, NoArg)) ]%string.

Fixpoint assoc_selector (name : string)
    (l : list (string * (check_type * arg_kind))) : option (check_type * arg_kind) :=
  match l with
  | [] => None
  | (n, v) :: rest => if String.eqb n name then Some v else assoc_selector name rest
  end.

(** One [%]-token: the registered name, then an optional bracketed argument. *)
Definition parse_selector (token : string)
    : option plugin_sinsp_filterchecks_field :=
  match token with
  | String "%" body =>
      let '(name, arg) :=
        match str_find "[" body with
        | Some pos =>
            let inner := str_drop (pos + 1) body in
            (str_take pos body,
             Some (str_take (String.length inner - 1) inner))
        | None => (body, None)
        end in
      match assoc_selector name registered_selectors, arg with
      | Some (i, _), None => Some {| id := i; argid := 0; argname := "" |}
      | Some (i, IndexArg), Some a =>
          match parse_uint a with
          | Some k =>
              if k <? 2 ^ 32 then Some {| id := i; argid := k; argname := "" |}
              else None
          | None => None
          end
      | Some (i, KeyArg), Some a =>
          if str_empty a then None
          else Some {| id := i; argid := 0; argname := a |}
      | _, _ => None
      end
  | _ => None
  end.

(** Modelled from the spec: [get_profile_fields] of [plugin_utils.cpp];
    whitespace-separated tokens, each [%]-token parsed into a selector,
    unknown tokens dropped. *)
Definition get_profile_fields_model (fields : string)
    : list plugin_sinsp_filterchecks_field :=
  omap parse_selector (split_on " " fields).

(** Modelled from the spec: a hash family for [num/cms.h]; one deterministic
    hash per row, the row number being the seed of a polynomial hash over the
    bytes of the key, reduced to 64 bits. *)
Fixpoint hash_from (h : Z) (key : string) : Z :=
  match key with
  | EmptyString => h
  | String a key' => hash_from (wrap_u64 (31 * h + Z.of_nat (nat_of_ascii a))) key'
  end.

Definition hash_model (seed : nat) (key : string) : Z :=
  hash_from (wrap_u64 (Z.of_nat seed + 1)) key.

(** No floating-point values: the example configurations give the sketch
    shapes with [rows_cols]. *)
Definition no_double : Type := Empty_set.
Definition no_shape (x : no_double) : Z := match x with end.

(** ** Example data *)

Definition byte_of_Z (z : Z) : byte := default x00 (Byte.of_N (Z.to_N (z mod 256))).

(** [n] little-endian bytes of [z]. *)
Fixpoint le_bytes (n : nat) (z : Z) : list byte :=
  match n with
  | O => []
  | S n' => byte_of_Z z :: le_bytes n' (z / 256)
  end.

(** A NUL-terminated string parameter. *)
Definition cstr_bytes (s : string) : list byte :=
  map byte_of_ascii (list_ascii_of_string s) ++ [x00].

(** A well-formed buffer: the lengths array, then the payloads. *)
Definition mk_event (c : ppm_event_code) (t : Z) (params : list (list byte)) : event :=
  {| evt_type := c;
     evt_tid := t;
     evt_nparams := Z.of_nat (length params);
     evt_data :=
       concat (map (fun p => le_bytes 2 (Z.of_nat (length p))) params)
       ++ concat params |}.

(** [open("/etc/passwd")] returning fd 5, [openat] of a relative name
    returning fd 6, [connect] on fd 7, and an [execve]. *)
Definition open_evt (t : Z) : event :=
  mk_event PPME_SYSCALL_OPEN_X t
    [ le_bytes 8 5; cstr_bytes "/etc/passwd"; le_bytes 4 0; le_bytes 4 0;
      le_bytes 4 2049; le_bytes 8 131 ].

Definition openat_evt (t : Z) : event :=
  mk_event PPME_SYSCALL_OPENAT_2_X t
    [ le_bytes 8 6; le_bytes 8 PPM_AT_FDCWD; cstr_bytes "notes.txt";
      le_bytes 4 0; le_bytes 4 0; le_bytes 4 0; le_bytes 4 2049; le_bytes 8 77 ].

Definition connect_evt (t : Z) : event :=
  mk_event PPME_SOCKET_CONNECT_X t
    [ le_bytes 8 0; le_bytes 4 0; le_bytes 8 7 ].

Definition execve_evt (t : Z) : event :=
  mk_event PPME_SYSCALL_EXECVE_19_X t [ le_bytes 8 0; cstr_bytes "/bin/bash" ].

Definition mk_thread (t p : Z) (name : string) : thread_entry :=
  {| tid := t; pid := t; ptid := p; sid := 50;
     comm := name; exe := name; exe_path := "/usr/bin/" +:+ name;
     exe_writable := false; exe_upper_layer := false; exe_from_memfd := false;
     exe_ino := 42; exe_ino_ctime := 1; exe_ino_mtime := 2;
     args := ["-c"; "ls"]%string; env := ["PATH=/bin"]%string;
     file_descriptors := ∅;
     vtid := t; vpid := t; vpgid := t; tty := 0;
     cwd := "/tmp"; container_id := "host";
     lastevent_fd := -1 |}.

(** [init] (1) is the parent of [sshd] (50), the parent of [bash] (100);
    [orphan] (200) names a parent that is not in the table; the table also
    holds an entry for thread id 0. *)
Definition example_table : thread_table :=
  <[0 := mk_thread 0 0 "swapper"]>
  (<[1 := mk_thread 1 0 "init"]>
  (<[50 := mk_thread 50 1 "sshd"]>
  (<[100 := mk_thread 100 50 "bash"]>
  (<[200 := mk_thread 200 999 "orphan"]> ∅)))).

Definition selector (i : check_type) (k : Z) : plugin_sinsp_filterchecks_field :=
  {| id := i; argid := k; argname := "" |}.

(** A plugin with one sketch of shape [(d, w)] and one behaviour profile. *)
Definition example_plugin (enabled : bool) (d w : Z)
    (fields : list plugin_sinsp_filterchecks_field)
    (codes : list ppm_event_code) : anomalydetection no_double :=
  {| m_count_min_sketch_enabled := enabled;
     m_n_sketches := 1;
     m_gamma_eps := [];
     m_rows_cols := [[d; w]];
     m_reset_timers := [0];
     m_behavior_profiles_fields := [fields];
     m_behavior_profiles_event_codes := [codes];
     m_count_min_sketches := [Cms.new_with_dw d w];
     m_lasterr := "";
     m_falco_start_ts_epoch_ns := 0 |}.

(** The state of a freshly constructed plugin object. *)
Definition fresh_plugin : anomalydetection no_double :=
  {| m_count_min_sketch_enabled := false;
     m_n_sketches := 0;
     m_gamma_eps := [];
     m_rows_cols := [];
     m_reset_timers := [];
     m_behavior_profiles_fields := [];
     m_behavior_profiles_event_codes := [];
     m_count_min_sketches := [];
     m_lasterr := "";
     m_falco_start_ts_epoch_ns := 0 |}.

(** A configuration with one profile. *)
Definition example_config (enabled : bool) (fields : string)
    (codes : list ppm_event_code) : count_min_sketch_json no_double :=
  {| cj_enabled := Some enabled;
     cj_n_sketches := Some 1;
     cj_gamma_eps := None;
     cj_rows_cols := Some [[5; 2048]];
     cj_behavior_profiles :=
       Some [ {| pj_fields := Some fields;
                 pj_event_codes := Some codes;
                 pj_reset_timer_ms := None |} ] |}.

(** The profile [%proc.name], bound to [open], with the feature on and
    off. *)
Definition plugin_on : anomalydetection no_double :=
  example_plugin true 5 2048 [selector TYPE_NAME 0] [PPME_SYSCALL_OPEN_X].

Definition plugin_off : anomalydetection no_double :=
  example_plugin false 5 2048 [selector TYPE_NAME 0] [PPME_SYSCALL_OPEN_X].

(** A profile that mixes a thread-table selector with selectors the
    raw-event fallback decodes. *)
Definition raw_profile : list plugin_sinsp_filterchecks_field :=
  [ selector TYPE_NAME 0; selector TYPE_FDNUM 0; selector TYPE_FDNAMERAW 0 ].

(** A stream on one sketch: two keys, a reset, then three more updates. *)
Definition example_ops : list Cms.op :=
  [ Cms.Update "a" 1; Cms.Update "b" 1; Cms.Reset;
    Cms.Update "a" 1; Cms.Update "c" 7; Cms.Update "a" 1 ]%string.

(** The two indexed extraction requests. *)
Definition count_request (i : Z) : extract_request :=
  {| get_field_id := ANOMALYDETECTION_COUNT_MIN_SKETCH_COUNT;
     get_arg_index := i |}.

Definition profile_request (i : Z) : extract_request :=
  {| get_field_id := ANOMALYDETECTION_COUNT_MIN_SKETCH_BEHAVIOR_PROFILE_CONCAT_STR;
     get_arg_index := i |}.

(** The profile [%fd.name %proc.name] bound to [open]: its configuration,
    its parsed form and the plugin [init] builds from it. *)
Definition fd_first_config : count_min_sketch_json no_double :=
  example_config true "%fd.name %proc.name" [PPME_SYSCALL_OPEN_X].

Definition fd_first_profile : list plugin_sinsp_filterchecks_field :=
  [ selector TYPE_FDNAME 0; selector TYPE_NAME 0 ].

Definition fd_first_plugin : anomalydetection no_double :=
  example_plugin true 5 2048 fd_first_profile [PPME_SYSCALL_OPEN_X].

(** The profile [%proc.pname] bound to [execve]. *)
Definition pname_plugin : anomalydetection no_double :=
  example_plugin true 5 2048 [selector TYPE_PNAME 0] [PPME_SYSCALL_EXECVE_19_X].

(** One row, one column, profile [%proc.name] bound to [execve]; then the
    same plugin once the [execve] of thread 100 has been parsed. *)
Definition single_cell_plugin : anomalydetection no_double :=
  example_plugin true 1 1 [selector TYPE_NAME 0] [PPME_SYSCALL_EXECVE_19_X].

Definition single_cell_counted : anomalydetection no_double :=
  (parse_event concatenate_paths_model hash_model no_double single_cell_plugin
     example_table (execve_evt 100)).1.2.

(** ** Shapes and values used to state properties *)

(** The parallel vectors of the plugin all have [m_n_sketches] entries: one
    profile, one set of event codes and one sketch per index. *)
Definition plugin_wf {double : Type} (st : anomalydetection double) : Prop :=
  Z.of_nat (length (m_behavior_profiles_fields st)) = m_n_sketches st /\
  Z.of_nat (length (m_behavior_profiles_event_codes st)) = m_n_sketches st /\
  Z.of_nat (length (m_count_min_sketches st)) = m_n_sketches st.

(** A profile none of whose selectors can let an exception out. *)
Definition guarded (fields : list plugin_sinsp_filterchecks_field) : Prop :=
  Forall (fun f => unguarded f = false) fields.

(** The string one selector appends, the empty string if it raises. *)
Definition field_value (concatenate_paths : string -> string -> string)
    (tt : thread_table) (evt : event) (te : thread_entry)
    (f : plugin_sinsp_filterchecks_field) : string :=
  match eval_field concatenate_paths tt evt te f with
  | Ok (_, tstr) => tstr
  | Throw _ => EmptyString
  end.

(** The direct-parent selector that reads the same attribute as an indexed
    ancestor selector. *)
Definition parent_selector (i : check_type) : option check_type :=
  match i with
  | TYPE_ANAME => Some TYPE_PNAME
  | TYPE_AEXE => Some TYPE_PEXE
  | TYPE_AEXEPATH => Some TYPE_PEXEPATH
  | TYPE_APID => Some TYPE_PPID
  | TYPE_ACMDLINE => Some TYPE_PCMDLINE
  | _ => None
  end.

(** The attribute a lineage selector concatenates, with the ancestor
    selector that reads it. *)
Definition lineage_read (i : check_type)
    : option ((thread_entry -> string) * check_type) :=
  match i with
  | TYPE_CUSTOM_ANAME_LINEAGE_CONCAT => Some (comm, TYPE_ANAME)
  | TYPE_CUSTOM_AEXE_LINEAGE_CONCAT => Some (exe, TYPE_AEXE)
  | TYPE_CUSTOM_AEXEPATH_LINEAGE_CONCAT => Some (exe_path, TYPE_AEXEPATH)
  | _ => None
  end.

(** The leader selectors: the column compared along the parent chain, the
    bound of the walk and the attribute read from the leader. *)
Definition leader_read (i : check_type)
    : option ((thread_entry -> Z) * nat * (thread_entry -> string)) :=
  match i with
  | TYPE_SNAME => Some (sid, 9%nat, comm)
  | TYPE_SID_EXE => Some (sid, 9%nat, exe)
  | TYPE_SID_EXEPATH => Some (sid, 9%nat, exe_path)
  | TYPE_VPGID_NAME => Some (vpgid, 5%nat, comm)
  | TYPE_VPGID_EXE => Some (vpgid, 5%nat, exe)
  | TYPE_VPGID_EXEPATH => Some (vpgid, 5%nat, exe_path)
  | _ => None
  end.

(** The direct-parent selectors: the six cases of the switch that call
    [get_entry] on [ptid] outside any [try] block. *)
Definition direct_parent (i : check_type) : bool :=
  match i with
  | TYPE_PNAME | TYPE_PCMDLINE | TYPE_PEXE | TYPE_PEXEPATH
  | TYPE_PPID | TYPE_PVPID => true
  | _ => false
  end.

(** The layout the raw-event fallback assumes: the parameter that holds
    what a selector asks for. The fd is parameter 0 (2 for [connect]); the
    name is parameter 1 of [open] and [creat], 2 of [openat] and [openat2],
    3 of [open_by_handle_at]; the device is parameter 4, 6 and 4, the inode
    parameter 5, 7 and 5 of the same events. No other selector and no other
    event has a parameter. *)
Definition raw_param_slot (i : check_type) (c : ppm_event_code) : option nat :=
  match i with
  | TYPE_FDNUM => fd_param_slot c
  | TYPE_FDNAME | TYPE_DIRECTORY | TYPE_FILENAME | TYPE_FDNAMERAW =>
      match c with
      | PPME_SYSCALL_OPEN_X | PPME_SYSCALL_CREAT_X => Some 1%nat
      | PPME_SYSCALL_OPENAT_2_X | PPME_SYSCALL_OPENAT2_X => Some 2%nat
      | PPME_SYSCALL_OPEN_BY_HANDLE_AT_X => Some 3%nat
      | _ => None
      end
  | TYPE_DEV =>
      match c with
      | PPME_SYSCALL_OPEN_X | PPME_SYSCALL_CREAT_X => Some 4%nat
      | PPME_SYSCALL_OPENAT_2_X | PPME_SYSCALL_OPENAT2_X => Some 6%nat
      | PPME_SYSCALL_OPEN_BY_HANDLE_AT_X => Some 4%nat
      | _ => None
      end
  | TYPE_INO =>
      match c with
      | PPME_SYSCALL_OPEN_X | PPME_SYSCALL_CREAT_X => Some 5%nat
      | PPME_SYSCALL_OPENAT_2_X | PPME_SYSCALL_OPENAT2_X => Some 7%nat
      | PPME_SYSCALL_OPEN_BY_HANDLE_AT_X => Some 5%nat
      | _ => None
      end
  | _ => None
  end.

(** What is read at the position [p] of that parameter when no [cwd] is
    known: the decimal of an [int64_t] for the fd, of a [uint32_t] for the
    device, of a [uint64_t] for the inode; the NUL-terminated string for
    the raw name; that string joined by [concatenate_paths] onto the empty
    base for the name, the directory and the file name. *)
Definition raw_decode (concatenate_paths : string -> string -> string)
    (i : check_type) (data : list byte) (p : Z) : string :=
  match i with
  | TYPE_FDNUM => to_string (load_i64 data p)
  | TYPE_FDNAMERAW => load_cstr data p
  | TYPE_FDNAME | TYPE_DIRECTORY | TYPE_FILENAME =>
      concatenate_paths EmptyString (load_cstr data p)
  | TYPE_DEV => to_string (load_u32 data p)
  | TYPE_INO => to_string (load_u64 data p)
  | _ => EmptyString
  end.

(** A string without the given character, and one made of it only. *)
Fixpoint lacks (c : ascii) (s : string) : Prop :=
  match s with
  | EmptyString => True
  | String a s' => a <> c /\ lacks c s'
  end.

Fixpoint only (c : ascii) (s : string) : Prop :=
  match s with
  | EmptyString => True
  | String a s' => a = c /\ only c s'
  end.

(** The events that open a file, and the socket events, of the inner
    switches of the fd selectors. *)
Definition opens_file (c : ppm_event_code) : bool :=
  match c with
  | PPME_SYSCALL_OPEN_X | PPME_SYSCALL_CREAT_X | PPME_SYSCALL_OPENAT_2_X
  | PPME_SYSCALL_OPENAT2_X | PPME_SYSCALL_OPEN_BY_HANDLE_AT_X => true
  | _ => false
  end.

Definition socket_event (c : ppm_event_code) : bool :=
  match c with
  | PPME_SOCKET_ACCEPT_5_X | PPME_SOCKET_ACCEPT4_6_X | PPME_SOCKET_CONNECT_X => true
  | _ => false
  end.

(** ** More example data *)

(** A chain of three threads whose sessions are 5, 7 and 5: [child] (10),
    its parent (11) and its grandparent (12). *)
Definition with_sid (s : Z) (t : thread_entry) : thread_entry :=
  {| tid := tid t; pid := pid t; ptid := ptid t; sid := s;
     comm := comm t; exe := exe t; exe_path := exe_path t;
     exe_writable := exe_writable t; exe_upper_layer := exe_upper_layer t;
     exe_from_memfd := exe_from_memfd t; exe_ino := exe_ino t;
     exe_ino_ctime := exe_ino_ctime t; exe_ino_mtime := exe_ino_mtime t;
     args := args t; env := env t; file_descriptors := file_descriptors t;
     vtid := vtid t; vpid := vpid t; vpgid := vpgid t; tty := tty t;
     cwd := cwd t; container_id := container_id t;
     lastevent_fd := lastevent_fd t |}.

Definition session_child : thread_entry := with_sid 5 (mk_thread 10 11 "child").

Definition session_table : thread_table :=
  <[10 := session_child]>
  (<[11 := with_sid 7 (mk_thread 11 12 "parent")]>
  (<[12 := with_sid 5 (mk_thread 12 1 "grandparent")]> ∅)).

(** The profile [%proc.name %custom.fdname_part1] bound to [execve]: its
    fields string does not contain ["%fd"]. *)
Definition name_then_fd_plugin : anomalydetection no_double :=
  example_plugin true 5 2048
    [selector TYPE_NAME 0; selector TYPE_CUSTOM_FDNAME_PART1 0]
    [PPME_SYSCALL_EXECVE_19_X].

(** Four profiles [%proc.name] bound to [execve], with reset periods of
    50 ms, 250 ms, -5 (a number the [uint64_t] read turns into 2^64 - 5)
    and none; and the same configuration asking for 2^32 + 4 sketches,
    which the [uint32_t] read turns into 4. *)
Definition timed_profile (t : option Z) : profile_json :=
  {| pj_fields := Some "%proc.name"%string;
     pj_event_codes := Some [PPME_SYSCALL_EXECVE_19_X];
     pj_reset_timer_ms := t |}.

Definition timed_config_for (n : Z) : count_min_sketch_json no_double :=
  {| cj_enabled := Some true;
     cj_n_sketches := Some n;
     cj_gamma_eps := None;
     cj_rows_cols := Some [[5; 2048]; [5; 2048]; [5; 2048]; [5; 2048]];
     cj_behavior_profiles :=
       Some [ timed_profile (Some 50); timed_profile (Some 250);
              timed_profile (Some (-5)); timed_profile None ] |}.

Definition timed_config : count_min_sketch_json no_double := timed_config_for 4.

Definition wrapped_count_config : count_min_sketch_json no_double :=
  timed_config_for (2 ^ 32 + 4).

(** A thread with an environment, a table of open fds and a last fd of
    its own. *)
Definition with_env_fds (l : list string) (fds : gmap Z fd_info) (last : Z)
    (t : thread_entry) : thread_entry :=
  {| tid := tid t; pid := pid t; ptid := ptid t; sid := sid t;
     comm := comm t; exe := exe t; exe_path := exe_path t;
     exe_writable := exe_writable t; exe_upper_layer := exe_upper_layer t;
     exe_from_memfd := exe_from_memfd t; exe_ino := exe_ino t;
     exe_ino_ctime := exe_ino_ctime t; exe_ino_mtime := exe_ino_mtime t;
     args := args t; env := l; file_descriptors := fds;
     vtid := vtid t; vpid := vpid t; vpgid := vpgid t; tty := tty t;
     cwd := cwd t; container_id := container_id t;
     lastevent_fd := last |}.


Definition blank_env_thread : thread_entry :=
  with_env_fds [ "PATH=/bin"; "HOME=   "; "TERM=xterm" ]%string
    ∅ (-1) (mk_thread 100 50 "bash").

Definition env_selector (key : string) : plugin_sinsp_filterchecks_field :=
  {| id := TYPE_ENV; argid := 0; argname := key |}.

(** [bash] holding [/etc/passwd] as fd 5, and a connected socket as fd 7. *)
Definition file_thread : thread_entry :=
  with_env_fds [] {[ 5 := {| fd_name := "/etc/passwd"; fd_nameraw := "passwd";
                            fd_dev := 2049; fd_ino := 131 |} ]}
    5 (mk_thread 100 50 "bash").

Definition socket_thread : thread_entry :=
  with_env_fds [] {[ 7 := {| fd_name := "127.0.0.1:40000->10.0.0.1:443";
                            fd_nameraw := ""; fd_dev := 0; fd_ino := 0 |} ]}
    7 (mk_thread 100 50 "bash").

(** * Properties *)

(** ** Strings and records *)

Lemma append_nil_r (s : string) : s +:+ "" = s.
Proof.
  induction s as [|a s IH]; [reflexivity|].
  change (String a (s +:+ "") = String a s). now rewrite IH.
Qed.

Lemma append_assoc (s1 s2 s3 : string) :
  (s1 +:+ s2) +:+ s3 = s1 +:+ (s2 +:+ s3).
Proof.
  induction s1 as [|a s1 IH]; [reflexivity|].
  change (String a ((s1 +:+ s2) +:+ s3) = String a (s1 +:+ (s2 +:+ s3))).
  now rewrite IH.
Qed.

Lemma set_sketches_same {double : Type} (st : anomalydetection double) :
  set_sketches double st (m_count_min_sketches st) = st.
Proof. destruct st; reflexivity. Qed.

(** ** The dispatch loop *)

Section ParseEvent.

Context (concatenate_paths : string -> string -> string)
        (hash : nat -> string -> Z) (double : Type).

Local Abbreviation parse := (parse_event concatenate_paths hash double).
Local Abbreviation sketch_loop := (update_sketches concatenate_paths hash double).

(** C10. With the count-min-sketch feature disabled, [parse_event] returns
    true at once for every event: the result does not depend on the event,
    and neither the plugin nor the thread table (so no [lastevent_fd]) is
    changed, fd-producing event or not. *)
Theorem parse_event_disabled_is_noop (st : anomalydetection double)
    (tt : thread_table) (evt : event) :
  m_count_min_sketch_enabled st = false ->
  parse st tt evt = (Ok true, st, tt).
Proof.
  intros Hoff. unfold parse_event. now rewrite Hoff.
Qed.

(** An event of a thread id at or below zero leaves every sketch as it was:
    the first profile that lists the event code returns false. *)
Lemma update_sketches_nonpositive_tid (st : anomalydetection double)
    (tt : thread_table) (evt : event) (sets : list (list ppm_event_code))
    (i : nat) (sketches : list Cms.cms) :
  evt_tid evt <= 0 ->
  (sketch_loop st tt evt sets i sketches).2 = sketches.
Proof.
  intros Htid. revert i.
  induction sets as [|set rest IH]; intros i; simpl; [reflexivity|].
  destruct (code_in (evt_type evt) set); [|apply IH].
  destruct (Z.leb_spec (evt_tid evt) 0) as [_|Hgt]; [reflexivity | lia].
Qed.

(** What the fd bookkeeping can do to the thread table: nothing, or a write
    of [lastevent_fd] in the entry of the event's own thread id. *)
Lemma write_lastevent_fd_frame (tt tt' : thread_table) (evt : event) :
  write_lastevent_fd tt evt = Ok (Some tt') ->
  tt' = tt \/
  exists (te : thread_entry) (fd : Z),
    tt !! evt_tid evt = Some te /\
    tt' = <[evt_tid evt := set_lastevent_fd fd te]> tt.
Proof.
  unfold write_lastevent_fd.
  destruct (fd_param_slot (evt_type evt)) as [slot|].
  - simpl. destruct (tt !! evt_tid evt) as [te|] eqn:Hte; [|discriminate].
    intros [= <-]. right. eauto.
  - intros [= <-]. now left.
Qed.

(** C5, amended. For an event whose thread id is at or below zero no sketch
    is updated and nothing of the plugin changes; the only per-thread state
    the parse path can write is the [lastevent_fd] of the entry stored under
    that very thread id. *)
Theorem parse_event_nonpositive_tid (st : anomalydetection double)
    (tt : thread_table) (evt : event) :
  evt_tid evt <= 0 ->
  (parse st tt evt).1.2 = st /\
  ((parse st tt evt).2 = tt \/
   exists (te : thread_entry) (fd : Z),
     tt !! evt_tid evt = Some te /\
     (parse st tt evt).2 = <[evt_tid evt := set_lastevent_fd fd te]> tt).
Proof.
  intros Htid. unfold parse_event.
  destruct (m_count_min_sketch_enabled st); simpl; [|now auto].
  destruct (write_lastevent_fd tt evt) as [[tt'|]|e] eqn:Hw; simpl;
    [|now auto|now auto].
  pose proof (update_sketches_nonpositive_tid st tt' evt
                (m_behavior_profiles_event_codes st) 0
                (m_count_min_sketches st) Htid) as Hs.
  destruct (sketch_loop st tt' evt _ _ _) as [r sketches]. simpl in *.
  subst sketches. split; [apply set_sketches_same|].
  now apply write_lastevent_fd_frame.
Qed.

(** C6, amended. While the count-min-sketch feature is enabled, after
    [parse_event] on an fd-producing event of a thread that is in the thread
    table, the thread's [lastevent_fd] is the [int64_t] decoded from
    parameter 2 for [PPME_SOCKET_CONNECT_X] and from parameter 0 for every
    other fd-producing code. *)
Theorem parse_event_records_fd (st : anomalydetection double)
    (tt : thread_table) (evt : event) (te : thread_entry) :
  m_count_min_sketch_enabled st = true ->
  fd_producing (evt_type evt) = true ->
  tt !! evt_tid evt = Some te ->
  exists (p : Z) (te' : thread_entry),
    param_pointer
      (get_syscall_evt_param evt
         (if bool_decide (evt_type evt = PPME_SOCKET_CONNECT_X) then 2 else 0))
      = Some p /\
    (parse st tt evt).2 !! evt_tid evt = Some te' /\
    lastevent_fd te' = load_i64 (evt_data evt) p.
Proof.
  intros Hon Hfd Hte. unfold parse_event, write_lastevent_fd.
  rewrite Hon. simpl.
  destruct (evt_type evt) eqn:Hty; try discriminate Hfd; simpl; rewrite Hte;
    (destruct (sketch_loop st _ evt _ _ _) as [r sketches]; simpl;
     eexists _, _; split; [reflexivity|];
     split; [apply lookup_insert_eq | reflexivity]).
Qed.

End ParseEvent.

(** ** The fingerprint extractor *)

Section ExtractorProperties.

Context (concatenate_paths : string -> string -> string).

Local Abbreviation fallbacks :=
  (extract_filterchecks_evt_params_fallbacks concatenate_paths).
Local Abbreviation eval := (eval_field concatenate_paths).
Local Abbreviation extractor :=
  (extract_filterchecks_concat_profile concatenate_paths).

Lemma concat_fallbacks_spec (evt : event)
    (fields : list plugin_sinsp_filterchecks_field) (acc : string) :
  concat_fallbacks concatenate_paths evt fields acc =
  acc +:+ concat_str (map (fun f => fallbacks evt f "") fields).
Proof.
  unfold concat_fallbacks. revert acc.
  induction fields as [|f fields IH]; intros acc; simpl.
  - now rewrite append_nil_r.
  - rewrite IH. apply append_assoc.
Qed.

Lemma fallback_needs_raw_selector (evt : event)
    (f : plugin_sinsp_filterchecks_field) (cwd_ : string) :
  raw_event_selector (id f) = false -> fallbacks evt f cwd_ = "".
Proof.
  unfold extract_filterchecks_evt_params_fallbacks.
  destruct (id f); simpl; intros H; try discriminate H; reflexivity.
Qed.

(** The raw-event fallback without a [cwd], selector by selector and event
    by event: the parameter of [raw_param_slot], decoded by [raw_decode]. *)
Lemma fallback_decodes (evt : event) (f : plugin_sinsp_filterchecks_field) :
  fallbacks evt f "" =
    match raw_param_slot (id f) (evt_type evt) with
    | Some slot =>
        raw_decode concatenate_paths (id f) (evt_data evt)
          (2 * evt_nparams evt + sum_lens evt slot)
    | None => ""
    end.
Proof.
  unfold extract_filterchecks_evt_params_fallbacks, with_param,
    raw_param_slot, raw_decode, fd_param_slot.
  destruct (id f); try reflexivity;
    destruct (evt_type evt); simpl; try reflexivity;
    match goal with
    | |- context [is_absolute ?s] => destruct (is_absolute s); reflexivity
    end.
Qed.

(** C8. When the thread table has no entry for the thread id of the event,
    extraction does not fail: it returns true and the fingerprint is the
    concatenation, field by field, of values decoded from the event buffer
    alone. Every selector that needs thread-table data (every selector but
    fd number, name, directory, filename, inode, device and raw name)
    contributes the empty string. A selector that has a parameter in the
    event contributes what is stored there: the decimal of the fd, of the
    device or of the inode, the raw name, or the name joined onto the empty
    base; in the buffer the parameter is found by [get_syscall_evt_param].
    A selector without a parameter in the event contributes the empty
    string. *)
Theorem extract_without_thread_entry (tt : thread_table) (evt : event)
    (fields : list plugin_sinsp_filterchecks_field) :
  tt !! evt_tid evt = None ->
  extractor tt evt fields "" =
    Ok (true, concat_str (map (fun f => fallbacks evt f "") fields)) /\
  (forall f : plugin_sinsp_filterchecks_field,
     raw_event_selector (id f) = false -> fallbacks evt f "" = "") /\
  (forall (f : plugin_sinsp_filterchecks_field) (slot : nat),
     raw_param_slot (id f) (evt_type evt) = Some slot ->
     exists p : Z,
       param_pointer (get_syscall_evt_param evt slot) = Some p /\
       fallbacks evt f ""
       = raw_decode concatenate_paths (id f) (evt_data evt) p) /\
  (forall f : plugin_sinsp_filterchecks_field,
     raw_param_slot (id f) (evt_type evt) = None -> fallbacks evt f "" = "").
Proof.
  intros Hnone. split; [|split; [|split]].
  - unfold extract_filterchecks_concat_profile. rewrite Hnone.
    now rewrite concat_fallbacks_spec.
  - intros f. apply fallback_needs_raw_selector.
  - intros f slot Hslot. eexists. split; [reflexivity|].
    now rewrite fallback_decodes, Hslot.
  - intros f Hslot. now rewrite fallback_decodes, Hslot.
Qed.

(** *** Ancestor selectors *)

Lemma ancestor_walk_missing (read : thread_entry -> string) (tt : thread_table)
    (p : Z) (n : nat) :
  tt !! p = None -> ancestor_walk read tt p n = "".
Proof.
  intros Hp. induction n as [|n IH]; simpl; [reflexivity|]. now rewrite Hp.
Qed.

Lemma ancestor_walk_reaches (read : thread_entry -> string) (tt : thread_table)
    (k : nat) (t a : thread_entry) :
  kth_ancestor tt t (S k) = Some a ->
  (forall (j : nat) (b : thread_entry),
     (S j < S k)%nat -> kth_ancestor tt t j = Some b -> ptid b <> 1) ->
  ancestor_walk read tt (ptid t) (S k) = read a.
Proof.
  revert t. induction k as [|k IH]; intros t Hk Hno1; simpl in *.
  - destruct (tt !! ptid t) as [parent|]; [|discriminate]. now inversion Hk.
  - destruct (tt !! ptid t) as [parent|] eqn:Hp; [|discriminate].
    destruct (Z.eqb_spec (ptid t) 1) as [H1|_].
    + exfalso. apply (Hno1 O t); [lia | reflexivity | exact H1].
    + apply IH; [exact Hk|].
      intros j b Hj Hb. apply (Hno1 (S j) b); [lia|].
      simpl. now rewrite Hp.
Qed.

Lemma ancestor_walk_stops_at_init (read : thread_entry -> string)
    (tt : thread_table) (j k : nat) (t b : thread_entry) :
  (S j < k)%nat -> kth_ancestor tt t j = Some b -> ptid b = 1 ->
  ancestor_walk read tt (ptid t) k = "".
Proof.
  revert k t. induction j as [|j IH]; intros k t Hjk Hb H1.
  - simpl in Hb. inversion Hb; subst b.
    destruct k as [|[|k]]; try lia. simpl.
    destruct (tt !! ptid t) as [l|] eqn:Hl.
    + now rewrite H1.
    + now apply ancestor_walk_missing.
  - simpl in Hb. destruct (tt !! ptid t) as [parent|] eqn:Hp; [|discriminate].
    destruct k as [|[|k]]; try lia. simpl. rewrite Hp.
    destruct (ptid t =? 1); [reflexivity|].
    apply (IH (S k) parent); [lia | exact Hb | exact H1].
Qed.

Lemma ancestor_walk_broken_chain (read : thread_entry -> string)
    (tt : thread_table) (k : nat) (t : thread_entry) :
  kth_ancestor tt t k = None -> ancestor_walk read tt (ptid t) k = "".
Proof.
  revert t. induction k as [|k IH]; intros t Hk; simpl in *; [discriminate|].
  destruct (tt !! ptid t) as [parent|] eqn:Hp.
  - destruct k as [|k]; [discriminate|].
    destruct (ptid t =? 1); [reflexivity|]. now apply IH.
  - now apply ancestor_walk_missing.
Qed.

Lemma eval_ancestor (tt : thread_table) (evt : event) (te : thread_entry)
    (f : plugin_sinsp_filterchecks_field) (read : thread_entry -> string) :
  ancestor_read (id f) = Some read ->
  eval tt evt te f =
    Ok (false,
        if argid f <? 1 then read te
        else ancestor_walk read tt (ptid te) (Z.to_nat (argid f))).
Proof.
  unfold eval_field.
  destruct (id f); simpl; intros [= <-]; now destruct (argid f <? 1).
Qed.

(** C9. For the ancestor selectors [APID], [ANAME], [AEXE], [AEXEPATH] and
    [ACMDLINE] with index [k]: for [k = 0] the selector yields the attribute
    of the current thread; for [k >= 1], when following [ptid] exactly [k]
    times leads to a thread and no [ptid] equal to 1 was met before that
    last step, it yields the attribute of that [k]th ancestor; and when a
    [ptid] equal to 1 is met before the [k]th ancestor, the walk stops and
    the selector yields the empty string. *)
Theorem ancestor_selector_walk (tt : thread_table) (evt : event)
    (te : thread_entry) (f : plugin_sinsp_filterchecks_field)
    (read : thread_entry -> string) :
  ancestor_read (id f) = Some read ->
  (argid f = 0 -> eval tt evt te f = Ok (false, read te)) /\
  (forall a : thread_entry,
     1 <= argid f ->
     kth_ancestor tt te (Z.to_nat (argid f)) = Some a ->
     (forall (j : nat) (b : thread_entry),
        (S j < Z.to_nat (argid f))%nat ->
        kth_ancestor tt te j = Some b -> ptid b <> 1) ->
     eval tt evt te f = Ok (false, read a)) /\
  (forall (j : nat) (b : thread_entry),
     1 <= argid f ->
     (S j < Z.to_nat (argid f))%nat ->
     kth_ancestor tt te j = Some b -> ptid b = 1 ->
     eval tt evt te f = Ok (false, "")).
Proof.
  intros Hread. rewrite (eval_ancestor tt evt te f read Hread).
  split; [|split].
  - intros ->. reflexivity.
  - intros a Hk Ha Hno1.
    destruct (Z.ltb_spec (argid f) 1) as [?|_]; [lia|].
    destruct (Z.to_nat (argid f)) as [|k] eqn:Hn; [lia|].
    now rewrite (ancestor_walk_reaches read tt k te a Ha Hno1).
  - intros j b Hk Hj Hb H1.
    destruct (Z.ltb_spec (argid f) 1) as [?|_]; [lia|].
    now rewrite (ancestor_walk_stops_at_init read tt j _ te b Hj Hb H1).
Qed.

(** *** Exceptions inside the loop *)

Lemma eval_field_guarded (tt : thread_table) (evt : event) (te : thread_entry)
    (f : plugin_sinsp_filterchecks_field) :
  unguarded f = false ->
  exists (cleared : bool) (tstr : string), eval tt evt te f = Ok (cleared, tstr).
Proof.
  unfold unguarded, eval_field.
  destruct (id f); simpl; intros Hg; try discriminate Hg;
    try (destruct (argid f <? 1); eauto; fail);
    try (destruct (evt_type evt); eauto; fail);
    eauto.
  apply negb_false_iff in Hg. rewrite Hg. simpl. eauto.
Qed.

Lemma concat_fields_guarded (tt : thread_table) (evt : event) (te : thread_entry)
    (fields : list plugin_sinsp_filterchecks_field) (acc : string) :
  Forall (fun f => unguarded f = false) fields ->
  exists s : string, concat_fields concatenate_paths tt evt te fields acc = Ok s.
Proof.
  intros Hall. revert acc.
  induction Hall as [|f fields Hf _ IH]; intros acc; simpl; [eauto|].
  destruct (eval_field_guarded tt evt te f Hf) as (cleared & tstr & ->).
  apply IH.
Qed.

Lemma concat_fields_throws (tt : thread_table) (evt : event) (te : thread_entry)
    (before rest : list plugin_sinsp_filterchecks_field)
    (f : plugin_sinsp_filterchecks_field) (acc : string) (e : exn) :
  Forall (fun g => unguarded g = false) before ->
  eval tt evt te f = Throw e ->
  concat_fields concatenate_paths tt evt te (before ++ f :: rest) acc = Throw e.
Proof.
  intros Hall Hf. revert acc.
  induction Hall as [|g before Hg _ IH]; intros acc; simpl.
  - now rewrite Hf.
  - destruct (eval_field_guarded tt evt te g Hg) as (cleared & tstr & ->).
    apply IH.
Qed.

(** C4. An exception raised while a field is extracted is not always caught
    inside the extractor: the direct-parent selectors ([PNAME], [PCMDLINE],
    [PEXE], [PEXEPATH], [PPID], [PVPID]) look the parent up outside any
    [try] block. For a thread that is in the table and whose
    parent is not, the selector raises [plugin_exception], and so does the
    extractor on every profile that reaches the selector: nothing is
    contributed and the selectors after it are not evaluated. The indexed
    ancestor selectors with index 1 make the same lookup inside a [try]
    and contribute the empty string. *)
Theorem direct_parent_lookup_failure_escapes (tt : thread_table) (evt : event)
    (te : thread_entry) (before rest : list plugin_sinsp_filterchecks_field)
    (f : plugin_sinsp_filterchecks_field) (acc : string) :
  tt !! evt_tid evt = Some te ->
  tt !! ptid te = None ->
  direct_parent (id f) = true ->
  Forall (fun g => unguarded g = false) before ->
  eval tt evt te f = Throw plugin_exception /\
  extractor tt evt (before ++ f :: rest) acc = Throw plugin_exception /\
  (forall (fa : plugin_sinsp_filterchecks_field)
          (read : thread_entry -> string),
     ancestor_read (id fa) = Some read -> argid fa = 1 ->
     eval tt evt te fa = Ok (false, "")).
Proof.
  intros Hte Hparent Hf Hall.
  assert (Hthrow : eval tt evt te f = Throw plugin_exception).
  { unfold eval_field, with_parent.
    destruct (id f); simpl in Hf; try discriminate Hf;
      now rewrite Hparent. }
  split; [exact Hthrow|]. split.
  - unfold extract_filterchecks_concat_profile. rewrite Hte.
    now rewrite (concat_fields_throws tt evt te before rest f acc
                   plugin_exception Hall Hthrow).
  - intros fa read Hread Hk.
    rewrite (eval_ancestor tt evt te fa read Hread), Hk. simpl.
    now rewrite Hparent.
Qed.

(** *** Fd gating *)

(** An fd-dependent selector met on an event that produces no fd clears the
    accumulated profile and appends nothing. *)
Lemma fd_selector_clears (tt : thread_table) (evt : event) (te : thread_entry)
    (f : plugin_sinsp_filterchecks_field) :
  fd_dependent (id f) = true -> fd_producing (evt_type evt) = false ->
  eval tt evt te f = Ok (true, "").
Proof.
  unfold eval_field.
  destruct (id f); simpl; intros Hf; try discriminate Hf;
    destruct (evt_type evt); simpl; intros He; try discriminate He; reflexivity.
Qed.

(** Without a thread entry, an event that produces no fd has the empty
    fingerprint for every profile. *)
Lemma fallback_empty_on_other_events (evt : event)
    (f : plugin_sinsp_filterchecks_field) (cwd_ : string) :
  fd_producing (evt_type evt) = false -> fallbacks evt f cwd_ = "".
Proof.
  unfold extract_filterchecks_evt_params_fallbacks.
  destruct (id f); simpl; try reflexivity;
    destruct (evt_type evt); simpl; intros He; try discriminate He; reflexivity.
Qed.

(** When the fd-dependent selector is the last one of the profile, the
    fingerprint of an event that produces no fd is empty. *)
Lemma fd_gating_when_last (tt : thread_table) (evt : event)
    (fields : list plugin_sinsp_filterchecks_field)
    (f : plugin_sinsp_filterchecks_field) (acc : string) :
  Forall (fun g => unguarded g = false) fields ->
  fd_dependent (id f) = true -> fd_producing (evt_type evt) = false ->
  extractor tt evt (fields ++ [f]) acc = Ok (true, "") \/
  (tt !! evt_tid evt = None /\
   extractor tt evt (fields ++ [f]) acc = Ok (true, acc)).
Proof.
  intros Hall Hf He. unfold extract_filterchecks_concat_profile.
  destruct (tt !! evt_tid evt) as [te|].
  - left. revert acc.
    induction Hall as [|g fields Hg _ IH]; intros acc; simpl.
    + now rewrite (fd_selector_clears tt evt te f Hf He).
    + destruct (eval_field_guarded tt evt te g Hg) as (c & s & ->).
      apply IH.
  - right. split; [reflexivity|]. rewrite concat_fallbacks_spec.
    assert (Hmap : forall l : list plugin_sinsp_filterchecks_field,
               concat_str (map (fun g => fallbacks evt g "") l) = "").
    { induction l as [|g l IHl]; simpl; [reflexivity|].
      now rewrite IHl, (fallback_empty_on_other_events evt g "" He). }
    now rewrite Hmap, append_nil_r.
Qed.

End ExtractorProperties.

(** ** The count-min sketch *)

Section CmsProperties.

Import Cms.

Context (hash : nat -> string -> Z).

Local Abbreviation bucket_of := (bucket hash).
Local Abbreviation cell_of := (cell hash).
Local Abbreviation covers := (Cms.covers hash).

Lemma saturating_add_range (c delta : Z) :
  0 <= c <= UINT64_MAX -> 0 <= delta ->
  0 <= saturating_add c delta <= UINT64_MAX /\ c <= saturating_add c delta.
Proof. unfold saturating_add, UINT64_MAX. lia. Qed.

Lemma bucket_in_row (w : Z) (i : nat) (key : string) (row : list Z) :
  1 <= w -> length row = Z.to_nat w -> (bucket_of w i key < length row)%nat.
Proof.
  intros Hw Hlen. unfold bucket. rewrite Hlen.
  pose proof (Z.mod_pos_bound (hash i key) w ltac:(lia)). lia.
Qed.

Lemma update_wf (s : cms) (key : string) (delta : Z) :
  cms_wf s -> 0 <= delta -> cms_wf (update hash s key delta).
Proof.
  intros [Hw Hrows] Hd. split; [exact Hw|]. simpl.
  rewrite Forall_lookup in Hrows. apply Forall_lookup. intros i row' Hi.
  apply list_lookup_imap_Some in Hi as (row & Hrow & ->).
  destruct (Hrows i row Hrow) as [Hlen Hcells]. split.
  - now rewrite length_alter.
  - apply Forall_alter; [exact Hcells|].
    intros c _ Hc. now apply saturating_add_range.
Qed.

Lemma reset_wf (s : cms) : cms_wf s -> cms_wf (reset s).
Proof.
  intros [Hw Hrows]. split; [exact Hw|]. simpl.
  rewrite Forall_lookup in Hrows. apply Forall_lookup. intros i row' Hi.
  rewrite list_lookup_fmap in Hi.
  destruct (sketch s !! i) as [row|] eqn:Hrow; [|discriminate].
  injection Hi as <-. destruct (Hrows i row Hrow) as [Hlen _]. split.
  - now rewrite length_replicate.
  - apply Forall_replicate. unfold UINT64_MAX. lia.
Qed.

Lemma covers_zero (s : cms) (k : string) : cms_wf s -> covers s k 0.
Proof.
  intros [_ Hrows] i row Hrow. unfold cell.
  rewrite Forall_lookup in Hrows. destruct (Hrows i row Hrow) as [_ Hcells].
  destruct (row !! bucket_of (w_ s) i k) as [c|] eqn:Hc; simpl; [|lia].
  rewrite Forall_lookup in Hcells. apply (Hcells _ _ Hc).
Qed.

Lemma covers_reset (s : cms) (k : string) : covers (reset s) k 0.
Proof.
  intros i row' Hi. simpl in Hi. rewrite list_lookup_fmap in Hi.
  destruct (sketch s !! i) as [row|]; [|discriminate]. injection Hi as <-.
  unfold cell.
  destruct (replicate (length row) 0 !! _) as [c|] eqn:Hc; simpl; [|lia].
  apply lookup_replicate in Hc as [-> _]. lia.
Qed.

(** The counter of [k] in row [i] after an update of [key]. *)
Lemma cell_update (s : cms) (key k : string) (delta : Z) (i : nat)
    (row : list Z) :
  cms_wf s -> sketch s !! i = Some row ->
  cell_of (w_ s) k i
    (alter (fun c => saturating_add c delta) (bucket_of (w_ s) i key) row) =
  if bool_decide (bucket_of (w_ s) i key = bucket_of (w_ s) i k)
  then saturating_add (cell_of (w_ s) k i row) delta
  else cell_of (w_ s) k i row.
Proof.
  intros [Hw Hrows] Hrow. rewrite Forall_lookup in Hrows.
  destruct (Hrows i row Hrow) as [Hlen _]. unfold cell.
  case_bool_decide as Heq.
  - rewrite Heq, list_lookup_alter_eq.
    destruct (lookup_lt_is_Some_2 row _ (bucket_in_row (w_ s) i k row Hw Hlen))
      as [c ->].
    reflexivity.
  - now rewrite list_lookup_alter_ne.
Qed.

Lemma covers_update (s : cms) (key k : string) (delta b : Z) :
  cms_wf s -> 0 <= delta -> 0 <= b -> covers s k b ->
  covers (update hash s key delta) k
    (if bool_decide (key = k) && (delta =? 1) then Z.min (b + 1) UINT64_MAX else b).
Proof.
  intros Hwf Hd Hb Hcov i row' Hi. simpl in Hi.
  apply list_lookup_imap_Some in Hi as (row & Hrow & ->).
  change (w_ (update hash s key delta)) with (w_ s).
  rewrite (cell_update s key k delta i row Hwf Hrow).
  specialize (Hcov i row Hrow).
  assert (Hrange : 0 <= cell_of (w_ s) k i row <= UINT64_MAX).
  { destruct Hwf as [_ Hrows]. rewrite Forall_lookup in Hrows.
    destruct (Hrows i row Hrow) as [_ Hcells]. unfold cell.
    destruct (row !! bucket_of (w_ s) i k) as [c|] eqn:Hc; simpl.
    - rewrite Forall_lookup in Hcells. apply (Hcells _ _ Hc).
    - unfold UINT64_MAX. lia. }
  pose proof (saturating_add_range _ delta Hrange Hd) as [_ Hmono].
  case_bool_decide as Hkey; simpl.
  - subst key. rewrite bool_decide_eq_true_2 by reflexivity.
    destruct (Z.eqb_spec delta 1) as [->|_]; [|lia].
    unfold saturating_add in *. lia.
  - case_bool_decide; lia.
Qed.

Lemma count_step_nonneg (k : string) (c : Z) (o : op) :
  0 <= c -> 0 <= count_step k c o.
Proof.
  destruct o as [key delta|]; simpl; [|lia].
  destruct (bool_decide (key = k) && (delta =? 1)); lia.
Qed.

(** The invariant of a stream of operations: the counters of [k] stay at or
    above the running count, capped at the largest counter value. *)
Lemma run_covers (k : string) (ops : list op) (s : cms) (c : Z) :
  cms_wf s -> Forall op_wf ops -> 0 <= c ->
  covers s k (Z.min c UINT64_MAX) ->
  covers (run hash ops s) k (Z.min (fold_left (count_step k) ops c) UINT64_MAX).
Proof.
  intros Hwf Hops. revert s c Hwf.
  induction Hops as [|o ops Ho _ IH]; intros s c Hwf Hc Hcov; simpl;
    [exact Hcov|].
  apply IH.
  - destruct o as [key delta|]; simpl in *;
      [apply update_wf; [exact Hwf | lia] | now apply reset_wf].
  - now apply count_step_nonneg.
  - destruct o as [key delta|]; simpl in *.
    + pose proof (covers_update s key k delta (Z.min c UINT64_MAX) Hwf
                    ltac:(lia) ltac:(unfold UINT64_MAX; lia) Hcov) as Hnew.
      destruct (bool_decide (key = k) && (delta =? 1)).
      * intros i row Hrow. specialize (Hnew i row Hrow). lia.
      * exact Hnew.
    + intros i row Hrow. pose proof (covers_reset s k i row Hrow).
      unfold UINT64_MAX in *. lia.
Qed.

Lemma estimate_covers (s : cms) (k : string) (b : Z) :
  covers s k b -> b <= UINT64_MAX -> b <= estimate hash s k.
Proof.
  intros Hcov Hb. unfold estimate.
  assert (Hall : Forall (fun x => b <= x) (imap (cell_of (w_ s) k) (sketch s))).
  { apply Forall_lookup. intros i x Hi.
    apply list_lookup_imap_Some in Hi as (row & Hrow & ->).
    now apply Hcov. }
  induction Hall as [|x l Hx _ IH]; simpl; lia.
Qed.

(** The estimate against the count, whatever the length of the stream. *)
Lemma estimate_ge_capped_count (s0 : cms) (ops : list op) (k : string) :
  cms_wf s0 -> Forall op_wf ops ->
  Z.min (true_count k ops) UINT64_MAX <= estimate hash (run hash ops s0) k.
Proof.
  intros Hwf Hops. apply estimate_covers; [|lia].
  apply run_covers; [exact Hwf | exact Hops | lia |].
  replace (Z.min 0 UINT64_MAX) with 0 by reflexivity.
  now apply covers_zero.
Qed.

(** C2. For every well-shaped sketch, every stream of updates and resets
    applied to it and every key [k], the estimate of [k] is at least the
    number of [update(k, 1)] calls since the last reset, the count being a
    value of the counter type. *)
Theorem estimate_never_undercounts (s0 : cms) (ops : list op) (k : string) :
  cms_wf s0 -> Forall op_wf ops ->
  true_count k ops <= UINT64_MAX ->
  true_count k ops <= estimate hash (run hash ops s0) k.
Proof.
  intros Hwf Hops Hfit.
  pose proof (estimate_ge_capped_count s0 ops k Hwf Hops). lia.
Qed.

End CmsProperties.

(** ** Configuration checks *)

Section InitProperties.

Context (get_profile_fields : string -> list plugin_sinsp_filterchecks_field)
        (double : Type)
        (calculate_d_rows_from_gamma calculate_w_cols_buckets_from_eps : double -> Z)
        (NDEBUG : bool).

Local Abbreviation init_plugin :=
  (init get_profile_fields double calculate_d_rows_from_gamma
        calculate_w_cols_buckets_from_eps NDEBUG).

Lemma check_event_codes_rejects (fields : string)
    (codes : list ppm_event_code) (code : ppm_event_code) :
  is_Some (str_find "%fd" fields) ->
  code ∈ codes -> code ∉ supported_codes_fd_profile ->
  check_event_codes fields codes = Exited 1.
Proof.
  intros Hfd Hin Hout. unfold check_event_codes.
  rewrite bool_decide_eq_true_2 by exact Hfd.
  destruct (forallb _ codes) eqn:Hall; [|reflexivity].
  exfalso. apply Hout.
  rewrite forallb_forall in Hall.
  specialize (Hall code (proj1 (list_elem_of_In _ _) Hin)).
  unfold code_in in Hall. now apply bool_decide_eq_true_1 in Hall.
Qed.

Lemma check_event_codes_outcome (fields : string) (codes : list ppm_event_code) :
  check_event_codes fields codes = Returned tt \/
  check_event_codes fields codes = Exited 1.
Proof.
  unfold check_event_codes.
  destruct (_ && _); [now right|]. destruct (negb _); auto.
Qed.

Lemma load_profiles_rejects (ps : list profile_json) (p : profile_json)
    (fields : string) (codes : list ppm_event_code) :
  p ∈ ps -> pj_fields p = Some fields -> pj_event_codes p = Some codes ->
  check_event_codes fields codes = Exited 1 ->
  forall acc, load_profiles get_profile_fields ps acc = Exited 1.
Proof.
  intros Hin Hf Hc Hrej.
  induction Hin as [p ps|p q ps _ IH]; intros [[timers fieldss] codess]; simpl.
  - now rewrite Hf, Hc, Hrej.
  - destruct (pj_fields q) as [qf|]; [|apply IH; assumption].
    destruct (pj_event_codes q) as [qc|]; [|apply IH; assumption].
    destruct (check_event_codes_outcome qf qc) as [-> | ->];
      [apply IH; assumption | reflexivity].
Qed.

(** C3, amended. When the count-min-sketch feature is enabled and a
    behaviour profile with both keys has a [fields] string that contains
    ["%fd"] and an event code outside the fd-producing set, initialization
    does not go on: [parse_init_config] ends the process with [exit(1)], so
    [init] never returns to the host. *)
Theorem init_exits_on_fd_profile_with_other_codes
    (st : anomalydetection double) (cj : count_min_sketch_json double)
    (tables_ok : bool) (start_ts : Z)
    (ps : list profile_json) (p : profile_json)
    (fields : string) (codes : list ppm_event_code) (code : ppm_event_code) :
  default (m_count_min_sketch_enabled st) (cj_enabled cj) = true ->
  cj_behavior_profiles cj = Some ps ->
  p ∈ ps ->
  pj_fields p = Some fields ->
  pj_event_codes p = Some codes ->
  is_Some (str_find "%fd" fields) ->
  code ∈ codes ->
  code ∉ supported_codes_fd_profile ->
  init_plugin st (Some (Some cj)) tables_ok start_ts = Exited 1.
Proof.
  intros Hon Hps Hp Hf Hc Hfd Hin Hout.
  unfold init, parse_init_config. rewrite Hon, Hps. simpl.
  rewrite (load_profiles_rejects ps p fields codes Hp Hf Hc
             (check_event_codes_rejects fields codes code Hfd Hin Hout)).
  reflexivity.
Qed.

End InitProperties.

(** ** The extraction entry point *)

(** The two indexed fields fail, with a message in [m_lasterr] and no value
    set, when the feature is disabled or the index is not below the number
    of sketches. *)
Lemma extract_rejects_disabled_or_out_of_bounds
    (concatenate_paths : string -> string -> string)
    (hash : nat -> string -> Z) (double : Type)
    (st : anomalydetection double) (tt : thread_table) (evt : event)
    (req : extract_request) (now : Z) :
  get_field_id req = ANOMALYDETECTION_COUNT_MIN_SKETCH_COUNT \/
  get_field_id req = ANOMALYDETECTION_COUNT_MIN_SKETCH_BEHAVIOR_PROFILE_CONCAT_STR ->
  m_count_min_sketch_enabled st = false \/ m_n_sketches st <= get_arg_index req ->
  exists msg : string,
    msg <> ""%string /\
    extract concatenate_paths hash double st tt evt req now
    = Ok (false, None, set_lasterr double st msg).
Proof.
  intros Hfield Hbad. unfold extract.
  destruct (m_count_min_sketch_enabled st) eqn:Hon.
  - destruct Hbad as [Hoff|Hidx]; [discriminate|].
    destruct (Z.leb_spec (m_n_sketches st) (get_arg_index req)) as [_|?]; [|lia].
    exists "sketch index out of bounds"%string.
    split; [discriminate|]. destruct Hfield as [-> | ->]; reflexivity.
  - eexists. split; [|destruct Hfield as [-> | ->]; reflexivity]. discriminate.
Qed.

(** ** Worked examples *)

(** The column of a sketch with a single column does not depend on the hash
    family. *)
Lemma bucket_single_column (hash : nat -> string -> Z) (i : nat) (key : string) :
  Cms.bucket hash 1 i key = 0%nat.
Proof. unfold Cms.bucket. now rewrite Z.mod_1_r. Qed.

(** C1. The profile [%fd.name %proc.name] on an [execve] of [bash]: the fd
    selector clears the accumulated string, the selector after it is still
    appended, and the fingerprint is ["bash"], not the empty string. The
    configuration is one that [init] accepts (the profile is bound to [open]
    only); [extract] on the [execve] event returns the non-empty fingerprint.
    With the selectors in the other order the fingerprint is empty. *)
Theorem fd_gating_keeps_later_selectors :
  init get_profile_fields_model no_double no_shape no_shape false fresh_plugin
       (Some (Some fd_first_config)) true 0 = Returned (true, fd_first_plugin) /\
  fd_dependent TYPE_FDNAME = true /\
  fd_producing (evt_type (execve_evt 100)) = false /\
  extract_filterchecks_concat_profile concatenate_paths_model
    example_table (execve_evt 100) fd_first_profile "" = Ok (true, "bash") /\
  extract concatenate_paths_model hash_model no_double fd_first_plugin
    example_table (execve_evt 100) (profile_request 0) 0
  = Ok (true, Some (Str "bash"), fd_first_plugin) /\
  extract_filterchecks_concat_profile concatenate_paths_model
    example_table (execve_evt 100)
    [selector TYPE_NAME 0; selector TYPE_FDNAME 0] "" = Ok (true, "").
Proof. vm_compute. repeat split; reflexivity. Qed.

(** C3, counterexample. A configuration with the feature enabled whose
    profile [%proc.name %fd.name] lists [execve]: [init] does not return
    false, the process exits with status 1. *)
Lemma init_fd_profile_exits_process :
  init get_profile_fields_model no_double no_shape no_shape false fresh_plugin
    (Some (Some (example_config true "%proc.name %fd.name"
                   [PPME_SYSCALL_EXECVE_19_X; PPME_SYSCALL_OPEN_X])))
    true 0 = Exited 1 /\
  ~ (exists st,
       init get_profile_fields_model no_double no_shape no_shape false
         fresh_plugin
         (Some (Some (example_config true "%proc.name %fd.name"
                        [PPME_SYSCALL_EXECVE_19_X; PPME_SYSCALL_OPEN_X])))
         true 0 = Returned (false, st)).
Proof.
  assert (H : init get_profile_fields_model no_double no_shape no_shape false
                fresh_plugin
                (Some (Some (example_config true "%proc.name %fd.name"
                               [PPME_SYSCALL_EXECVE_19_X; PPME_SYSCALL_OPEN_X])))
                true 0 = Exited 1) by (vm_compute; reflexivity).
  rewrite H. split; [reflexivity|]. intros [st Hst]. discriminate Hst.
Qed.

(** With the feature disabled the same profile is not examined and [init]
    returns true. *)
Lemma init_disabled_skips_profile_checks :
  exists st,
    init get_profile_fields_model no_double no_shape no_shape false fresh_plugin
      (Some (Some (example_config false "%proc.name %fd.name"
                     [PPME_SYSCALL_EXECVE_19_X; PPME_SYSCALL_OPEN_X])))
      true 0 = Returned (true, st).
Proof. eexists. vm_compute. reflexivity. Qed.

(** [%fd.nameraw] on an [open] of thread 100, whose fd table has no entry
    for its [lastevent_fd]: the lookup fails and is caught, and the
    selector contributes the name decoded from the event, not the empty
    string. *)
Lemma caught_fd_lookup_contributes_raw_name :
  example_table !! 100 = Some (mk_thread 100 50 "bash") /\
  file_descriptors (mk_thread 100 50 "bash")
    !! lastevent_fd (mk_thread 100 50 "bash") = None /\
  eval_field concatenate_paths_model example_table (open_evt 100)
    (mk_thread 100 50 "bash") (selector TYPE_FDNAMERAW 0)
  = Ok (false, "/etc/passwd") /\
  eval_field concatenate_paths_model example_table (open_evt 100)
    (mk_thread 100 50 "bash") (selector TYPE_FDNAMERAW 0)
  <> Ok (false, "").
Proof. vm_compute. repeat split; try reflexivity. discriminate. Qed.

(** The same holds for the session-leader selector of a thread whose parent
    is not in the table: the failed lookups are caught and the selector
    contributes the name of the thread itself. *)
Lemma caught_parent_lookup_contributes_own_name :
  example_table !! ptid (mk_thread 200 999 "orphan") = None /\
  eval_field concatenate_paths_model example_table (execve_evt 200)
    (mk_thread 200 999 "orphan") (selector TYPE_SNAME 0) = Ok (false, "orphan").
Proof. vm_compute. split; reflexivity. Qed.

(** The direct-parent selectors look the parent up outside any [try]: for a
    thread whose parent is not in the table the exception leaves the
    extractor, [extract] lets it through and [parse_event] returns false. *)
Lemma parent_selector_exception_escapes :
  extract_filterchecks_concat_profile concatenate_paths_model
    example_table (execve_evt 200) [selector TYPE_PNAME 0] ""
    = Throw plugin_exception /\
  extract concatenate_paths_model hash_model no_double pname_plugin
    example_table (execve_evt 200) (count_request 0) 0
    = Throw plugin_exception /\
  (parse_event concatenate_paths_model hash_model no_double pname_plugin
     example_table (execve_evt 200)).1.1 = Ok false.
Proof. vm_compute. repeat split; reflexivity. Qed.

(** C5, counterexample. An [open] event carrying thread id 0, for which the
    table holds an entry: the event is not skipped entirely, its fd 5 is
    written to the entry's [lastevent_fd] before the thread id is tested. *)
Lemma parse_event_tid_zero_writes_fd :
  evt_tid (open_evt 0) <= 0 /\
  lastevent_fd <$> example_table !! 0 = Some (-1) /\
  (parse_event concatenate_paths_model hash_model no_double plugin_on
     example_table (open_evt 0)).1.1 = Ok false /\
  lastevent_fd <$>
    (parse_event concatenate_paths_model hash_model no_double plugin_on
       example_table (open_evt 0)).2 !! 0 = Some 5 /\
  (parse_event concatenate_paths_model hash_model no_double plugin_on
     example_table (open_evt 0)).2 <> example_table.
Proof.
  vm_compute. repeat split; try reflexivity; try discriminate.
Qed.

(** C6, counterexample. With the feature disabled, [parse_event] on an
    [open] event of thread 100, which is in the table, leaves the thread's
    [lastevent_fd] at -1 although parameter 0 of the event decodes to 5. *)
Lemma parse_event_disabled_keeps_lastevent_fd :
  fd_producing (evt_type (open_evt 100)) = true /\
  is_Some (example_table !! evt_tid (open_evt 100)) /\
  param_pointer (get_syscall_evt_param (open_evt 100) 0) = Some 12 /\
  load_i64 (evt_data (open_evt 100)) 12 = 5 /\
  (parse_event concatenate_paths_model hash_model no_double plugin_off
     example_table (open_evt 100)).1.1 = Ok true /\
  lastevent_fd <$>
    (parse_event concatenate_paths_model hash_model no_double plugin_off
       example_table (open_evt 100)).2 !! 100 = Some (-1).
Proof.
  vm_compute. repeat split; try reflexivity; eauto.
Qed.

(** C7. A sketch with one row and one column, profile [%proc.name] bound to
    [execve]. After the [execve] of [bash] has been counted, the field
    [anomaly.count_min_sketch[0]] is extracted for an [execve] of thread 300,
    which is not in the thread table: its fingerprint is empty, and the
    request returns the estimate of the empty key, 1, not a zero value. *)
Theorem extract_empty_fingerprint_returns_estimate :
  extract_filterchecks_concat_profile concatenate_paths_model
    example_table (execve_evt 300) [selector TYPE_NAME 0] "" = Ok (true, "") /\
  extract concatenate_paths_model hash_model no_double single_cell_counted
    example_table (execve_evt 300) (count_request 0) 0
  = Ok (true, Some (U64 1), single_cell_counted) /\
  extract concatenate_paths_model hash_model no_double single_cell_counted
    example_table (execve_evt 300) (profile_request 0) 0
  = Ok (true, Some (Str ""), single_cell_counted).
Proof. vm_compute. repeat split; reflexivity. Qed.

(** ** The theorems at concrete inputs *)

(** A sketch of two rows and four columns after [example_ops]: key ["a"]
    was updated twice since the reset and its estimate is at least 2. *)
Lemma estimate_never_undercounts_witness :
  Cms.cms_wf (Cms.new_with_dw 2 4) /\
  Forall Cms.op_wf example_ops /\
  Cms.true_count "a" example_ops <= UINT64_MAX /\
  Cms.true_count "a" example_ops
    <= Cms.estimate hash_model
         (Cms.run hash_model example_ops (Cms.new_with_dw 2 4)) "a".
Proof.
  assert (Hwf : Cms.cms_wf (Cms.new_with_dw 2 4)).
  { split; [simpl; lia|].
    repeat (constructor;
            [split; [reflexivity | repeat constructor; unfold UINT64_MAX; lia]|]).
    constructor. }
  assert (Hops : Forall Cms.op_wf example_ops).
  { repeat constructor; simpl; unfold UINT64_MAX; lia. }
  assert (Hfit : Cms.true_count "a" example_ops <= UINT64_MAX).
  { vm_compute. discriminate. }
  split; [exact Hwf|]. split; [exact Hops|]. split; [exact Hfit|].
  exact (estimate_never_undercounts hash_model (Cms.new_with_dw 2 4)
           example_ops "a" Hwf Hops Hfit).
Defined.

(** The profile [%proc.name %fd.name] bound to [execve] and [open]. *)
Lemma init_exits_on_fd_profile_with_other_codes_witness :
  init get_profile_fields_model no_double no_shape no_shape false fresh_plugin
    (Some (Some (example_config true "%proc.name %fd.name"
                   [PPME_SYSCALL_EXECVE_19_X; PPME_SYSCALL_OPEN_X])))
    true 0 = Exited 1.
Proof.
  apply (init_exits_on_fd_profile_with_other_codes
           get_profile_fields_model no_double no_shape no_shape false
           fresh_plugin _ true 0
           [ {| pj_fields := Some "%proc.name %fd.name"%string;
                pj_event_codes :=
                  Some [PPME_SYSCALL_EXECVE_19_X; PPME_SYSCALL_OPEN_X];
                pj_reset_timer_ms := None |} ]
           {| pj_fields := Some "%proc.name %fd.name"%string;
              pj_event_codes :=
                Some [PPME_SYSCALL_EXECVE_19_X; PPME_SYSCALL_OPEN_X];
              pj_reset_timer_ms := None |}
           "%proc.name %fd.name"
           [PPME_SYSCALL_EXECVE_19_X; PPME_SYSCALL_OPEN_X]
           PPME_SYSCALL_EXECVE_19_X).
  - reflexivity.
  - reflexivity.
  - constructor.
  - reflexivity.
  - reflexivity.
  - eexists. vm_compute. reflexivity.
  - constructor.
  - apply (bool_decide_eq_false_1
             (PPME_SYSCALL_EXECVE_19_X ∈ supported_codes_fd_profile)).
    vm_compute. reflexivity.
Defined.

(** An [execve] of the orphan thread 200, whose parent 999 is not in the
    table, under the profile [%proc.name %proc.pname %proc.exe]:
    [%proc.pname] raises and takes the extractor with it, [%proc.aname[1]]
    yields the empty string. *)
Lemma direct_parent_lookup_failure_escapes_witness :
  example_table !! evt_tid (execve_evt 200) = Some (mk_thread 200 999 "orphan") /\
  example_table !! ptid (mk_thread 200 999 "orphan") = None /\
  eval_field concatenate_paths_model example_table (execve_evt 200)
    (mk_thread 200 999 "orphan") (selector TYPE_PNAME 0)
  = Throw plugin_exception /\
  extract_filterchecks_concat_profile concatenate_paths_model example_table
    (execve_evt 200)
    ([selector TYPE_NAME 0] ++ selector TYPE_PNAME 0 :: [selector TYPE_EXE 0]) ""
  = Throw plugin_exception /\
  eval_field concatenate_paths_model example_table (execve_evt 200)
    (mk_thread 200 999 "orphan") (selector TYPE_ANAME 1) = Ok (false, "").
Proof.
  assert (Hall : Forall (fun g => unguarded g = false) [selector TYPE_NAME 0])
    by (repeat constructor).
  destruct (direct_parent_lookup_failure_escapes concatenate_paths_model
              example_table (execve_evt 200) (mk_thread 200 999 "orphan")
              [selector TYPE_NAME 0] [selector TYPE_EXE 0]
              (selector TYPE_PNAME 0) "" eq_refl eq_refl eq_refl Hall)
    as (Heval & Hextract & Hsibling).
  split; [reflexivity|]. split; [reflexivity|].
  split; [exact Heval|]. split; [exact Hextract|].
  exact (Hsibling (selector TYPE_ANAME 1) comm eq_refl eq_refl).
Defined.

(** An [open] event that carries thread id 0. *)
Lemma parse_event_nonpositive_tid_witness :
  evt_tid (open_evt 0) <= 0 /\
  (parse_event concatenate_paths_model hash_model no_double
     plugin_on example_table (open_evt 0)).1.2 = plugin_on /\
  ((parse_event concatenate_paths_model hash_model no_double
      plugin_on example_table (open_evt 0)).2 = example_table \/
   exists (te : thread_entry) (fd : Z),
     example_table !! evt_tid (open_evt 0) = Some te /\
     (parse_event concatenate_paths_model hash_model no_double
        plugin_on example_table (open_evt 0)).2
     = <[evt_tid (open_evt 0) := set_lastevent_fd fd te]> example_table).
Proof.
  assert (Htid : evt_tid (open_evt 0) <= 0) by (simpl; lia).
  split; [exact Htid|].
  exact (parse_event_nonpositive_tid concatenate_paths_model hash_model
           no_double plugin_on example_table (open_evt 0) Htid).
Defined.

(** A [connect] of thread 100: the fd is read from parameter 2. *)
Lemma parse_event_records_fd_witness :
  m_count_min_sketch_enabled plugin_on = true /\
  fd_producing (evt_type (connect_evt 100)) = true /\
  example_table !! evt_tid (connect_evt 100) = Some (mk_thread 100 50 "bash") /\
  exists (p : Z) (te' : thread_entry),
    param_pointer (get_syscall_evt_param (connect_evt 100) 2) = Some p /\
    (parse_event concatenate_paths_model hash_model no_double
       plugin_on example_table (connect_evt 100)).2 !! 100 = Some te' /\
    lastevent_fd te' = load_i64 (evt_data (connect_evt 100)) p.
Proof.
  repeat split; try reflexivity.
  exact (parse_event_records_fd concatenate_paths_model hash_model no_double
           plugin_on example_table (connect_evt 100) (mk_thread 100 50 "bash")
           eq_refl eq_refl eq_refl).
Defined.

(** An [openat] of thread 300, which the table does not know, under
    [raw_profile] ([%proc.name %fd.num %fd.nameraw]): the fingerprint is
    the fd 6 of parameter 0 followed by the name of parameter 2. *)
Lemma extract_without_thread_entry_witness :
  example_table !! evt_tid (openat_evt 300) = None /\
  extract_filterchecks_concat_profile concatenate_paths_model
    example_table (openat_evt 300) raw_profile "" = Ok (true, "6notes.txt") /\
  extract_filterchecks_evt_params_fallbacks
    concatenate_paths_model (openat_evt 300) (selector TYPE_NAME 0) "" = "" /\
  extract_filterchecks_evt_params_fallbacks
    concatenate_paths_model (openat_evt 300) (selector TYPE_FDNUM 0) "" = "6" /\
  extract_filterchecks_evt_params_fallbacks
    concatenate_paths_model (openat_evt 300) (selector TYPE_FDNAMERAW 0) ""
  = "notes.txt" /\
  extract_filterchecks_evt_params_fallbacks
    concatenate_paths_model (openat_evt 300)
    (selector TYPE_CUSTOM_FDNAME_PART1 0) "" = "".
Proof.
  assert (Hnone : example_table !! evt_tid (openat_evt 300) = None)
    by reflexivity.
  destruct (extract_without_thread_entry concatenate_paths_model
              example_table (openat_evt 300) raw_profile Hnone)
    as (Hfp & Hempty & Hdecoded & Hnoparam).
  split; [exact Hnone|]. split; [|split; [|split; [|split]]].
  - rewrite Hfp. vm_compute. reflexivity.
  - apply Hempty. reflexivity.
  - destruct (Hdecoded (selector TYPE_FDNUM 0) 0%nat eq_refl) as (p & Hp & ->).
    injection Hp as <-. vm_compute. reflexivity.
  - destruct (Hdecoded (selector TYPE_FDNAMERAW 0) 2%nat eq_refl)
      as (p & Hp & ->).
    injection Hp as <-. vm_compute. reflexivity.
  - apply Hnoparam. reflexivity.
Defined.

(** [proc.aname[k]] for thread 100 ([bash], child of [sshd], child of
    [init]): itself for [k = 0], [init] for [k = 2], and nothing for
    [k = 3], the walk meeting [ptid = 1] one step before. *)
Lemma ancestor_selector_walk_witness :
  eval_field concatenate_paths_model example_table (execve_evt 100)
    (mk_thread 100 50 "bash") (selector TYPE_ANAME 0) = Ok (false, "bash") /\
  eval_field concatenate_paths_model example_table (execve_evt 100)
    (mk_thread 100 50 "bash") (selector TYPE_ANAME 2) = Ok (false, "init") /\
  eval_field concatenate_paths_model example_table (execve_evt 100)
    (mk_thread 100 50 "bash") (selector TYPE_ANAME 3) = Ok (false, "").
Proof.
  split; [|split].
  - apply (ancestor_selector_walk concatenate_paths_model example_table
             (execve_evt 100) (mk_thread 100 50 "bash")
             (selector TYPE_ANAME 0) comm eq_refl).
    reflexivity.
  - apply (proj1 (proj2 (ancestor_selector_walk concatenate_paths_model
                            example_table (execve_evt 100)
                            (mk_thread 100 50 "bash")
                            (selector TYPE_ANAME 2) comm eq_refl))
             (mk_thread 1 0 "init")).
    + simpl. lia.
    + reflexivity.
    + intros j b Hj Hb. change (Z.to_nat (argid (selector TYPE_ANAME 2)))
        with 2%nat in Hj.
      assert (j = 0%nat) as -> by lia.
      injection Hb as <-. simpl. lia.
  - apply (proj2 (proj2 (ancestor_selector_walk concatenate_paths_model
                            example_table (execve_evt 100)
                            (mk_thread 100 50 "bash")
                            (selector TYPE_ANAME 3) comm eq_refl))
             1%nat (mk_thread 50 1 "sshd")).
    + simpl. lia.
    + simpl. lia.
    + reflexivity.
    + reflexivity.
Defined.

(** An [open] of thread 100 while the feature is off. *)
Lemma parse_event_disabled_is_noop_witness :
  m_count_min_sketch_enabled plugin_off = false /\
  parse_event concatenate_paths_model hash_model no_double
    plugin_off example_table (open_evt 100)
  = (Ok true, plugin_off, example_table).
Proof.
  split; [reflexivity|].
  exact (parse_event_disabled_is_noop concatenate_paths_model hash_model
           no_double plugin_off example_table (open_evt 100) eq_refl).
Defined.

(** * Further properties of the entry points *)

(** ** [parse_event]: what it changes and when it returns *)

Section ParseEventFrame.

Context (concatenate_paths : string -> string -> string)
        (hash : nat -> string -> Z) (double : Type).

Local Abbreviation parse := (parse_event concatenate_paths hash double).
Local Abbreviation sketch_loop := (update_sketches concatenate_paths hash double).
Local Abbreviation extractor :=
  (extract_filterchecks_concat_profile concatenate_paths).

Lemma update_sketches_length (st : anomalydetection double) (tt : thread_table)
    (evt : event) (sets : list (list ppm_event_code)) (i : nat)
    (sketches : list Cms.cms) :
  length (sketch_loop st tt evt sets i sketches).2 = length sketches.
Proof.
  revert i sketches.
  induction sets as [|set rest IH]; intros i sketches; simpl; [reflexivity|].
  destruct (code_in (evt_type evt) set); [|apply IH].
  destruct (evt_tid evt <=? 0); [reflexivity|].
  destruct (Z.of_nat i <? m_n_sketches st); [|apply IH].
  destruct (m_behavior_profiles_fields st !! i) as [fields|]; [|reflexivity].
  destruct (extractor tt evt fields "") as [[ok s]|[]]; try reflexivity.
  destruct (ok && negb (str_empty s)); [|apply IH].
  destruct (sketches !! i) as [sk|]; [|reflexivity].
  rewrite IH. apply length_insert.
Qed.

(** X1. [parse_event] changes nothing of the plugin but the sketches, and it
    neither adds nor drops a sketch. *)
Theorem parse_event_keeps_sketch_vector (st : anomalydetection double)
    (tt : thread_table) (evt : event) :
  (parse st tt evt).1.2
    = set_sketches double st (m_count_min_sketches (parse st tt evt).1.2) /\
  length (m_count_min_sketches (parse st tt evt).1.2)
    = length (m_count_min_sketches st).
Proof.
  unfold parse_event.
  destruct (m_count_min_sketch_enabled st); simpl;
    [|split; [now rewrite set_sketches_same | reflexivity]].
  destruct (write_lastevent_fd tt evt) as [[tt'|]|e]; simpl;
    try (split; [now rewrite set_sketches_same | reflexivity]).
  pose proof (update_sketches_length st tt' evt
                (m_behavior_profiles_event_codes st) 0
                (m_count_min_sketches st)) as Hlen.
  destruct (sketch_loop st tt' evt _ _ _) as [r sketches]. simpl in *.
  split; [reflexivity | exact Hlen].
Qed.

Lemma fd_param_slot_producing (c : ppm_event_code) :
  fd_producing c = false -> fd_param_slot c = None.
Proof. destruct c; simpl; intros H; try discriminate H; reflexivity. Qed.

(** X2. [parse_event] never adds or removes a thread, never touches the entry of
    another thread and changes no column but [lastevent_fd]; on an event
    that produces no fd it leaves the whole table as it is. *)
Theorem parse_event_table_frame (st : anomalydetection double)
    (tt : thread_table) (evt : event) :
  dom (parse st tt evt).2 = dom tt /\
  (forall t : Z, t <> evt_tid evt -> (parse st tt evt).2 !! t = tt !! t) /\
  (forall te' : thread_entry,
     (parse st tt evt).2 !! evt_tid evt = Some te' ->
     exists te : thread_entry,
       tt !! evt_tid evt = Some te /\
       te' = set_lastevent_fd (lastevent_fd te') te) /\
  (fd_producing (evt_type evt) = false -> (parse st tt evt).2 = tt).
Proof.
  assert (Hself : forall te : thread_entry,
             te = set_lastevent_fd (lastevent_fd te) te)
    by (intros []; reflexivity).
  assert (Hid : dom tt = dom tt /\
                (forall t : Z, t <> evt_tid evt -> tt !! t = tt !! t) /\
                (forall te' : thread_entry,
                   tt !! evt_tid evt = Some te' ->
                   exists te : thread_entry,
                     tt !! evt_tid evt = Some te /\
                     te' = set_lastevent_fd (lastevent_fd te') te)).
  { repeat split. intros te' Hte'. exists te'. split; [exact Hte' | apply Hself]. }
  destruct Hid as (Hid1 & Hid2 & Hid3).
  unfold parse_event.
  destruct (m_count_min_sketch_enabled st); simpl; [|now repeat split].
  destruct (write_lastevent_fd tt evt) as [[tt'|]|e] eqn:Hw; simpl;
    [|now repeat split|now repeat split].
  destruct (sketch_loop st tt' evt _ _ _) as [r sketches]. simpl.
  destruct (write_lastevent_fd_frame tt tt' evt Hw)
    as [-> | (te & fd & Hte & ->)]; [now repeat split|].
  repeat split.
  - rewrite dom_insert_L. apply elem_of_dom_2 in Hte.
    apply subseteq_union_1_L. now apply singleton_subseteq_l.
  - intros t Ht. now rewrite lookup_insert_ne.
  - intros te' Hte'. rewrite lookup_insert_eq in Hte'. injection Hte' as <-.
    exists te. split; [exact Hte | reflexivity].
  - intros Hnofd. unfold write_lastevent_fd in Hw.
    rewrite (fd_param_slot_producing _ Hnofd) in Hw.
    now injection Hw as <-.
Qed.

(** X3. On an fd-producing event of a thread the table does not know, with the
    feature on, [parse_event] does not return: the [plugin_exception] of the
    thread lookup leaves it, and nothing has been written. *)
Theorem parse_event_unknown_thread_throws (st : anomalydetection double)
    (tt : thread_table) (evt : event) :
  m_count_min_sketch_enabled st = true ->
  fd_producing (evt_type evt) = true ->
  tt !! evt_tid evt = None ->
  parse st tt evt = (Throw plugin_exception, st, tt).
Proof.
  intros Hon Hfd Hnone. unfold parse_event, write_lastevent_fd.
  rewrite Hon. simpl.
  destruct (evt_type evt); try discriminate Hfd; simpl; now rewrite Hnone.
Qed.

Lemma update_sketches_unlisted (st : anomalydetection double)
    (tt : thread_table) (evt : event) (sets : list (list ppm_event_code))
    (i : nat) (sketches : list Cms.cms) :
  Forall (fun set => evt_type evt ∉ set) sets ->
  sketch_loop st tt evt sets i sketches = (Ok true, sketches).
Proof.
  intros Hall. revert i.
  induction Hall as [|set rest Hset _ IH]; intros i; simpl; [reflexivity|].
  unfold code_in. rewrite bool_decide_eq_false_2 by exact Hset. apply IH.
Qed.

(** X4. An event whose code no profile lists updates no sketch: when the event
    produces no fd or its thread is in the table, [parse_event] returns true
    and the plugin, sketches included, is as before. *)
Theorem parse_event_unlisted_code (st : anomalydetection double)
    (tt : thread_table) (evt : event) :
  Forall (fun set => evt_type evt ∉ set) (m_behavior_profiles_event_codes st) ->
  fd_producing (evt_type evt) = false \/ is_Some (tt !! evt_tid evt) ->
  (parse st tt evt).1 = (Ok true, st).
Proof.
  intros Hall Hbook. unfold parse_event.
  destruct (m_count_min_sketch_enabled st); simpl; [|reflexivity].
  assert (Hw : exists tt', write_lastevent_fd tt evt = Ok (Some tt')).
  { unfold write_lastevent_fd.
    destruct (fd_param_slot (evt_type evt)) as [slot|] eqn:Hslot; [|eauto].
    simpl. destruct Hbook as [Hnofd|[te Hte]].
    - rewrite (fd_param_slot_producing _ Hnofd) in Hslot. discriminate.
    - rewrite Hte. eauto. }
  destruct Hw as [tt' ->].
  rewrite (update_sketches_unlisted st tt' evt _ 0 _ Hall). simpl.
  now rewrite set_sketches_same.
Qed.

Lemma extractor_unknown_thread_other_event (tt : thread_table) (evt : event)
    (fields : list plugin_sinsp_filterchecks_field) :
  tt !! evt_tid evt = None -> fd_producing (evt_type evt) = false ->
  extractor tt evt fields "" = Ok (true, "").
Proof.
  intros Hnone Hnofd. unfold extract_filterchecks_concat_profile.
  rewrite Hnone, concat_fallbacks_spec.
  assert (Hmap : concat_str
                   (map (fun f =>
                           extract_filterchecks_evt_params_fallbacks
                             concatenate_paths evt f "") fields) = "").
  { induction fields as [|f fields IH]; simpl; [reflexivity|].
    now rewrite IH,
      (fallback_empty_on_other_events concatenate_paths evt f "" Hnofd). }
  now rewrite Hmap.
Qed.

Lemma update_sketches_empty_fingerprints (st : anomalydetection double)
    (tt : thread_table) (evt : event) (sets : list (list ppm_event_code))
    (i : nat) (sketches : list Cms.cms) :
  (forall fields, extractor tt evt fields "" = Ok (true, "")) ->
  (sketch_loop st tt evt sets i sketches).2 = sketches.
Proof.
  intros Hempty. revert i.
  induction sets as [|set rest IH]; intros i; simpl; [reflexivity|].
  destruct (code_in (evt_type evt) set); [|apply IH].
  destruct (evt_tid evt <=? 0); [reflexivity|].
  destruct (Z.of_nat i <? m_n_sketches st); [|apply IH].
  destruct (m_behavior_profiles_fields st !! i) as [fields|]; [|reflexivity].
  rewrite Hempty. simpl. apply IH.
Qed.

(** The loop leaves the sketch of a profile alone when the fingerprint of
    that profile is empty. *)
Lemma update_sketches_keeps_index (st : anomalydetection double)
    (tt : thread_table) (evt : event) (sets : list (list ppm_event_code))
    (k : nat) (sketches : list Cms.cms) (i : nat) :
  (forall fields, m_behavior_profiles_fields st !! i = Some fields ->
     extractor tt evt fields "" = Ok (true, "")) ->
  (sketch_loop st tt evt sets k sketches).2 !! i = sketches !! i.
Proof.
  intros Hi. revert k sketches.
  induction sets as [|set rest IH]; intros k sketches; simpl; [reflexivity|].
  destruct (code_in (evt_type evt) set); [|apply IH].
  destruct (evt_tid evt <=? 0); [reflexivity|].
  destruct (Z.of_nat k <? m_n_sketches st); [|apply IH].
  destruct (m_behavior_profiles_fields st !! k) as [fields|] eqn:Hk;
    [|reflexivity].
  destruct (extractor tt evt fields "") as [[ok s]|e] eqn:Hx.
  - destruct (ok && negb (str_empty s)) eqn:Hc; [|apply IH].
    destruct (sketches !! k) as [sk|] eqn:Hs; [|reflexivity].
    rewrite IH. destruct (decide (k = i)) as [->|Hne].
    + rewrite (Hi _ Hk) in Hx. injection Hx as <- <-. discriminate Hc.
    + now apply list_lookup_insert_ne.
  - destruct e; reflexivity.
Qed.

(** X5. An event that produces no fd, coming from a thread the table does not
    know, never reaches a sketch: whatever the profiles, the plugin and the
    thread table are as before. *)
Theorem parse_event_unknown_thread_other_event (st : anomalydetection double)
    (tt : thread_table) (evt : event) :
  tt !! evt_tid evt = None -> fd_producing (evt_type evt) = false ->
  (parse st tt evt).1.2 = st /\ (parse st tt evt).2 = tt.
Proof.
  intros Hnone Hnofd. unfold parse_event.
  destruct (m_count_min_sketch_enabled st); simpl; [|now split].
  unfold write_lastevent_fd. rewrite (fd_param_slot_producing _ Hnofd).
  pose proof (update_sketches_empty_fingerprints st tt evt
                (m_behavior_profiles_event_codes st) 0 (m_count_min_sketches st)
                (fun fields =>
                   extractor_unknown_thread_other_event tt evt fields Hnone Hnofd))
    as Hs.
  destruct (sketch_loop st tt evt _ _ _) as [r sketches]. simpl in *.
  subst sketches. split; [apply set_sketches_same | reflexivity].
Qed.

Lemma extractor_guarded_ok (tt : thread_table) (evt : event)
    (fields : list plugin_sinsp_filterchecks_field) (acc : string) :
  guarded fields -> exists s : string, extractor tt evt fields acc = Ok (true, s).
Proof.
  intros Hg. unfold extract_filterchecks_concat_profile.
  destruct (tt !! evt_tid evt) as [te|]; [|eauto].
  destruct (concat_fields_guarded concatenate_paths tt evt te fields acc Hg)
    as [s ->].
  eauto.
Qed.

Lemma update_sketches_returns (st : anomalydetection double)
    (tt : thread_table) (evt : event) (sets : list (list ppm_event_code))
    (i : nat) (sketches : list Cms.cms) :
  Z.of_nat (length (m_behavior_profiles_fields st)) = m_n_sketches st ->
  Z.of_nat (length sketches) = m_n_sketches st ->
  Forall guarded (m_behavior_profiles_fields st) ->
  exists b : bool, (sketch_loop st tt evt sets i sketches).1 = Ok b.
Proof.
  intros Hfields Hsk Hg. revert i sketches Hsk.
  induction sets as [|set rest IH]; intros i sketches Hsk; simpl; [eauto|].
  destruct (code_in (evt_type evt) set); [|now apply IH].
  destruct (evt_tid evt <=? 0); [simpl; eauto|].
  destruct (Z.ltb_spec (Z.of_nat i) (m_n_sketches st)) as [Hi|_]; [|now apply IH].
  destruct (lookup_lt_is_Some_2 (m_behavior_profiles_fields st) i ltac:(lia))
    as [fields Hf].
  rewrite Hf.
  rewrite Forall_lookup in Hg.
  destruct (extractor_guarded_ok tt evt fields "" (Hg i fields Hf)) as [s ->].
  simpl. destruct (negb (str_empty s)); [|now apply IH].
  destruct (lookup_lt_is_Some_2 sketches i ltac:(lia)) as [sk ->].
  apply IH. now rewrite length_insert.
Qed.

(** X6. With one profile and one sketch per index and profiles whose selectors
    are all guarded, [parse_event] returns a [bool] (no exception leaves it)
    on every event that produces no fd or whose thread is in the table. *)
Theorem parse_event_returns (st : anomalydetection double)
    (tt : thread_table) (evt : event) :
  plugin_wf st ->
  Forall guarded (m_behavior_profiles_fields st) ->
  fd_producing (evt_type evt) = false \/ is_Some (tt !! evt_tid evt) ->
  exists b : bool, (parse st tt evt).1.1 = Ok b.
Proof.
  intros (Hfields & _ & Hsk) Hg Hbook. unfold parse_event.
  destruct (m_count_min_sketch_enabled st); simpl; [|eauto].
  assert (Hw : exists tt', write_lastevent_fd tt evt = Ok (Some tt')).
  { unfold write_lastevent_fd.
    destruct (fd_param_slot (evt_type evt)) as [slot|] eqn:Hslot; [|eauto].
    simpl. destruct Hbook as [Hnofd|[te Hte]].
    - rewrite (fd_param_slot_producing _ Hnofd) in Hslot. discriminate.
    - rewrite Hte. eauto. }
  destruct Hw as [tt' ->].
  destruct (update_sketches_returns st tt' evt
              (m_behavior_profiles_event_codes st) 0 (m_count_min_sketches st)
              Hfields Hsk Hg) as [b Hb].
  destruct (sketch_loop st tt' evt _ _ _) as [r sketches]. simpl in *. eauto.
Qed.

End ParseEventFrame.

(** ** [extract]: state, values and the two indexed fields *)

Section ExtractFrame.

Context (concatenate_paths : string -> string -> string)
        (hash : nat -> string -> Z) (double : Type).

Local Abbreviation extract_field := (extract concatenate_paths hash double).
Local Abbreviation extractor :=
  (extract_filterchecks_concat_profile concatenate_paths).

(** X7. [extract] never touches the sketches or the configuration: when it
    returns true the plugin is unchanged, and when it returns false no value
    was set and only [m_lasterr] was written. *)
Theorem extract_only_sets_lasterr (st : anomalydetection double)
    (tt : thread_table) (evt : event) (req : extract_request) (now : Z) :
  match extract_field st tt evt req now with
  | Ok (true, _, st') => st' = st
  | Ok (false, v, st') =>
      v = None /\ exists msg : string, st' = set_lasterr double st msg
  | Throw _ => True
  end.
Proof.
  unfold extract.
  destruct (get_field_id req); simpl; try (now eauto);
    (destruct (m_count_min_sketch_enabled st); simpl; [|now eauto];
     destruct (m_n_sketches st <=? get_arg_index req); [now eauto|];
     destruct (m_behavior_profiles_fields st !! Z.to_nat (get_arg_index req))
       as [fields|]; [|exact I];
     destruct (extractor tt evt fields "") as [[[] s]|e]; try exact I;
       try reflexivity).
  destruct (m_count_min_sketches st !! Z.to_nat (get_arg_index req));
    [reflexivity | exact I].
Qed.

(** X8. The number [anomaly.count_min_sketch[i]] reports is the estimate, in
    sketch [i], of the very string [anomaly.count_min_sketch.profile[i]]
    reports for the same event. *)
Theorem extract_count_estimates_profile_string (st st' : anomalydetection double)
    (tt : thread_table) (evt : event) (i now : Z) (v : extract_value) :
  extract_field st tt evt
    {| get_field_id := ANOMALYDETECTION_COUNT_MIN_SKETCH_COUNT;
       get_arg_index := i |} now = Ok (true, Some v, st') ->
  exists (fp : string) (s : Cms.cms),
    extract_field st tt evt
      {| get_field_id :=
           ANOMALYDETECTION_COUNT_MIN_SKETCH_BEHAVIOR_PROFILE_CONCAT_STR;
         get_arg_index := i |} now = Ok (true, Some (Str fp), st) /\
    m_count_min_sketches st !! Z.to_nat i = Some s /\
    v = U64 (Cms.estimate hash s fp).
Proof.
  unfold extract. simpl.
  destruct (m_count_min_sketch_enabled st); simpl; [|discriminate].
  destruct (m_n_sketches st <=? i); [discriminate|].
  destruct (m_behavior_profiles_fields st !! Z.to_nat i) as [fields|];
    [|discriminate].
  destruct (extractor tt evt fields "") as [[[] fp]|e]; try discriminate.
  destruct (m_count_min_sketches st !! Z.to_nat i) as [s|]; [|discriminate].
  intros [= <- <-]. eauto.
Qed.

(** X9. With one profile and one sketch per index, the feature on, an index
    below the number of sketches and a profile of guarded selectors, both
    indexed fields return true with a value and leave the plugin as it is. *)
Theorem extract_indexed_fields_succeed (st : anomalydetection double)
    (tt : thread_table) (evt : event) (i now : Z)
    (fields : list plugin_sinsp_filterchecks_field) :
  plugin_wf st ->
  m_count_min_sketch_enabled st = true ->
  0 <= i < m_n_sketches st ->
  m_behavior_profiles_fields st !! Z.to_nat i = Some fields ->
  guarded fields ->
  exists (fp : string) (c : Z),
    extract_field st tt evt
      {| get_field_id := ANOMALYDETECTION_COUNT_MIN_SKETCH_COUNT;
         get_arg_index := i |} now = Ok (true, Some (U64 c), st) /\
    extract_field st tt evt
      {| get_field_id :=
           ANOMALYDETECTION_COUNT_MIN_SKETCH_BEHAVIOR_PROFILE_CONCAT_STR;
         get_arg_index := i |} now = Ok (true, Some (Str fp), st).
Proof.
  intros (_ & _ & Hsk) Hon Hi Hf Hg. unfold extract. simpl.
  rewrite Hon. simpl.
  destruct (Z.leb_spec (m_n_sketches st) i) as [?|_]; [lia|].
  rewrite Hf.
  destruct (extract_filterchecks_concat_profile concatenate_paths tt evt fields "")
    as [[ok fp]|e] eqn:Hx.
  - assert (ok = true) as ->.
    { unfold extract_filterchecks_concat_profile in Hx.
      destruct (tt !! evt_tid evt); [|now inversion Hx].
      destruct (concat_fields _ _ _ _ _ _); now inversion Hx. }
    destruct (lookup_lt_is_Some_2 (m_count_min_sketches st) (Z.to_nat i)
                ltac:(lia)) as [s ->].
    eauto.
  - exfalso. unfold extract_filterchecks_concat_profile in Hx.
    destruct (tt !! evt_tid evt) as [te|]; [|discriminate].
    destruct (concat_fields_guarded concatenate_paths tt evt te fields "" Hg)
      as [s Hs].
    rewrite Hs in Hx. discriminate.
Qed.

End ExtractFrame.

(** ** [parse_init_config] and [init]: what an accepted configuration leaves *)

Section ConfigShape.

Context (get_profile_fields : string -> list plugin_sinsp_filterchecks_field)
        (double : Type)
        (calculate_d_rows_from_gamma calculate_w_cols_buckets_from_eps : double -> Z).

Local Abbreviation load := (load_profiles get_profile_fields).

Lemma check_event_codes_accepts (fields : string) (codes : list ppm_event_code) :
  check_event_codes fields codes = Returned tt ->
  Forall (fun code => code ∈ supported_codes_any_profile) codes /\
  (is_Some (str_find "%fd" fields) ->
   Forall (fun code => code ∈ supported_codes_fd_profile) codes).
Proof.
  unfold check_event_codes, code_in.
  destruct (bool_decide (is_Some (str_find "%fd" fields))) eqn:Hfd; simpl.
  - destruct (forallb _ codes) eqn:Hall1; simpl; [|discriminate].
    destruct (forallb _ codes) eqn:Hall2 in |- *; simpl; [|discriminate].
    intros _. split.
    + apply Forall_forall. intros code Hin.
      rewrite forallb_forall in Hall2.
      apply (bool_decide_eq_true_1 _ (Hall2 code (proj1 (list_elem_of_In _ _) Hin))).
    + intros _. apply Forall_forall. intros code Hin.
      rewrite forallb_forall in Hall1.
      apply (bool_decide_eq_true_1 _ (Hall1 code (proj1 (list_elem_of_In _ _) Hin))).
  - destruct (forallb _ codes) eqn:Hall2; simpl; [|discriminate].
    intros _. split.
    + apply Forall_forall. intros code Hin.
      rewrite forallb_forall in Hall2.
      apply (bool_decide_eq_true_1 _ (Hall2 code (proj1 (list_elem_of_In _ _) Hin))).
    + intros Hsome. apply bool_decide_eq_false_1 in Hfd. contradiction.
Qed.

(** What the loop over the profiles appends to the three vectors: one entry
    each per profile, in order. *)
Lemma load_profiles_appends (ps : list profile_json)
    (timers timers' : list Z)
    (fieldss fieldss' : list (list plugin_sinsp_filterchecks_field))
    (codess codess' : list (list ppm_event_code)) :
  load ps (timers, fieldss, codess) = Returned (timers', fieldss', codess') ->
  exists dt df dc,
    timers' = timers ++ dt /\ fieldss' = fieldss ++ df /\ codess' = codess ++ dc /\
    length dt = length ps /\ length df = length ps /\ length dc = length ps /\
    Forall (fun t => t = 0 \/ 100 < t < 2 ^ 64) dt /\
    (forall (j : nat) (p : profile_json),
       ps !! j = Some p -> dt !! j = Some (reset_timer_of p)) /\
    (forall (j : nat) (p : profile_json) (fs : string) (cs : list ppm_event_code),
       ps !! j = Some p -> pj_fields p = Some fs -> pj_event_codes p = Some cs ->
       df !! j = Some (get_profile_fields fs) /\ dc !! j = Some cs /\
       check_event_codes fs cs = Returned tt) /\
    Forall (Forall (fun code => code ∈ supported_codes_any_profile)) dc.
Proof.
  revert timers fieldss codess.
  induction ps as [|p ps IH]; intros timers fieldss codess; simpl.
  - intros [= <- <- <-]. exists [], [], [].
    rewrite !app_nil_r.
    split; [reflexivity|]. split; [reflexivity|]. split; [reflexivity|].
    split; [reflexivity|]. split; [reflexivity|]. split; [reflexivity|].
    split; [constructor|].
    split; [intros j p Hj; discriminate Hj|]. split; [|constructor].
    intros j p fs cs Hj. discriminate Hj.
  - assert (Htimer : reset_timer_of p = 0 \/ 100 < reset_timer_of p < 2 ^ 64).
    { unfold reset_timer_of. destruct (pj_reset_timer_ms p) as [t|]; [|now left].
      cbv zeta. destruct (Z.ltb_spec 100 (wrap_u64 t)); [right | now left].
      split; [assumption|]. unfold wrap_u64. now apply Z.mod_pos_bound. }
    assert (Hstep : forall fs' cs',
              (forall fs cs, pj_fields p = Some fs -> pj_event_codes p = Some cs ->
                 fs' = get_profile_fields fs /\ cs' = cs /\
                 check_event_codes fs cs = Returned tt) ->
              Forall (fun code => code ∈ supported_codes_any_profile) cs' ->
              load ps (timers ++ [reset_timer_of p], fieldss ++ [fs'],
                       codess ++ [cs'])
                = Returned (timers', fieldss', codess') ->
              exists dt df dc,
                timers' = timers ++ dt /\ fieldss' = fieldss ++ df /\
                codess' = codess ++ dc /\
                length dt = S (length ps) /\ length df = S (length ps) /\
                length dc = S (length ps) /\
                Forall (fun t => t = 0 \/ 100 < t < 2 ^ 64) dt /\
                (forall j q, (p :: ps) !! j = Some q ->
                   dt !! j = Some (reset_timer_of q)) /\
                (forall j q fs cs,
                   (p :: ps) !! j = Some q -> pj_fields q = Some fs ->
                   pj_event_codes q = Some cs ->
                   df !! j = Some (get_profile_fields fs) /\ dc !! j = Some cs /\
                   check_event_codes fs cs = Returned tt) /\
                Forall (Forall (fun code => code ∈ supported_codes_any_profile)) dc).
    { intros fs' cs' Hhead Hcs' Hload.
      destruct (IH _ _ _ Hload)
        as (dt & df & dc & -> & -> & -> & Hlt & Hlf & Hlc & Ht & Htj & Hidx & Hsup).
      exists (reset_timer_of p :: dt), (fs' :: df), (cs' :: dc).
      rewrite <- !app_assoc. simpl. rewrite Hlt, Hlf, Hlc.
      assert (Hidx' : forall j q fs cs,
                 (p :: ps) !! j = Some q -> pj_fields q = Some fs ->
                 pj_event_codes q = Some cs ->
                 (fs' :: df) !! j = Some (get_profile_fields fs) /\
                 (cs' :: dc) !! j = Some cs /\
                 check_event_codes fs cs = Returned tt).
      { intros [|j] q fs cs Hq Hqf Hqc; simpl in *.
        - injection Hq as <-.
          destruct (Hhead fs cs Hqf Hqc) as (-> & -> & Hchk). now repeat split.
        - exact (Hidx j q fs cs Hq Hqf Hqc). }
      assert (Htj' : forall j q, (p :: ps) !! j = Some q ->
                 (reset_timer_of p :: dt) !! j = Some (reset_timer_of q)).
      { intros [|j] q Hq; simpl in *.
        - now injection Hq as <-.
        - exact (Htj j q Hq). }
      split; [reflexivity|]. split; [reflexivity|]. split; [reflexivity|].
      split; [reflexivity|]. split; [reflexivity|]. split; [reflexivity|].
      split; [now constructor|]. split; [exact Htj'|].
      split; [exact Hidx'|]. now constructor. }
    destruct (pj_fields p) as [fs|] eqn:Hfs;
      [destruct (pj_event_codes p) as [cs|] eqn:Hcs|].
    + destruct (check_event_codes fs cs) as [[]| |] eqn:Hchk; try discriminate.
      apply Hstep.
      * intros fs0 cs0 [= <-] [= <-]. now repeat split.
      * apply (check_event_codes_accepts fs cs Hchk).
    + apply Hstep; [intros fs0 cs0 _ Hc; discriminate Hc | constructor].
    + apply Hstep; [intros fs0 cs0 Hf; discriminate Hf | constructor].
Qed.

End ConfigShape.

Section ConfigAccepted.

Context (get_profile_fields : string -> list plugin_sinsp_filterchecks_field)
        (double : Type)
        (calculate_d_rows_from_gamma calculate_w_cols_buckets_from_eps : double -> Z)
        (NDEBUG : bool).

Local Abbreviation parse_config := (parse_init_config get_profile_fields double NDEBUG).

Lemma parse_init_config_enabled (st st1 : anomalydetection double)
    (cj : count_min_sketch_json double) :
  default (m_count_min_sketch_enabled st) (cj_enabled cj) = true ->
  parse_config st (Some cj) = Returned st1 ->
  exists dt df dc,
    load_profiles get_profile_fields (default [] (cj_behavior_profiles cj))
      ([], [], []) = Returned (dt, df, dc) /\
    m_count_min_sketch_enabled st1 = true /\
    m_n_sketches st1
      = match cj_n_sketches cj with
        | Some v => wrap_u32 v
        | None => m_n_sketches st
        end /\
    m_reset_timers st1 = dt /\
    m_behavior_profiles_fields st1 = df /\
    m_behavior_profiles_event_codes st1 = dc /\
    m_gamma_eps st1
      = filter (fun a => length a = 2%nat) (default [] (cj_gamma_eps cj)) /\
    m_rows_cols st1
      = map (map wrap_u64)
          (filter (fun a => length a = 2%nat) (default [] (cj_rows_cols cj))) /\
    (NDEBUG = false ->
     Z.of_nat (length df) = m_n_sketches st1 /\
     Z.of_nat (length dc) = m_n_sketches st1 /\
     (m_gamma_eps st1 = [] \/
      Z.of_nat (length (m_gamma_eps st1)) = m_n_sketches st1) /\
     (m_rows_cols st1 = [] \/
      Z.of_nat (length (m_rows_cols st1)) = m_n_sketches st1)).
Proof.
  intros Hon. unfold parse_init_config. rewrite Hon. simpl.
  destruct (load_profiles _ _ _) as [[[dt df] dc]| |]; try discriminate.
  destruct (survives_assert _ _ && _ && _ && _) eqn:Hasserts; [|discriminate].
  intros [= <-]. simpl. exists dt, df, dc.
  repeat (split; [reflexivity|]).
  intros ->. unfold survives_assert in Hasserts.
  rewrite !orb_false_r in Hasserts.
  apply andb_prop in Hasserts as [Hasserts H4].
  apply andb_prop in Hasserts as [Hasserts H3].
  apply andb_prop in Hasserts as [H1 H2].
  apply negb_true_iff in H1, H2, H3, H4.
  apply negb_false_iff, Z.eqb_eq in H3, H4.
  split; [now symmetry|]. split; [now symmetry|]. split.
  - apply andb_false_iff in H1 as [H1|H1].
    + left. apply negb_false_iff in H1. now apply bool_decide_eq_true_1 in H1.
    + right. apply negb_false_iff, Z.eqb_eq in H1. now symmetry.
  - apply andb_false_iff in H2 as [H2|H2].
    + left. apply negb_false_iff in H2. now apply bool_decide_eq_true_1 in H2.
    + right. apply negb_false_iff, Z.eqb_eq in H2. now symmetry.
Qed.

(** X10. When [parse_init_config] accepts a configuration with the feature on,
    the three per-profile vectors hold one entry per configured profile, and
    every stored reset period is 0 or a [uint64_t] above 100: the period at
    index [j] is the configured number read as [uint64_t] when that is
    above 100, and 0 when it is not or when the key is absent. *)
Theorem parse_init_config_one_entry_per_profile
    (st st1 : anomalydetection double) (cj : count_min_sketch_json double) :
  default (m_count_min_sketch_enabled st) (cj_enabled cj) = true ->
  parse_config st (Some cj) = Returned st1 ->
  length (m_behavior_profiles_fields st1)
    = length (default [] (cj_behavior_profiles cj)) /\
  length (m_behavior_profiles_event_codes st1)
    = length (default [] (cj_behavior_profiles cj)) /\
  length (m_reset_timers st1) = length (default [] (cj_behavior_profiles cj)) /\
  Forall (fun t => t = 0 \/ 100 < t < 2 ^ 64) (m_reset_timers st1) /\
  (forall (j : nat) (p : profile_json),
     default [] (cj_behavior_profiles cj) !! j = Some p ->
     m_reset_timers st1 !! j
     = Some match pj_reset_timer_ms p with
            | Some v => if 100 <? v mod 2 ^ 64 then v mod 2 ^ 64 else 0
            | None => 0
            end).
Proof.
  intros Hon Hparse.
  destruct (parse_init_config_enabled st st1 cj Hon Hparse)
    as (dt & df & dc & Hload & _ & _ & -> & -> & -> & _).
  destruct (load_profiles_appends get_profile_fields _ _ _ _ _ _ _ Hload)
    as (dt' & df' & dc' & -> & -> & -> & Hlt & Hlf & Hlc & Ht & Htj & _).
  simpl. split; [exact Hlf|]. split; [exact Hlc|]. split; [exact Hlt|].
  split; [exact Ht|].
  intros j p Hj. rewrite (Htj j p Hj). reflexivity.
Qed.

(** X11. When [parse_init_config] accepts a configuration with the feature on,
    every profile that has both keys is stored at its own index, parsed
    fields and event codes; every stored code is one of the twelve supported
    codes, and a profile whose [fields] string contains ["%fd"] stores
    fd-producing codes only. *)
Theorem parse_init_config_accepted_codes
    (st st1 : anomalydetection double) (cj : count_min_sketch_json double) :
  default (m_count_min_sketch_enabled st) (cj_enabled cj) = true ->
  parse_config st (Some cj) = Returned st1 ->
  Forall (Forall (fun code => code ∈ supported_codes_any_profile))
    (m_behavior_profiles_event_codes st1) /\
  (forall (j : nat) (p : profile_json) (fs : string) (cs : list ppm_event_code),
     default [] (cj_behavior_profiles cj) !! j = Some p ->
     pj_fields p = Some fs -> pj_event_codes p = Some cs ->
     m_behavior_profiles_fields st1 !! j = Some (get_profile_fields fs) /\
     m_behavior_profiles_event_codes st1 !! j = Some cs /\
     (is_Some (str_find "%fd" fs) ->
      Forall (fun code => code ∈ supported_codes_fd_profile) cs)).
Proof.
  intros Hon Hparse.
  destruct (parse_init_config_enabled st st1 cj Hon Hparse)
    as (dt & df & dc & Hload & _ & _ & _ & -> & -> & _).
  destruct (load_profiles_appends get_profile_fields _ _ _ _ _ _ _ Hload)
    as (dt' & df' & dc' & _ & -> & -> & _ & _ & _ & _ & _ & Hidx & Hsup).
  simpl. split; [exact Hsup|].
  intros j p fs cs Hj Hf Hc.
  destruct (Hidx j p fs cs Hj Hf Hc) as (Hdf & Hdc & Hchk).
  split; [exact Hdf|]. split; [exact Hdc|].
  apply (check_event_codes_accepts fs cs Hchk).
Qed.

End ConfigAccepted.

Section InitShape.

Context (get_profile_fields : string -> list plugin_sinsp_filterchecks_field)
        (double : Type)
        (calculate_d_rows_from_gamma calculate_w_cols_buckets_from_eps : double -> Z).

Local Abbreviation init_checked :=
  (init get_profile_fields double calculate_d_rows_from_gamma
        calculate_w_cols_buckets_from_eps false).
Local Abbreviation init_any :=
  (init get_profile_fields double calculate_d_rows_from_gamma
        calculate_w_cols_buckets_from_eps).

Lemma omap_pairs_length (l : list (list double)) :
  Forall (fun a => length a = 2%nat) l ->
  length
    (omap (fun ge =>
             match ge with
             | [gamma; eps] =>
                 Some (Cms.new_with_dw (calculate_d_rows_from_gamma gamma)
                                       (calculate_w_cols_buckets_from_eps eps))
             | _ => None
             end) l) = length l.
Proof.
  induction 1 as [|a l Ha _ IH]; simpl; [reflexivity|].
  destruct a as [|x [|y [|z a]]]; simpl in Ha; try discriminate Ha.
  simpl. f_equal. exact IH.
Qed.

Lemma build_sketches_length (st : anomalydetection double) (l : list Cms.cms) :
  Forall (fun a => length a = 2%nat) (m_gamma_eps st) ->
  build_sketches double calculate_d_rows_from_gamma
    calculate_w_cols_buckets_from_eps st = Some l ->
  Z.of_nat (length l) = m_n_sketches st.
Proof.
  intros Hge. unfold build_sketches.
  destruct (Z.eqb_spec (Z.of_nat (length (m_rows_cols st))) (m_n_sketches st))
    as [Hrc|_].
  - intros [= <-]. rewrite length_map, length_take. lia.
  - destruct (Z.eqb_spec (Z.of_nat (length (m_gamma_eps st))) (m_n_sketches st))
      as [Hg|_]; simpl; [|discriminate].
    destruct (bool_decide (m_rows_cols st = [])); [|discriminate].
    intros [= <-]. rewrite omap_pairs_length.
    + rewrite length_take. lia.
    + apply Forall_take. exact Hge.
Qed.

(** X12. In a build with assertions, when [init] returns true with the feature
    on, the plugin holds exactly [m_n_sketches] profiles, sets of event
    codes and sketches. *)
Theorem init_leaves_parallel_vectors (st st1 : anomalydetection double)
    (cfg : option (count_min_sketch_json double)) (tables_ok : bool)
    (start_ts : Z) :
  init_checked st (Some cfg) tables_ok start_ts = Returned (true, st1) ->
  m_count_min_sketch_enabled st1 = true ->
  plugin_wf st1.
Proof.
  unfold init.
  destruct (parse_init_config get_profile_fields double false st cfg)
    as [st0| |] eqn:Hparse; try discriminate.
  destruct tables_ok; simpl; [|discriminate].
  destruct (m_count_min_sketch_enabled st0) eqn:Hon0;
    [|intros [= <-]; simpl; congruence].
  destruct (build_sketches _ _ _ _) as [l|] eqn:Hbuild; [|discriminate].
  intros [= <-] _. unfold plugin_wf. simpl.
  destruct cfg as [cj|].
  - assert (Hon : default (m_count_min_sketch_enabled st) (cj_enabled cj) = true).
    { unfold parse_init_config in Hparse.
      destruct (default (m_count_min_sketch_enabled st) (cj_enabled cj));
        [reflexivity|].
      simpl in Hparse. injection Hparse as <-. discriminate Hon0. }
    destruct (parse_init_config_enabled get_profile_fields double false
                st st0 cj Hon Hparse)
      as (dt & df & dc & _ & _ & _ & _ & Hdf & Hdc & Hge & _ & Hassert).
    destruct (Hassert eq_refl) as (Hlf & Hlc & _ & _).
    rewrite Hdf, Hdc. split; [exact Hlf|]. split; [exact Hlc|].
    apply (build_sketches_length _ l); [|exact Hbuild].
    simpl. rewrite Hge. apply Forall_lookup. intros k a Ha.
    apply list_elem_of_lookup_2, list_elem_of_filter in Ha as [Ha _]. exact Ha.
  - unfold parse_init_config in Hparse. injection Hparse as <-.
    unfold build_sketches in Hbuild. simpl in *.
    destruct (m_n_sketches st); simpl in Hbuild; try discriminate Hbuild.
    injection Hbuild as <-. now repeat split.
Qed.

(** X13. A reload keeps nothing of the previous configuration or sketches: with
    the thread table bound, the outcome of [init] on a configuration is the
    same for two plugins that agree on the [enabled] flag, the number of
    sketches, the last error and the start timestamp, whatever their
    shapes, timers, profiles, event codes and sketches were. *)
Theorem init_forgets_previous_state (NDEBUG : bool)
    (st st' : anomalydetection double)
    (cfg : option (count_min_sketch_json double)) (start_ts : Z) :
  m_count_min_sketch_enabled st = m_count_min_sketch_enabled st' ->
  m_n_sketches st = m_n_sketches st' ->
  m_lasterr st = m_lasterr st' ->
  m_falco_start_ts_epoch_ns st = m_falco_start_ts_epoch_ns st' ->
  init_any NDEBUG st (Some cfg) true start_ts
  = init_any NDEBUG st' (Some cfg) true start_ts.
Proof.
  intros Hen Hn Herr _. unfold init, parse_init_config.
  rewrite <- Hen, <- Hn.
  destruct cfg as [cj|]; simpl.
  - destruct (default (m_count_min_sketch_enabled st) (cj_enabled cj)); simpl.
    + destruct (load_profiles _ _ _) as [[[dt df] dc]| |]; try reflexivity.
      destruct (survives_assert _ _ && _ && _ && _); [|reflexivity].
      simpl. unfold build_sketches, set_sketches. simpl. now rewrite Herr.
    + now rewrite Herr.
  - unfold build_sketches, set_sketches. simpl. now rewrite Herr.
Qed.

End InitShape.

(** ** The extractor: selectors against one another *)

Section SelectorProperties.

Context (concatenate_paths : string -> string -> string).

Local Abbreviation fallbacks :=
  (extract_filterchecks_evt_params_fallbacks concatenate_paths).
Local Abbreviation eval := (eval_field concatenate_paths).
Local Abbreviation value := (field_value concatenate_paths).
Local Abbreviation extractor :=
  (extract_filterchecks_concat_profile concatenate_paths).

(** X14. The raw-event fallback decodes something only from the eight
    fd-producing events: on any other event it returns the empty string for
    every selector and every [cwd]. *)
Theorem raw_fallback_silent_on_other_events (evt : event)
    (f : plugin_sinsp_filterchecks_field) (cwd_ : string) :
  fd_producing (evt_type evt) = false -> fallbacks evt f cwd_ = "".
Proof. apply fallback_empty_on_other_events. Qed.

(** X15. For a profile of guarded selectors that ends in an fd-dependent one, the
    fingerprint of an event that produces no fd is empty, thread in the
    table or not; and [parse_event] on such an event leaves the sketch of
    every index that holds this profile as it was, whatever the other
    profiles, the event codes and the hash family are. *)
Theorem fd_profile_empty_on_other_events (tt : thread_table) (evt : event)
    (fields : list plugin_sinsp_filterchecks_field)
    (f : plugin_sinsp_filterchecks_field) :
  guarded fields ->
  fd_dependent (id f) = true -> fd_producing (evt_type evt) = false ->
  extractor tt evt (fields ++ [f]) "" = Ok (true, "") /\
  (forall (hash : nat -> string -> Z) (double : Type)
          (st : anomalydetection double) (i : nat),
     m_behavior_profiles_fields st !! i = Some (fields ++ [f]) ->
     m_count_min_sketches
       (parse_event concatenate_paths hash double st tt evt).1.2 !! i
     = m_count_min_sketches st !! i).
Proof.
  intros Hg Hf He.
  assert (Hempty : extractor tt evt (fields ++ [f]) "" = Ok (true, "")).
  { destruct (fd_gating_when_last concatenate_paths tt evt fields f "" Hg Hf He)
      as [H | [_ H]]; exact H. }
  split; [exact Hempty|].
  intros hash double st i Hi. unfold parse_event.
  destruct (m_count_min_sketch_enabled st); simpl; [|reflexivity].
  unfold write_lastevent_fd. rewrite (fd_param_slot_producing _ He).
  pose proof (update_sketches_keeps_index concatenate_paths hash double st tt evt
                (m_behavior_profiles_event_codes st) 0 (m_count_min_sketches st) i)
    as Hkeep.
  destruct (update_sketches _ _ _ _ _ _ _ _ _) as [r sketches]. simpl in *.
  apply Hkeep. intros fields' Hi'. rewrite Hi in Hi'. injection Hi' as <-.
  exact Hempty.
Qed.

(** X16. The selectors that are not fd-dependent never read the event: their
    value is the same for any two events. *)
Theorem thread_selectors_ignore_event (tt : thread_table) (evt1 evt2 : event)
    (te : thread_entry) (f : plugin_sinsp_filterchecks_field) :
  fd_dependent (id f) = false -> eval tt evt1 te f = eval tt evt2 te f.
Proof.
  unfold eval_field.
  destruct (id f); simpl; intros H; try discriminate H; reflexivity.
Qed.

(** X17. A direct-parent selector and the indexed ancestor selector of the same
    attribute with index 1 read the same thread: with the parent in the
    table both yield its attribute; with the parent missing the parent
    selector raises [plugin_exception] while the ancestor selector yields
    the empty string. *)
Theorem parent_selector_against_first_ancestor (tt : thread_table)
    (evt : event) (te : thread_entry)
    (fa fp : plugin_sinsp_filterchecks_field) (read : thread_entry -> string) :
  ancestor_read (id fa) = Some read ->
  parent_selector (id fa) = Some (id fp) ->
  argid fa = 1 ->
  match tt !! ptid te with
  | Some parent =>
      eval tt evt te fp = Ok (false, read parent) /\
      eval tt evt te fa = Ok (false, read parent)
  | None =>
      eval tt evt te fp = Throw plugin_exception /\
      eval tt evt te fa = Ok (false, "")
  end.
Proof.
  intros Hread Hpar Hk.
  rewrite (eval_ancestor concatenate_paths tt evt te fa read Hread), Hk.
  simpl. unfold eval_field, with_parent.
  destruct (id fa); simpl in *; try discriminate Hread;
    injection Hread as <-; injection Hpar as <-;
    destruct (tt !! ptid te); split; reflexivity.
Qed.

(** *** Lineage selectors *)

Lemma lineage_concat_missing (read : thread_entry -> string) (tt : thread_table)
    (p : Z) (s : string) (n : nat) :
  tt !! p = None -> lineage_concat read tt p s n = s.
Proof.
  intros Hp. induction n as [|n IH]; simpl; [reflexivity|]. now rewrite Hp.
Qed.

Lemma concat_str_empty {A : Type} (g : A -> string) (l : list A) :
  (forall x, x ∈ l -> g x = "") -> concat_str (map g l) = "".
Proof.
  induction l as [|x l IH]; intros H; simpl; [reflexivity|].
  rewrite (H x) by constructor. simpl. apply IH.
  intros y Hy. apply H. now constructor.
Qed.

Lemma lineage_concat_walks (read : thread_entry -> string) (tt : thread_table)
    (k : nat) (p : Z) (s : string) :
  lineage_concat read tt p s k
  = s +:+ concat_str (map (fun i => ancestor_walk read tt p i) (seq 1 k)).
Proof.
  revert p s. induction k as [|k IH]; intros p s.
  - simpl. now rewrite append_nil_r.
  - change (lineage_concat read tt p s (S k)) with
      (match tt !! p with
       | None => lineage_concat read tt p s k
       | Some lineage =>
           match k with
           | O => s +:+ read lineage
           | S _ =>
               if p =? 1 then s +:+ read lineage
               else lineage_concat read tt (ptid lineage) (s +:+ read lineage) k
           end
       end).
    destruct (tt !! p) as [l|] eqn:Hp.
    + change (seq 1 (S k)) with (1%nat :: seq 2 k).
      change (map (fun i => ancestor_walk read tt p i) (1%nat :: seq 2 k))
        with (ancestor_walk read tt p 1
                :: map (fun i => ancestor_walk read tt p i) (seq 2 k)).
      assert (H1 : ancestor_walk read tt p 1 = read l)
        by (simpl; now rewrite Hp).
      change (concat_str (ancestor_walk read tt p 1
                :: map (fun i => ancestor_walk read tt p i) (seq 2 k)))
        with (ancestor_walk read tt p 1
                +:+ concat_str (map (fun i => ancestor_walk read tt p i) (seq 2 k))).
      rewrite H1, <- append_assoc.
      destruct k as [|k'].
      * simpl. now rewrite append_nil_r.
      * destruct (Z.eqb_spec p 1) as [Hone|Hone].
        -- rewrite concat_str_empty; [now rewrite append_nil_r|].
           intros i Hi. apply elem_of_seq in Hi.
           destruct i as [|[|i]]; try lia. simpl. rewrite Hp.
           destruct (Z.eqb_spec p 1); [reflexivity | contradiction].
        -- rewrite IH. f_equal. f_equal.
           rewrite <- (seq_shift (S k') 1), map_map.
           apply map_ext_in. intros i Hi. apply in_seq in Hi.
           destruct i as [|i]; [lia|]. simpl. rewrite Hp.
           destruct (Z.eqb_spec p 1); [contradiction | reflexivity].
    + rewrite (lineage_concat_missing read tt p s k Hp).
      rewrite concat_str_empty; [now rewrite append_nil_r|].
      intros i _. now apply ancestor_walk_missing.
Qed.

(** X18. A lineage selector with index [k >= 1] yields, on every thread table,
    the values of the ancestor selector of the same attribute for the
    indices 0, 1, ..., [k], concatenated in that order; with index 0 it
    yields the empty string. *)
Theorem lineage_selector_concatenates_ancestors (tt : thread_table)
    (evt : event) (te : thread_entry) (f : plugin_sinsp_filterchecks_field)
    (read : thread_entry -> string) (a : check_type) :
  lineage_read (id f) = Some (read, a) ->
  eval tt evt te f =
    Ok (false,
        if argid f <? 1 then ""
        else concat_str
               (map (fun i => value tt evt te
                                {| id := a; argid := Z.of_nat i; argname := "" |})
                    (seq 0 (S (Z.to_nat (argid f)))))).
Proof.
  intros Hl.
  assert (Hval : forall i : nat,
             value tt evt te {| id := a; argid := Z.of_nat i; argname := "" |}
             = match i with
               | O => read te
               | S _ => ancestor_walk read tt (ptid te) i
               end).
  { intros i. unfold field_value.
    assert (Ha : ancestor_read a = Some read)
      by (destruct (id f); simpl in Hl; try discriminate Hl;
          injection Hl as <- <-; reflexivity).
    rewrite (eval_ancestor concatenate_paths tt evt te
               {| id := a; argid := Z.of_nat i; argname := "" |} read Ha).
    simpl.
    destruct i as [|i]; [reflexivity|].
    destruct (Z.ltb_spec (Z.of_nat (S i)) 1) as [?|_]; [lia|].
    now rewrite Nat2Z.id. }
  assert (Heval : eval tt evt te f =
                  Ok (false,
                      if argid f <? 1 then ""
                      else lineage_concat read tt (ptid te) (read te)
                             (Z.to_nat (argid f)))).
  { unfold eval_field.
    destruct (id f); simpl in Hl; try discriminate Hl;
      injection Hl as <- <-; now destruct (argid f <? 1). }
  rewrite Heval. destruct (argid f <? 1); [reflexivity|].
  rewrite lineage_concat_walks. do 2 f_equal.
  change (seq 0 (S (Z.to_nat (argid f))))
    with (0%nat :: seq 1 (Z.to_nat (argid f))).
  simpl map. rewrite Hval. simpl concat_str. f_equal. f_equal.
  apply map_ext_in. intros i Hi. apply in_seq in Hi. rewrite Hval.
  destruct i as [|i]; [lia | reflexivity].
Qed.

(** *** Leader selectors *)

Lemma leader_walk_spec (key : thread_entry -> Z) (tt : thread_table) (id_ : Z)
    (n : nat) (l0 : thread_entry) :
  key l0 = id_ ->
  exists j : nat,
    (j <= n)%nat /\
    kth_ancestor tt l0 j = Some (leader_walk key tt id_ (ptid l0) l0 n) /\
    (forall m : nat, (m <= j)%nat ->
       exists a : thread_entry, kth_ancestor tt l0 m = Some a /\ key a = id_) /\
    (j = n \/
     match kth_ancestor tt l0 (S j) with
     | Some next => key next <> id_
     | None => True
     end).
Proof.
  revert l0. induction n as [|n IH]; intros l0 Hkey.
  - exists O. simpl. split; [lia|]. split; [reflexivity|]. split; [|now left].
    intros m Hm. assert (m = O) as -> by lia. now exists l0.
  - assert (Hself : forall m : nat, (m <= 0)%nat ->
              exists a : thread_entry, kth_ancestor tt l0 m = Some a /\ key a = id_).
    { intros m Hm. assert (m = O) as -> by lia. now exists l0. }
    simpl. destruct (tt !! ptid l0) as [lineage|] eqn:Hp.
    + destruct (Z.eqb_spec id_ (key lineage)) as [Heq|Hne]; simpl.
      * destruct (IH lineage (eq_sym Heq)) as (j & Hj & Hk & Hpre & Hmax).
        exists (S j). simpl. rewrite ?Hp.
        split; [lia|]. split; [exact Hk|]. split.
        -- intros [|m] Hm; [now exists l0|]. simpl. rewrite Hp.
           apply Hpre. lia.
        -- destruct Hmax as [-> | Hmax]; [now left | now right].
      * exists O. simpl. rewrite ?Hp.
        split; [lia|]. split; [reflexivity|]. split; [exact Hself|].
        right. congruence.
    + assert (Hstay : forall m, leader_walk key tt id_ (ptid l0) l0 m = l0).
      { intros m. induction m as [|m IHm]; simpl; [reflexivity|].
        now rewrite Hp. }
      rewrite Hstay. exists O. simpl. rewrite ?Hp.
      split; [lia|]. split; [reflexivity|]. split; [exact Hself|]. now right.
Qed.

(** X19. A session-leader or process-group-leader selector reads its attribute
    from the ancestor [j] hops up the parent chain, where [j] is at most 9
    (for [sid]) or 5 (for [vpgid]): the thread itself and the ancestors 1
    to [j] are all in the table with the [sid] (or [vpgid]) of the current
    thread, and the walk stopped at [j] because the bound was reached, the
    next parent is not in the table or the next parent has another [sid]
    (or [vpgid]). So the walk stops at the first parent that is missing or
    has another [sid], even when an ancestor further up shares it again,
    and these clauses fix [j] and the leader. *)
Theorem leader_selector_reads_ancestor (tt : thread_table) (evt : event)
    (te : thread_entry) (f : plugin_sinsp_filterchecks_field)
    (key : thread_entry -> Z) (n : nat) (read : thread_entry -> string) :
  leader_read (id f) = Some (key, n, read) ->
  exists (j : nat) (leader : thread_entry),
    (j <= n)%nat /\
    kth_ancestor tt te j = Some leader /\
    key leader = key te /\
    (forall m : nat, (m <= j)%nat ->
       exists a : thread_entry,
         kth_ancestor tt te m = Some a /\ key a = key te) /\
    eval tt evt te f = Ok (false, read leader) /\
    (j = n \/
     match kth_ancestor tt te (S j) with
     | Some next => key next <> key te
     | None => True
     end) /\
    (forall j' : nat,
       (j' <= n)%nat ->
       (forall m : nat, (m <= j')%nat ->
          exists a : thread_entry,
            kth_ancestor tt te m = Some a /\ key a = key te) ->
       (j' = n \/
        match kth_ancestor tt te (S j') with
        | Some next => key next <> key te
        | None => True
        end) ->
       j' = j).
Proof.
  intros Hl.
  destruct (leader_walk_spec key tt (key te) n te eq_refl)
    as (j & Hj & Hk & Hpre & Hmax).
  exists j, (leader_walk key tt (key te) (ptid te) te n).
  split; [exact Hj|]. split; [exact Hk|]. split.
  { destruct (Hpre j (Nat.le_refl j)) as (a & Ha & Hkey).
    rewrite Hk in Ha. now injection Ha as ->. }
  split; [exact Hpre|].
  split; [|split; [exact Hmax|]].
  - unfold eval_field.
    destruct (id f); simpl in Hl; try discriminate Hl;
      injection Hl as <- <- <-; reflexivity.
  - intros j' Hj' Hpre' Hmax'.
    destruct (Nat.lt_trichotomy j' j) as [Hlt | [Heq | Hgt]]; [|exact Heq|].
    + exfalso. destruct Hmax' as [-> | Hnext]; [lia|].
      destruct (Hpre (S j') ltac:(lia)) as (a & Ha & Hkey).
      rewrite Ha in Hnext. now apply Hnext.
    + exfalso. destruct Hmax as [-> | Hnext]; [lia|].
      destruct (Hpre' (S j) ltac:(lia)) as (a & Ha & Hkey).
      rewrite Ha in Hnext. now apply Hnext.
Qed.

(** *** Plain concatenation *)

Lemma eval_without_clear (tt : thread_table) (evt : event) (te : thread_entry)
    (f : plugin_sinsp_filterchecks_field) :
  unguarded f = false ->
  fd_dependent (id f) = false \/ fd_producing (evt_type evt) = true ->
  eval tt evt te f = Ok (false, value tt evt te f).
Proof.
  intros Hg Hfd.
  assert (Hs : exists s : string, eval tt evt te f = Ok (false, s)).
  { unfold unguarded in Hg. unfold eval_field.
    destruct (id f); simpl in *; try discriminate Hg;
      try (destruct (argid f <? 1); eauto; fail);
      try (destruct Hfd as [Hfd|Hfd]; [discriminate Hfd|];
           destruct (evt_type evt); simpl in Hfd; try discriminate Hfd;
           eauto; fail);
      eauto.
    apply negb_false_iff in Hg. rewrite Hg. simpl. eauto. }
  destruct Hs as [s Hs]. unfold field_value. now rewrite Hs.
Qed.

(** X20. On a thread that is in the table, for a profile of guarded selectors on
    an event on which no selector clears (no fd-dependent selector, or an
    fd-producing event), the fingerprint is what was accumulated before,
    followed by the values of the selectors in profile order, with nothing
    in between. *)
Theorem fingerprint_is_plain_concatenation (tt : thread_table) (evt : event)
    (te : thread_entry) (fields : list plugin_sinsp_filterchecks_field)
    (acc : string) :
  tt !! evt_tid evt = Some te ->
  Forall (fun f => unguarded f = false /\
                   (fd_dependent (id f) = false \/
                    fd_producing (evt_type evt) = true)) fields ->
  extractor tt evt fields acc
  = Ok (true, acc +:+ concat_str (map (value tt evt te) fields)).
Proof.
  intros Hte Hall. unfold extract_filterchecks_concat_profile. rewrite Hte.
  assert (H : concat_fields concatenate_paths tt evt te fields acc
              = Ok (acc +:+ concat_str (map (value tt evt te) fields))).
  { revert acc. induction Hall as [|f fields [Hg Hfd] _ IH]; intros acc; simpl.
    - now rewrite append_nil_r.
    - rewrite (eval_without_clear tt evt te f Hg Hfd), IH.
      now rewrite append_assoc. }
  now rewrite H.
Qed.

End SelectorProperties.

(** ** Strings: the splits of the fd selectors *)

Section StringSplits.

Lemma str_take_drop (n : nat) (s : string) : str_take n s +:+ str_drop n s = s.
Proof.
  revert s; induction n as [|n IH]; intros [|a s]; try reflexivity.
  simpl str_take; simpl str_drop.
  change (String a (str_take n s +:+ str_drop n s) = String a s).
  now rewrite IH.
Qed.

Lemma find_last_of_none (c : ascii) (s : string) :
  find_last_of c s = None -> lacks c s.
Proof.
  induction s as [|a s IH]; simpl; [easy|].
  destruct (find_last_of c s); [discriminate|].
  destruct (Ascii.eqb_spec a c); [discriminate|]. intros _. now split; [|apply IH].
Qed.

Lemma find_last_of_some (c : ascii) (s : string) (pos : nat) :
  find_last_of c s = Some pos ->
  str_take pos s +:+ String c (str_drop (S pos) s) = s /\
  lacks c (str_drop (S pos) s).
Proof.
  revert pos; induction s as [|a s IH]; intros pos; simpl find_last_of; [discriminate|].
  destruct (find_last_of c s) as [p|] eqn:Hp.
  - intros [= <-]. destruct (IH p eq_refl) as [Heq Hl]. split; [|exact Hl].
    simpl str_take.
    change (String a (str_take p s +:+ String c (str_drop (S p) s)) = String a s).
    now rewrite Heq.
  - destruct (Ascii.eqb_spec a c) as [->|]; [|discriminate].
    intros [= <-]. split; [reflexivity|]. now apply find_last_of_none.
Qed.

Lemma split_dir_file_rebuilds (tstr : string) :
  (lacks "/" tstr /\
   split_dir_file TYPE_DIRECTORY tstr = tstr /\
   split_dir_file TYPE_FILENAME tstr = tstr) \/
  (split_dir_file TYPE_DIRECTORY tstr +:+ "/"
     +:+ split_dir_file TYPE_FILENAME tstr = tstr /\
   lacks "/" (split_dir_file TYPE_FILENAME tstr)).
Proof.
  unfold split_dir_file.
  destruct (find_last_of "/" tstr) as [pos|] eqn:Hpos.
  - right. simpl bool_decide. cbv iota.
    rewrite Nat.add_1_r.
    destruct (find_last_of_some _ _ _ Hpos) as [Heq Hl].
    split; [exact Heq | exact Hl].
  - left. split; [now apply find_last_of_none|]. now split.
Qed.

Lemma substring_prefix_split (len : nat) (s : string) :
  String.length (substring 0 len s) = len ->
  substring 0 len s +:+ str_drop len s = s.
Proof.
  revert s; induction len as [|len IH]; intros [|a s]; try reflexivity;
    try discriminate.
  simpl substring; simpl str_drop. intros [= Hlen].
  change (String a (substring 0 len s +:+ str_drop len s) = String a s).
  now rewrite (IH s Hlen).
Qed.

Lemma substring_split (pos len : nat) (s : string) :
  String.length (substring pos len s) = len ->
  str_take pos s +:+ substring pos len s +:+ str_drop (pos + len) s = s.
Proof.
  revert s; induction pos as [|pos IH]; intros s.
  - apply substring_prefix_split.
  - destruct s as [|a s].
    + simpl. intros <-. reflexivity.
    + simpl substring; simpl str_take; simpl str_drop. intros Hlen.
      change (String a (str_take pos s +:+ substring pos len s
                          +:+ str_drop (pos + len) s) = String a s).
      now rewrite (IH s Hlen).
Qed.

Lemma split_fdname_part_rebuilds (tstr : string) :
  (str_find "->" tstr = None /\
   split_fdname_part TYPE_CUSTOM_FDNAME_PART1 tstr = "" /\
   split_fdname_part TYPE_CUSTOM_FDNAME_PART2 tstr = "") \/
  (split_fdname_part TYPE_CUSTOM_FDNAME_PART1 tstr +:+ "->"
     +:+ split_fdname_part TYPE_CUSTOM_FDNAME_PART2 tstr = tstr).
Proof.
  unfold split_fdname_part.
  destruct (str_find "->" tstr) as [pos|] eqn:Hpos.
  - right. simpl bool_decide. cbv iota.
    unfold str_find in Hpos. apply index_correct1 in Hpos.
    change (String.length "->") with 2%nat in Hpos.
    assert (Hlen : String.length (substring pos 2 tstr) = 2%nat)
      by now rewrite Hpos.
    pose proof (substring_split pos 2 tstr Hlen) as Hs.
    rewrite Hpos in Hs. exact Hs.
  - left. now repeat split.
Qed.

Context (concatenate_paths : string -> string -> string).

Local Abbreviation value := (field_value concatenate_paths).

(** X21. [%fd.directory] and [%fd.filename] against [%fd.name] on an event
    that opens a file: the three selectors start from the same string, so
    directory, slash and file name give the name back and the file name
    holds no slash; a name without a slash is returned by all three. *)
Theorem directory_and_filename_rebuild_fdname (tt : thread_table) (evt : event)
    (te : thread_entry) (fname fdir ffile : plugin_sinsp_filterchecks_field)
    (Hname : id fname = TYPE_FDNAME) (Hdir : id fdir = TYPE_DIRECTORY)
    (Hfile : id ffile = TYPE_FILENAME)
    (Hevt : opens_file (evt_type evt) = true) :
  (lacks "/" (value tt evt te fname) /\
   value tt evt te fdir = value tt evt te fname /\
   value tt evt te ffile = value tt evt te fname) \/
  (value tt evt te fdir +:+ "/" +:+ value tt evt te ffile
     = value tt evt te fname /\
   lacks "/" (value tt evt te ffile)).
Proof.
  unfold field_value, eval_field, extract_filterchecks_evt_params_fallbacks.
  rewrite Hname, Hdir, Hfile.
  destruct (evt_type evt); try discriminate Hevt; apply split_dir_file_rebuilds.
Qed.

(** X22. The two halves of a socket name against [%fd.name] on an [accept] or
    [connect]: the halves and the arrow between them give the name back;
    a name without an arrow yields two empty halves. *)
Theorem fdname_parts_rebuild_fdname (tt : thread_table) (evt : event)
    (te : thread_entry) (fname f1 f2 : plugin_sinsp_filterchecks_field)
    (Hname : id fname = TYPE_FDNAME) (H1 : id f1 = TYPE_CUSTOM_FDNAME_PART1)
    (H2 : id f2 = TYPE_CUSTOM_FDNAME_PART2)
    (Hevt : socket_event (evt_type evt) = true) :
  (str_find "->" (value tt evt te fname) = None /\
   value tt evt te f1 = "" /\ value tt evt te f2 = "") \/
  (value tt evt te f1 +:+ "->" +:+ value tt evt te f2 = value tt evt te fname).
Proof.
  unfold field_value, eval_field, extract_filterchecks_evt_params_fallbacks.
  rewrite Hname, H1, H2.
  destruct (evt_type evt); try discriminate Hevt; apply split_fdname_part_rebuilds.
Qed.

End StringSplits.

(** ** [%proc.env[KEY]]: the last matching entry, trimmed *)

Section EnvSelector.

Context (concatenate_paths : string -> string -> string).

Lemma length_append (a b : string) :
  String.length (a +:+ b) = (String.length a + String.length b)%nat.
Proof.
  induction a as [|c a IH]; [reflexivity|].
  change (S (String.length (a +:+ b)) = S (String.length a + String.length b)).
  now rewrite IH.
Qed.

Lemma str_drop_append (a b : string) : str_drop (String.length a) (a +:+ b) = b.
Proof. induction a as [|c a IH]; [reflexivity | exact IH]. Qed.

Lemma str_take_append (a b : string) : str_take (String.length a) (a +:+ b) = a.
Proof.
  induction a as [|c a IH]; [now destruct b|].
  change (String c (str_take (String.length a) (a +:+ b)) = String c a).
  now rewrite IH.
Qed.

Lemma get_append (a b : string) (c : ascii) :
  String.get (String.length a) (a +:+ String c b) = Some c.
Proof. induction a as [|x a IH]; [reflexivity | exact IH]. Qed.


Lemma find_first_not_of_from_only (c : ascii) (s : string) :
  only c s -> find_first_not_of_from c s = None.
Proof.
  induction s as [|a s IH]; [reflexivity|]. intros [-> Hs]. simpl.
  rewrite Ascii.eqb_refl, (IH Hs). reflexivity.
Qed.







Lemma env_lookup_blank (key blanks tstr : string) (rest : list string) :
  blanks <> EmptyString -> only " " blanks ->
  env_lookup key ((key +:+ "=" +:+ blanks) :: rest) tstr = Throw out_of_range.
Proof.
  intros Hne Hb.
  set (e := key +:+ "=" +:+ blanks).
  assert (Hkey : e = (key +:+ "=") +:+ blanks).
  { unfold e. now rewrite append_assoc. }
  assert (Hklen : String.length (key +:+ "=") = (String.length key + 1)%nat).
  { rewrite length_append. reflexivity. }
  cbn [env_lookup]. cbv zeta.
  assert (Hgate :
    ((String.length key + 1 <? String.length e)%nat
     && bool_decide (String.get (String.length key) e = Some "="%char)
     && String.eqb (str_take (String.length key) e) key)%bool = true).
  { rewrite !andb_true_iff. repeat split.
    - apply Nat.ltb_lt. rewrite Hkey, length_append, Hklen.
      destruct blanks; [congruence|]. simpl. lia.
    - apply bool_decide_eq_true_2. unfold e. apply get_append.
    - unfold e. rewrite str_take_append. apply String.eqb_refl. }
  fold e. rewrite Hgate.
  unfold find_first_not_of.
  rewrite <- Hklen. rewrite Hkey. rewrite str_drop_append.
  now rewrite (find_first_not_of_from_only " " blanks Hb).
Qed.

Lemma env_lookup_app (key : string) (l1 l2 : list string) (tstr t1 : string) :
  env_lookup key l1 tstr = Ok t1 ->
  env_lookup key (l1 ++ l2) tstr = env_lookup key l2 t1.
Proof.
  revert tstr; induction l1 as [|e l1 IH]; intros tstr.
  - now intros [= ->].
  - cbn [env_lookup app]. cbv zeta.
    destruct (_ && _ && _)%bool.
    + destruct (find_first_not_of " " _ e); [apply IH | discriminate].
    + apply IH.
Qed.



(** X24. An entry [KEY=] followed by blanks only makes [%proc.env[KEY]] raise
    [std::out_of_range]: [substr] is called at [npos]. *)
Theorem env_selector_blank_value_raises (tt : thread_table) (evt : event)
    (te : thread_entry) (f : plugin_sinsp_filterchecks_field)
    (before after : list string) (blanks earlier : string)
    (Hid : id f = TYPE_ENV)
    (Hkey : argname f <> EmptyString)
    (Henv : env te = before ++ (argname f +:+ "=" +:+ blanks) :: after)
    (Hbefore : env_lookup (argname f) before EmptyString = Ok earlier)
    (Hblanks : blanks <> EmptyString) (Honly : only " " blanks) :
  eval_field concatenate_paths tt evt te f = Throw out_of_range.
Proof.
  unfold eval_field. rewrite Hid.
  destruct (argname f) as [|k0 key] eqn:Hk; [congruence|]. rewrite <- Hk in *.
  assert (Hne : str_empty (argname f) = false) by now rewrite Hk.
  rewrite Hne. simpl negb. cbv iota.
  rewrite Henv, (env_lookup_app _ _ _ _ _ Hbefore).
  now rewrite env_lookup_blank.
Qed.

End EnvSelector.

(** ** The event buffer: what the decoder reads back *)

Section Decoder.

Lemma byte_of_Z_value (z : Z) : Z.of_N (Byte.to_N (byte_of_Z z)) = z mod 256.
Proof.
  unfold byte_of_Z.
  assert (Hr : 0 <= z mod 256 < 256) by (apply Z.mod_pos_bound; lia).
  destruct (Byte.of_N (Z.to_N (z mod 256))) as [b|] eqn:Hb.
  - simpl. apply Byte.to_of_N in Hb. rewrite Hb. lia.
  - apply Byte.of_N_None_iff in Hb. lia.
Qed.

Lemma byte_at_app (pre post : list byte) (b : byte) :
  byte_at (pre ++ b :: post) (Z.of_nat (length pre)) = Z.of_N (Byte.to_N b).
Proof.
  unfold byte_at.
  destruct (Z.ltb_spec (Z.of_nat (length pre)) 0) as [H|_]; [lia|].
  rewrite Nat2Z.id, list_lookup_middle by reflexivity. reflexivity.
Qed.

Lemma load_le_bytes (n : nat) (z : Z) (pre post : list byte) :
  load_le (pre ++ le_bytes n z ++ post) (Z.of_nat (length pre)) n
  = z mod 256 ^ Z.of_nat n.
Proof.
  revert z pre; induction n as [|n IH]; intros z pre.
  - simpl. now rewrite Z.mod_1_r.
  - cbn [load_le le_bytes]. rewrite <- app_comm_cons, byte_at_app, byte_of_Z_value.
    replace (pre ++ byte_of_Z z :: le_bytes n (z / 256) ++ post)
      with ((pre ++ [byte_of_Z z]) ++ le_bytes n (z / 256) ++ post)
      by now rewrite <- app_assoc.
    replace (Z.of_nat (length pre) + 1)
      with (Z.of_nat (length (pre ++ [byte_of_Z z])))
      by (rewrite length_app; simpl; lia).
    rewrite IH.
    rewrite Nat2Z.inj_succ, Z.pow_succ_r by lia.
    rewrite (Z.rem_mul_r z 256 (256 ^ Z.of_nat n)) by lia.
    reflexivity.
Qed.

Lemma to_i64_wrap (z : Z) :
  - 2 ^ 63 <= z < 2 ^ 63 -> to_i64 (z mod 2 ^ 64) = z.
Proof.
  intros Hz. unfold to_i64, wrap_u64. rewrite Z.mod_mod by lia.
  change (2 ^ 64) with 18446744073709551616 in *.
  change (2 ^ 63) with 9223372036854775808 in *.
  destruct (Z.le_gt_cases 0 z) as [Hpos|Hneg].
  - rewrite Z.mod_small by lia.
    destruct (Z.ltb_spec z 9223372036854775808); lia.
  - rewrite <- (Z.mod_add z 1) by lia. rewrite Z.mod_small by lia.
    destruct (Z.ltb_spec (z + 1 * 18446744073709551616) 9223372036854775808); lia.
Qed.

Lemma cstr_bytes_read (s : string) (post : list byte) :
  lacks "000" s -> cstr (cstr_bytes s ++ post) = s.
Proof.
  unfold cstr_bytes. induction s as [|a s IH].
  - reflexivity.
  - intros [Ha Hs]. cbn [list_ascii_of_string map app cstr].
    destruct (Byte.eqb (byte_of_ascii a) x00) eqn:Hb.
    + apply Byte.byte_dec_bl in Hb. exfalso. apply Ha.
      rewrite <- (ascii_of_byte_of_ascii a), Hb. reflexivity.
    + rewrite ascii_of_byte_of_ascii. f_equal. now apply IH.
Qed.

Lemma string_read_stops_at_nul (pre post : list byte) (s : string) :
  lacks "000" s ->
  load_cstr (pre ++ cstr_bytes s ++ post) (Z.of_nat (length pre)) = s.
Proof.
  intros Hs. unfold load_cstr.
  destruct (Z.ltb_spec (Z.of_nat (length pre)) 0) as [H|_]; [lia|].
  rewrite Nat2Z.id, drop_app_length. now apply cstr_bytes_read.
Qed.

Abbreviation lengths_of params :=
  (concat (map (fun p : list byte => le_bytes 2 (Z.of_nat (length p))) params)).

Lemma lengths_of_length (params : list (list byte)) :
  length (lengths_of params) = (2 * length params)%nat.
Proof.
  induction params as [|p params IH]; [reflexivity|].
  cbn [map concat]. rewrite length_app, IH. simpl. lia.
Qed.

Lemma evt_len_mk_event (c : ppm_event_code) (t : Z) (params : list (list byte))
    (j : nat) (p : list byte) :
  params !! j = Some p -> Z.of_nat (length p) < 2 ^ 16 ->
  evt_len (mk_event c t params) j = Z.of_nat (length p).
Proof.
  intros Hj Hp. unfold evt_len, load_u16, mk_event; cbn [evt_data].
  rewrite <- (take_drop_middle _ _ _ Hj) at 1.
  rewrite map_app, concat_app. cbn [map concat]. rewrite <- !app_assoc.
  replace (2 * Z.of_nat j) with (Z.of_nat (length (lengths_of (take j params)))).
  - rewrite load_le_bytes. apply Z.mod_small. simpl. lia.
  - rewrite lengths_of_length, length_take.
    apply lookup_lt_Some in Hj. lia.
Qed.

Lemma sum_lens_mk_event (c : ppm_event_code) (t : Z) (params : list (list byte))
    (n : nat) :
  Forall (fun p => Z.of_nat (length p) < 2 ^ 16) params ->
  Z.of_nat (length (concat params)) < 2 ^ 32 ->
  (n <= length params)%nat ->
  sum_lens (mk_event c t params) n = Z.of_nat (length (concat (take n params))).
Proof.
  intros Hall Htot. induction n as [|n IH]; intros Hn; [reflexivity|].
  destruct (lookup_lt_is_Some_2 params n ltac:(lia)) as [p Hp].
  cbn [sum_lens]. rewrite IH by lia.
  rewrite (evt_len_mk_event _ _ _ _ _ Hp)
    by exact (proj1 (Forall_lookup _ _) Hall _ _ Hp).
  rewrite (take_S_r _ _ _ Hp), concat_app, length_app. cbn [concat].
  rewrite app_nil_r. unfold wrap_u32.
  rewrite Nat2Z.inj_add. apply Z.mod_small.
  assert (Hle : (length (concat (take (S n) params)) <= length (concat params))%nat).
  { rewrite <- (take_drop (S n) params) at 2. rewrite concat_app, length_app. lia. }
  rewrite (take_S_r _ _ _ Hp), concat_app, length_app in Hle. cbn [concat] in Hle.
  rewrite app_nil_r in Hle. lia.
Qed.

Lemma get_syscall_evt_param_mk_event (c : ppm_event_code) (t : Z)
    (params : list (list byte)) (n : nat) (p : list byte) :
  params !! n = Some p ->
  Forall (fun q => Z.of_nat (length q) < 2 ^ 16) params ->
  Z.of_nat (length (concat params)) < 2 ^ 32 ->
  exists pre post : list byte,
    evt_data (mk_event c t params) = pre ++ p ++ post /\
    get_syscall_evt_param (mk_event c t params) n
      = {| param_len := Z.of_nat (length p);
           param_pointer := Some (Z.of_nat (length pre)) |}.
Proof.
  intros Hn Hall Htot.
  pose proof (lookup_lt_Some _ _ _ Hn) as Hlt.
  exists (lengths_of params ++ concat (take n params)),
         (concat (drop (S n) params)).
  split.
  - cbn [mk_event evt_data].
    rewrite <- (take_drop_middle _ _ _ Hn) at 2.
    rewrite concat_app. cbn [concat]. now rewrite <- !app_assoc.
  - unfold get_syscall_evt_param.
    rewrite (evt_len_mk_event _ _ _ _ _ Hn)
      by exact (proj1 (Forall_lookup _ _) Hall _ _ Hn).
    rewrite sum_lens_mk_event by (assumption || lia).
    cbn [mk_event evt_nparams]. do 2 f_equal.
    rewrite length_app, lengths_of_length. lia.
Qed.

(** X25. On a well-formed buffer (the lengths array, then the payloads, every
    length below 2^16 and their sum below 2^32) the decoder finds
    parameter [n]: the length it reports is the payload's, and the
    pointer it returns is where the payload starts. *)
Theorem get_syscall_evt_param_finds_payload (c : ppm_event_code) (t : Z)
    (params : list (list byte)) (n : nat) (p : list byte) :
  params !! n = Some p ->
  Forall (fun q => Z.of_nat (length q) < 2 ^ 16) params ->
  Z.of_nat (length (concat params)) < 2 ^ 32 ->
  exists at_ : nat,
    get_syscall_evt_param (mk_event c t params) n
      = {| param_len := Z.of_nat (length p);
           param_pointer := Some (Z.of_nat at_) |} /\
    take (length p) (drop at_ (evt_data (mk_event c t params))) = p.
Proof.
  intros Hn Hall Htot.
  destruct (get_syscall_evt_param_mk_event c t params n p Hn Hall Htot)
    as (pre & post & Hdata & Hparam).
  exists (length pre). split; [exact Hparam|].
  rewrite Hdata, drop_app_length. now rewrite take_app_length.
Qed.

Section Fallback.

Context (concatenate_paths : string -> string -> string).

Local Abbreviation fallbacks :=
  (extract_filterchecks_evt_params_fallbacks concatenate_paths).

Lemma param_load_le (c : ppm_event_code) (t : Z) (params : list (list byte))
    (k n : nat) (z : Z) :
  Forall (fun q => Z.of_nat (length q) < 2 ^ 16) params ->
  Z.of_nat (length (concat params)) < 2 ^ 32 ->
  params !! k = Some (le_bytes n z) ->
  exists p : Z,
    param_pointer (get_syscall_evt_param (mk_event c t params) k) = Some p /\
    load_le (evt_data (mk_event c t params)) p n = z mod 256 ^ Z.of_nat n.
Proof.
  intros Hall Htot Hk.
  destruct (get_syscall_evt_param_mk_event c t params k _ Hk Hall Htot)
    as (pre & post & Hdata & Hparam).
  exists (Z.of_nat (length pre)). rewrite Hparam, Hdata.
  split; [reflexivity | apply load_le_bytes].
Qed.

Lemma param_load_cstr (c : ppm_event_code) (t : Z) (params : list (list byte))
    (k : nat) (s : string) :
  Forall (fun q => Z.of_nat (length q) < 2 ^ 16) params ->
  Z.of_nat (length (concat params)) < 2 ^ 32 ->
  params !! k = Some (cstr_bytes s) -> lacks "000" s ->
  exists p : Z,
    param_pointer (get_syscall_evt_param (mk_event c t params) k) = Some p /\
    load_cstr (evt_data (mk_event c t params)) p = s.
Proof.
  intros Hall Htot Hk Hs.
  destruct (get_syscall_evt_param_mk_event c t params k _ Hk Hall Htot)
    as (pre & post & Hdata & Hparam).
  exists (Z.of_nat (length pre)). rewrite Hparam, Hdata.
  split; [reflexivity | now apply string_read_stops_at_nul].
Qed.

(** X26. The raw-event fallback on a well-formed [open] or [creat] buffer whose
    parameters 0, 1, 4 and 5 hold the fd, the NUL-terminated name, the
    device and the inode: it gives back the fd, the name, the device and
    the inode for the selectors that ask for them, the name resolved
    against [cwd] for the three path selectors, and nothing for any other
    selector. *)
Theorem raw_fallback_decodes_open_event (c : ppm_event_code) (t : Z)
    (params : list (list byte)) (fd dev ino : Z) (name cwd_ : string)
    (f : plugin_sinsp_filterchecks_field) :
  c = PPME_SYSCALL_OPEN_X \/ c = PPME_SYSCALL_CREAT_X ->
  Forall (fun q => Z.of_nat (length q) < 2 ^ 16) params ->
  Z.of_nat (length (concat params)) < 2 ^ 32 ->
  params !! 0%nat = Some (le_bytes 8 fd) -> - 2 ^ 63 <= fd < 2 ^ 63 ->
  params !! 1%nat = Some (cstr_bytes name) -> lacks "000" name ->
  params !! 4%nat = Some (le_bytes 4 dev) -> 0 <= dev < 2 ^ 32 ->
  params !! 5%nat = Some (le_bytes 8 ino) -> 0 <= ino < 2 ^ 64 ->
  fallbacks (mk_event c t params) f cwd_ =
    match id f with
    | TYPE_FDNUM => to_string fd
    | TYPE_FDNAMERAW => name
    | TYPE_DEV => to_string dev
    | TYPE_INO => to_string ino
    | TYPE_FDNAME | TYPE_DIRECTORY | TYPE_FILENAME =>
        if negb (is_absolute name) then concatenate_paths cwd_ name
        else concatenate_paths "" name
    | _ => ""
    end.
Proof.
  intros Hc Hall Htot H0 Hfd H1 Hname H4 Hdev H5 Hino.
  destruct (param_load_le c t params 0 8 fd Hall Htot H0) as (p0 & Hp0 & Hl0).
  destruct (param_load_cstr c t params 1 name Hall Htot H1 Hname)
    as (p1 & Hp1 & Hl1).
  destruct (param_load_le c t params 4 4 dev Hall Htot H4) as (p4 & Hp4 & Hl4).
  destruct (param_load_le c t params 5 8 ino Hall Htot H5) as (p5 & Hp5 & Hl5).
  assert (Hfd' : to_i64 (fd mod 256 ^ Z.of_nat 8) = fd)
    by now apply to_i64_wrap.
  assert (Hdev' : dev mod 256 ^ Z.of_nat 4 = dev)
    by (apply Z.mod_small; simpl; lia).
  assert (Hino' : ino mod 256 ^ Z.of_nat 8 = ino)
    by (apply Z.mod_small; simpl; lia).
  unfold extract_filterchecks_evt_params_fallbacks, with_param,
    load_i64, load_u64, load_u32.
  assert (Htype : evt_type (mk_event c t params) = c) by reflexivity.
  rewrite Htype.
  destruct (id f); try reflexivity;
    destruct Hc as [-> | ->]; try reflexivity;
    rewrite ?Hp0, ?Hp1, ?Hp4, ?Hp5, ?Hl0, ?Hl1, ?Hl4, ?Hl5,
      ?Hfd', ?Hdev', ?Hino'; reflexivity.
Qed.

End Fallback.

End Decoder.

(** ** [%fd.num]: the table path against the raw-event fallback *)

Section FdNum.

Context (concatenate_paths : string -> string -> string)
        (hash : nat -> string -> Z) (double : Type).

Lemma pretty_N_go_nonempty (x : N) (s : string) :
  s <> EmptyString -> pretty_N_go x s <> EmptyString.
Proof.
  revert s. induction (N.lt_wf_0 x) as [x _ IH]; intros s Hs.
  assert (Hx : (x = 0 \/ 0 < x)%N) by lia. destruct Hx as [->|Hx].
  - now rewrite pretty_N_go_0.
  - rewrite pretty_N_go_step by exact Hx.
    apply IH; [now apply N.div_lt | discriminate].
Qed.

Lemma pretty_positive_nonempty (p : positive) : pretty p <> EmptyString.
Proof.
  unfold pretty, pretty_positive, pretty, pretty_N.
  destruct (decide (N.pos p = 0%N)) as [H|_]; [discriminate H|].
  rewrite pretty_N_go_step by reflexivity.
  apply pretty_N_go_nonempty. discriminate.
Qed.

Lemma to_string_nonempty (z : Z) : str_empty (to_string z) = false.
Proof.
  unfold to_string, pretty, pretty_Z. destruct z as [|p|p]; [reflexivity| |reflexivity].
  pose proof (pretty_positive_nonempty p) as Hp.
  now destruct (pretty p).
Qed.

(** X27. Once [parse_event] has recorded the fd of an fd event, the table path
    of [%fd.num] yields the same string as the raw-event fallback, which
    decodes the same parameter of the buffer. *)
Theorem fd_num_agrees_with_raw_fallback (st : anomalydetection double)
    (tt : thread_table) (evt : event) (te : thread_entry)
    (f : plugin_sinsp_filterchecks_field)
    (Hon : m_count_min_sketch_enabled st = true)
    (Hevt : fd_producing (evt_type evt) = true)
    (Hte : tt !! evt_tid evt = Some te)
    (Hid : id f = TYPE_FDNUM) :
  exists te' : thread_entry,
    (parse_event concatenate_paths hash double st tt evt).2 !! evt_tid evt
      = Some te' /\
    eval_field concatenate_paths
      (parse_event concatenate_paths hash double st tt evt).2 evt te' f
      = Ok (false,
            extract_filterchecks_evt_params_fallbacks concatenate_paths
              evt f EmptyString).
Proof.
  unfold parse_event, write_lastevent_fd. rewrite Hon, Hte. simpl negb. cbv iota.
  assert (Hslot : exists slot, fd_param_slot (evt_type evt) = Some slot /\
            extract_filterchecks_evt_params_fallbacks concatenate_paths
              evt f EmptyString
            = to_string (load_i64 (evt_data evt)
                (2 * evt_nparams evt + sum_lens evt slot))).
  { unfold extract_filterchecks_evt_params_fallbacks, with_param. rewrite Hid.
    destruct (evt_type evt); try discriminate Hevt; simpl;
      eexists; (split; [reflexivity|reflexivity]). }
  destruct Hslot as (slot & -> & ->). cbn [get_syscall_evt_param param_pointer].
  destruct (update_sketches _ _ _ _ _ _ _ _ _) as [r sketches]. cbn [snd].
  eexists. split; [apply lookup_insert_eq|].
  unfold eval_field. rewrite Hid.
  unfold or_else. cbn [set_lastevent_fd lastevent_fd].
  rewrite to_string_nonempty.
  destruct (evt_type evt); try discriminate Hevt; reflexivity.
Qed.

End FdNum.

(** ** The further properties at concrete inputs *)

(** An [open] of thread 777, which the table does not hold. *)
Lemma parse_event_unknown_thread_throws_witness :
  example_table !! evt_tid (open_evt 777) = None /\
  parse_event concatenate_paths_model hash_model no_double
    plugin_on example_table (open_evt 777)
  = (Throw plugin_exception, plugin_on, example_table).
Proof.
  split; [reflexivity|].
  exact (parse_event_unknown_thread_throws concatenate_paths_model hash_model
           no_double plugin_on example_table (open_evt 777)
           eq_refl eq_refl eq_refl).
Defined.

(** An [execve] under a plugin whose only profile is bound to [open]. *)
Lemma parse_event_unlisted_code_witness :
  (parse_event concatenate_paths_model hash_model no_double
     plugin_on example_table (execve_evt 100)).1 = (Ok true, plugin_on).
Proof.
  apply (parse_event_unlisted_code concatenate_paths_model hash_model
           no_double plugin_on example_table (execve_evt 100)).
  - repeat constructor. intros H. inversion H as [|? ? ? H']. inversion H'.
  - left. reflexivity.
Defined.

(** An [execve] of thread 777, which the table does not hold. *)
Lemma parse_event_unknown_thread_other_event_witness :
  (parse_event concatenate_paths_model hash_model no_double
     pname_plugin example_table (execve_evt 777)).1.2 = pname_plugin /\
  (parse_event concatenate_paths_model hash_model no_double
     pname_plugin example_table (execve_evt 777)).2 = example_table.
Proof.
  exact (parse_event_unknown_thread_other_event concatenate_paths_model
           hash_model no_double pname_plugin example_table (execve_evt 777)
           eq_refl eq_refl).
Defined.

(** An [open] of thread 100 under the profile [%proc.name]. *)
Lemma parse_event_returns_witness :
  plugin_wf plugin_on /\
  exists b : bool,
    (parse_event concatenate_paths_model hash_model no_double
       plugin_on example_table (open_evt 100)).1.1 = Ok b.
Proof.
  assert (Hwf : plugin_wf plugin_on) by (repeat split; reflexivity).
  split; [exact Hwf|].
  apply (parse_event_returns concatenate_paths_model hash_model no_double
           plugin_on example_table (open_evt 100) Hwf).
  - repeat constructor.
  - right. exists (mk_thread 100 50 "bash"). reflexivity.
Defined.

(** The count of the profile [%proc.name] for an [open] of thread 100:
    the estimate of ["bash"] in the fresh sketch. *)
Lemma extract_count_estimates_profile_string_witness :
  exists (fp : string) (s : Cms.cms),
    extract concatenate_paths_model hash_model no_double plugin_on
      example_table (open_evt 100) (profile_request 0) 0
      = Ok (true, Some (Str fp), plugin_on) /\
    m_count_min_sketches plugin_on !! Z.to_nat 0 = Some s /\
    U64 0 = U64 (Cms.estimate hash_model s fp).
Proof.
  apply (extract_count_estimates_profile_string concatenate_paths_model
           hash_model no_double plugin_on plugin_on example_table
           (open_evt 100) 0 0 (U64 0)).
  vm_compute. reflexivity.
Defined.

Lemma extract_indexed_fields_succeed_witness :
  exists (fp : string) (c : Z),
    extract concatenate_paths_model hash_model no_double plugin_on
      example_table (open_evt 100) (count_request 0) 0
      = Ok (true, Some (U64 c), plugin_on) /\
    extract concatenate_paths_model hash_model no_double plugin_on
      example_table (open_evt 100) (profile_request 0) 0
      = Ok (true, Some (Str fp), plugin_on).
Proof.
  apply (extract_indexed_fields_succeed concatenate_paths_model hash_model
           no_double plugin_on example_table (open_evt 100) 0 0
           [selector TYPE_NAME 0]).
  - repeat split; reflexivity.
  - reflexivity.
  - simpl. lia.
  - reflexivity.
  - repeat constructor.
Defined.

(** [timed_config]: the periods 50, 250, -5 and none are stored as 0, 250,
    2^64 - 5 and 0. *)
Lemma parse_init_config_one_entry_per_profile_witness :
  exists st1 : anomalydetection no_double,
    parse_init_config get_profile_fields_model no_double false fresh_plugin
      (Some timed_config) = Returned st1 /\
    length (m_behavior_profiles_fields st1) = 4%nat /\
    length (m_behavior_profiles_event_codes st1) = 4%nat /\
    length (m_reset_timers st1) = 4%nat /\
    Forall (fun t => t = 0 \/ 100 < t < 2 ^ 64) (m_reset_timers st1) /\
    m_reset_timers st1 !! 0%nat = Some 0 /\
    m_reset_timers st1 !! 1%nat = Some 250 /\
    m_reset_timers st1 !! 2%nat = Some (2 ^ 64 - 5) /\
    m_reset_timers st1 !! 3%nat = Some 0.
Proof.
  eexists. split; [vm_compute; reflexivity|].
  destruct (parse_init_config_one_entry_per_profile get_profile_fields_model
              no_double false fresh_plugin _ timed_config eq_refl eq_refl)
    as (Hf & Hc & Ht & Hall & Hj).
  split; [exact Hf|]. split; [exact Hc|]. split; [exact Ht|].
  split; [exact Hall|].
  split; [exact (Hj 0%nat (timed_profile (Some 50)) eq_refl)|].
  split; [exact (Hj 1%nat (timed_profile (Some 250)) eq_refl)|].
  split; [exact (Hj 2%nat (timed_profile (Some (-5))) eq_refl)|].
  exact (Hj 3%nat (timed_profile None) eq_refl).
Defined.

Lemma parse_init_config_accepted_codes_witness :
  exists st1 : anomalydetection no_double,
    parse_init_config get_profile_fields_model no_double false fresh_plugin
      (Some fd_first_config) = Returned st1 /\
    Forall (Forall (fun code => code ∈ supported_codes_any_profile))
      (m_behavior_profiles_event_codes st1).
Proof.
  eexists. split; [vm_compute; reflexivity|].
  apply (parse_init_config_accepted_codes get_profile_fields_model
           no_double false fresh_plugin _ fd_first_config).
  - reflexivity.
  - vm_compute. reflexivity.
Defined.

(** A configuration that asks for 2^32 + 4 sketches and holds four
    profiles and four shapes: the count is stored as 4 and [init] builds
    four sketches. *)
Lemma init_leaves_parallel_vectors_witness :
  exists st1 : anomalydetection no_double,
    init get_profile_fields_model no_double no_shape no_shape false
      fresh_plugin (Some (Some wrapped_count_config)) true 0
      = Returned (true, st1) /\
    m_n_sketches st1 = 4 /\
    plugin_wf st1.
Proof.
  eexists. split; [vm_compute; reflexivity|]. split; [reflexivity|].
  apply (init_leaves_parallel_vectors get_profile_fields_model no_double
           no_shape no_shape fresh_plugin _ (Some wrapped_count_config) true 0).
  - vm_compute. reflexivity.
  - reflexivity.
Defined.

(** Two disabled plugins with one sketch each, of different shapes and
    profiles, given the same configuration of four timed profiles. *)
Lemma init_forgets_previous_state_witness :
  init get_profile_fields_model no_double no_shape no_shape false
    plugin_off (Some (Some wrapped_count_config)) true 0
  = init get_profile_fields_model no_double no_shape no_shape false
      (example_plugin false 1 1 [] []) (Some (Some wrapped_count_config)) true 0.
Proof.
  exact (init_forgets_previous_state get_profile_fields_model no_double
           no_shape no_shape false plugin_off (example_plugin false 1 1 [] [])
           (Some wrapped_count_config) 0 eq_refl eq_refl eq_refl eq_refl).
Defined.

Lemma raw_fallback_silent_on_other_events_witness :
  extract_filterchecks_evt_params_fallbacks concatenate_paths_model
    (execve_evt 100) (selector TYPE_FDNAME 0) "/tmp" = "".
Proof.
  exact (raw_fallback_silent_on_other_events concatenate_paths_model
           (execve_evt 100) (selector TYPE_FDNAME 0) "/tmp" eq_refl).
Defined.

(** The profile [%proc.name %custom.fdname_part1] on an [execve] of thread
    100, bound to [execve] in the plugin: the fingerprint is empty and the
    sketch is the fresh one after [parse_event]. *)
Lemma fd_profile_empty_on_other_events_witness :
  extract_filterchecks_concat_profile concatenate_paths_model example_table
    (execve_evt 100)
    ([selector TYPE_NAME 0] ++ [selector TYPE_CUSTOM_FDNAME_PART1 0]) ""
  = Ok (true, "") /\
  m_count_min_sketches
    (parse_event concatenate_paths_model hash_model no_double
       name_then_fd_plugin example_table (execve_evt 100)).1.2 !! 0%nat
  = Some (Cms.new_with_dw 5 2048).
Proof.
  assert (Hg : guarded [selector TYPE_NAME 0]) by (repeat constructor).
  destruct (fd_profile_empty_on_other_events concatenate_paths_model
              example_table (execve_evt 100) [selector TYPE_NAME 0]
              (selector TYPE_CUSTOM_FDNAME_PART1 0) Hg eq_refl eq_refl)
    as [Hfp Hkeep].
  split; [exact Hfp|].
  exact (Hkeep hash_model no_double name_then_fd_plugin 0%nat eq_refl).
Defined.

Lemma thread_selectors_ignore_event_witness :
  eval_field concatenate_paths_model example_table (open_evt 100)
    (mk_thread 100 50 "bash") (selector TYPE_CMDLINE 0)
  = eval_field concatenate_paths_model example_table (execve_evt 100)
      (mk_thread 100 50 "bash") (selector TYPE_CMDLINE 0).
Proof.
  exact (thread_selectors_ignore_event concatenate_paths_model example_table
           (open_evt 100) (execve_evt 100) (mk_thread 100 50 "bash")
           (selector TYPE_CMDLINE 0) eq_refl).
Defined.

(** [%proc.pname] and [%proc.aname[1]] for [bash], the child of [sshd]. *)
Lemma parent_selector_against_first_ancestor_witness :
  eval_field concatenate_paths_model example_table (execve_evt 100)
    (mk_thread 100 50 "bash") (selector TYPE_PNAME 0) = Ok (false, "sshd") /\
  eval_field concatenate_paths_model example_table (execve_evt 100)
    (mk_thread 100 50 "bash") (selector TYPE_ANAME 1) = Ok (false, "sshd").
Proof.
  exact (parent_selector_against_first_ancestor concatenate_paths_model
           example_table (execve_evt 100) (mk_thread 100 50 "bash")
           (selector TYPE_ANAME 1) (selector TYPE_PNAME 0) comm
           eq_refl eq_refl eq_refl).
Defined.

(** The name lineage of [bash] up to its second ancestor. *)
Lemma lineage_selector_concatenates_ancestors_witness :
  eval_field concatenate_paths_model example_table (execve_evt 100)
    (mk_thread 100 50 "bash") (selector TYPE_CUSTOM_ANAME_LINEAGE_CONCAT 2)
  = Ok (false,
        concat_str
          (map (fun i => field_value concatenate_paths_model example_table
                           (execve_evt 100) (mk_thread 100 50 "bash")
                           {| id := TYPE_ANAME; argid := Z.of_nat i;
                              argname := "" |})
               (seq 0 3))).
Proof.
  exact (lineage_selector_concatenates_ancestors concatenate_paths_model
           example_table (execve_evt 100) (mk_thread 100 50 "bash")
           (selector TYPE_CUSTOM_ANAME_LINEAGE_CONCAT 2) comm TYPE_ANAME
           eq_refl).
Defined.

(** A child of session 5 whose parent is of session 7 and whose
    grandparent is of session 5 again: the session leader is the child
    itself. *)
Lemma leader_selector_reads_ancestor_witness :
  eval_field concatenate_paths_model session_table (execve_evt 10)
    session_child (selector TYPE_SNAME 0) = Ok (false, "child").
Proof.
  destruct (leader_selector_reads_ancestor concatenate_paths_model
              session_table (execve_evt 10) session_child
              (selector TYPE_SNAME 0) sid 9%nat comm eq_refl)
    as (j & leader & _ & Hk & _ & Hpre & Heval & _).
  destruct j as [|j].
  - injection Hk as <-. exact Heval.
  - exfalso. destruct (Hpre 1%nat) as (a & Ha & Hkey); [lia|].
    vm_compute in Ha. injection Ha as <-. discriminate Hkey.
Defined.

(** [raw_profile] on an [open] of thread 100. *)
Lemma fingerprint_is_plain_concatenation_witness :
  extract_filterchecks_concat_profile concatenate_paths_model example_table
    (open_evt 100) raw_profile ""
  = Ok (true,
        "" +:+ concat_str
                 (map (field_value concatenate_paths_model example_table
                         (open_evt 100) (mk_thread 100 50 "bash"))
                      raw_profile)).
Proof.
  apply (fingerprint_is_plain_concatenation concatenate_paths_model
           example_table (open_evt 100) (mk_thread 100 50 "bash")
           raw_profile "").
  - reflexivity.
  - repeat (constructor; [split; [reflexivity | right; reflexivity]|]).
    constructor.
Defined.

(** [/etc/passwd], held as fd 5: directory [/etc], file name [passwd]. *)
Lemma directory_and_filename_rebuild_fdname_witness :
  field_value concatenate_paths_model example_table (open_evt 100)
    file_thread (selector TYPE_DIRECTORY 0)
  +:+ "/" +:+
  field_value concatenate_paths_model example_table (open_evt 100)
    file_thread (selector TYPE_FILENAME 0)
  = field_value concatenate_paths_model example_table (open_evt 100)
      file_thread (selector TYPE_FDNAME 0) /\
  lacks "/" (field_value concatenate_paths_model example_table (open_evt 100)
               file_thread (selector TYPE_FILENAME 0)).
Proof.
  destruct (directory_and_filename_rebuild_fdname concatenate_paths_model
              example_table (open_evt 100) file_thread
              (selector TYPE_FDNAME 0) (selector TYPE_DIRECTORY 0)
              (selector TYPE_FILENAME 0) eq_refl eq_refl eq_refl eq_refl)
    as [[Hno _] | Hsplit].
  - vm_compute in Hno. destruct Hno as [Hno _]. now contradiction Hno.
  - exact Hsplit.
Defined.

(** The socket [127.0.0.1:40000->10.0.0.1:443], held as fd 7. *)
Lemma fdname_parts_rebuild_fdname_witness :
  field_value concatenate_paths_model example_table (connect_evt 100)
    socket_thread (selector TYPE_CUSTOM_FDNAME_PART1 0)
  +:+ "->" +:+
  field_value concatenate_paths_model example_table (connect_evt 100)
    socket_thread (selector TYPE_CUSTOM_FDNAME_PART2 0)
  = field_value concatenate_paths_model example_table (connect_evt 100)
      socket_thread (selector TYPE_FDNAME 0).
Proof.
  destruct (fdname_parts_rebuild_fdname concatenate_paths_model
              example_table (connect_evt 100) socket_thread
              (selector TYPE_FDNAME 0) (selector TYPE_CUSTOM_FDNAME_PART1 0)
              (selector TYPE_CUSTOM_FDNAME_PART2 0)
              eq_refl eq_refl eq_refl eq_refl)
    as [[Hno _] | Hsplit].
  - vm_compute in Hno. discriminate Hno.
  - exact Hsplit.
Defined.


Lemma env_selector_blank_value_raises_witness :
  eval_field concatenate_paths_model example_table (execve_evt 100)
    blank_env_thread (env_selector "HOME") = Throw out_of_range.
Proof.
  apply (env_selector_blank_value_raises concatenate_paths_model example_table
           (execve_evt 100) blank_env_thread (env_selector "HOME")
           [ "PATH=/bin" ]%string [ "TERM=xterm" ]%string "   " "").
  - reflexivity.
  - discriminate.
  - reflexivity.
  - vm_compute. reflexivity.
  - discriminate.
  - repeat split.
Defined.

(** Parameter 1 of the [open] event, the name. *)
Lemma get_syscall_evt_param_finds_payload_witness :
  exists at_ : nat,
    get_syscall_evt_param (open_evt 100) 1
      = {| param_len := Z.of_nat (length (cstr_bytes "/etc/passwd"));
           param_pointer := Some (Z.of_nat at_) |} /\
    take (length (cstr_bytes "/etc/passwd"))
         (drop at_ (evt_data (open_evt 100)))
    = cstr_bytes "/etc/passwd".
Proof.
  apply (get_syscall_evt_param_finds_payload PPME_SYSCALL_OPEN_X 100
           [ le_bytes 8 5; cstr_bytes "/etc/passwd"; le_bytes 4 0; le_bytes 4 0;
             le_bytes 4 2049; le_bytes 8 131 ] 1 (cstr_bytes "/etc/passwd")).
  - reflexivity.
  - repeat constructor.
  - vm_compute. reflexivity.
Defined.

(** The inode of the [open] event of a thread the table does not hold. *)
Lemma raw_fallback_decodes_open_event_witness :
  extract_filterchecks_evt_params_fallbacks concatenate_paths_model
    (open_evt 300) (selector TYPE_INO 0) "/tmp" = to_string 131.
Proof.
  apply (raw_fallback_decodes_open_event concatenate_paths_model
           PPME_SYSCALL_OPEN_X 300
           [ le_bytes 8 5; cstr_bytes "/etc/passwd"; le_bytes 4 0; le_bytes 4 0;
             le_bytes 4 2049; le_bytes 8 131 ]
           5 2049 131 "/etc/passwd" "/tmp" (selector TYPE_INO 0)).
  - left. reflexivity.
  - repeat constructor.
  - vm_compute. reflexivity.
  - reflexivity.
  - split; [vm_compute; discriminate | vm_compute; reflexivity].
  - reflexivity.
  - repeat split; discriminate.
  - reflexivity.
  - split; [vm_compute; discriminate | vm_compute; reflexivity].
  - reflexivity.
  - split; [vm_compute; discriminate | vm_compute; reflexivity].
Defined.

(** [%fd.num] once the [open] of thread 100 has been parsed. *)
Lemma fd_num_agrees_with_raw_fallback_witness :
  exists te' : thread_entry,
    (parse_event concatenate_paths_model hash_model no_double
       plugin_on example_table (open_evt 100)).2 !! evt_tid (open_evt 100)
      = Some te' /\
    eval_field concatenate_paths_model
      (parse_event concatenate_paths_model hash_model no_double
         plugin_on example_table (open_evt 100)).2 (open_evt 100) te'
      (selector TYPE_FDNUM 0)
      = Ok (false,
            extract_filterchecks_evt_params_fallbacks concatenate_paths_model
              (open_evt 100) (selector TYPE_FDNUM 0) "").
Proof.
  exact (fd_num_agrees_with_raw_fallback concatenate_paths_model hash_model
           no_double plugin_on example_table (open_evt 100)
           (mk_thread 100 50 "bash") (selector TYPE_FDNUM 0)
           eq_refl eq_refl eq_refl eq_refl).
Defined.
